(** * LeadFlow24 backend (server.js): a shallow embedding and its properties

    The development follows the layout of [server.js]:
    - [Js]     : the JavaScript values and built-ins the handlers rely on
                 (parsed JSON, truthiness, [ToString], template literals,
                 [includes], doubles and [toFixed]);
    - [Store]  : the SQLite schema created at start-up, one record per table,
                 the way the driver binds the arguments of a statement, and
                 the statements the handlers prepare, with the constraints of
                 the schema (NOT NULL, UNIQUE, PRIMARY KEY, REFERENCES)
                 written out;
    - [Server] : [sendEmail], [getEmailTemplate] and the route handlers, over
                 a small state-and-exception monad.

    Conventions of the embedding.
    - Strings are byte strings. [toLowerCase] and [trim], which depend on
      the Unicode tables, are operations of the runtime.
    - Numbers are IEEE-754 binary64 values ([spec_float] at precision 53).
    - The bodies of [/api/subscribe], [/api/leads] and [PATCH /api/leads/:id]
      carry arbitrary parsed JSON in every field. The fields of the other
      bodies are absent, [null], or a value of the type of the column they
      are bound to.
    - A [DATETIME] column written by [CURRENT_TIMESTAMP] holds the text
      SQLite writes, ['YYYY-MM-DD HH:MM:SS']; [new Date(text)] and
      [setDate], which depend on the time zone of the server, are operations
      of the runtime.
    - [uuidv4()], the SMTP transport, the clock, [process.env] and the
      number-to-text conversions of JavaScript and SQLite are the fields of
      a [Runtime] record: the n-th call of [uuidv4] returns [uuidv4_at n]. *)

From Stdlib Require Import ZArith List String Ascii Bool Lia.
From Stdlib Require Import SpecFloat DecimalString Permutation Sorted.
Import ListNotations.
Local Open Scope string_scope.
Local Open Scope Z_scope.

(* ================================================================= *)
(** ** JavaScript values and built-ins *)

Module Js.

(** A property read from a parsed JSON body: absent ([undefined]), [null],
    or a value. *)
Inductive value (A : Type) : Type :=
| undefined
| null
| val (a : A).
Arguments undefined {A}.
Arguments null {A}.
Arguments val {A} a.

(** IEEE-754 binary64. *)
Definition prec : Z := 53.
Definition emax : Z := 1024.
Definition number : Type := spec_float.

Definition of_Z (n : Z) : number := binary_normalize prec emax n 0 false.
Definition of_nat (n : nat) : number := of_Z (Z.of_nat n).
Definition div (x y : number) : number := SFdiv prec emax x y.
Definition mul (x y : number) : number := SFmul prec emax x y.
Definition add (x y : number) : number := SFadd prec emax x y.

(** What [JSON.parse] yields besides [null]: a string, a number, a
    boolean, an array or an object. *)
#[warnings="-register-all"] Inductive raw : Type :=
| str (s : string)
| num (x : number)
| boolean (b : bool)
| array (xs : list (value raw))
| object (o : list (string * value raw)).

(** ToBoolean. *)
Definition truthy_string (v : value string) : bool :=
  match v with
  | val s => negb (s =? "")%string
  | _ => false
  end.

Definition truthy_number (v : value number) : bool :=
  match v with
  | val (S754_finite _ _ _) | val (S754_infinity _) => true
  | _ => false
  end.

Definition truthy (v : value raw) : bool :=
  match v with
  | val (str s) => negb (s =? "")%string
  | val (num x) => truthy_number (val x)
  | val (boolean b) => b
  | val (array _) | val (object _) => true
  | _ => false
  end.

(** [v !== undefined]. *)
Definition defined {A} (v : value A) : bool :=
  match v with
  | undefined => false
  | _ => true
  end.

(** [a || b] where [b] is a string literal. *)
Definition or_string (v : value string) (d : string) : string :=
  match v with
  | val s => if (s =? "")%string then d else s
  | _ => d
  end.

Definition or_literal (v : value raw) (d : string) : value raw :=
  if truthy v then v else val (str d).

(** [a || null]. *)
Definition or_null (v : value string) : option string :=
  match v with
  | val s => if (s =? "")%string then None else Some s
  | _ => None
  end.

(** [a || b], both body fields. *)
Definition or_value {A} (truthy : value A -> bool) (a b : value A) : value A :=
  if truthy a then a else b.

(** [`${v}`] in a template literal. *)
Definition tpl (v : value string) : string :=
  match v with
  | undefined => "undefined"
  | null => "null"
  | val s => s
  end.

(** ToString of a parsed value, given [Number::toString]: an array prints
    its elements separated by commas, [null] elements as the empty string;
    an object prints as [[object Object]]. An object with a property
    [toString] of its own has no primitive value (the property is not
    callable, and [valueOf] returns the object): the conversion throws,
    which is [None] here. *)
Fixpoint raw_toString (show : number -> string) (r : raw) : option string :=
  match r with
  | str s => Some s
  | num x => Some (show x)
  | boolean b => Some (if b then "true" else "false")
  | array xs =>
      (fix join (l : list (value raw)) : option string :=
         match l with
         | [] => Some ""
         | x :: rest =>
             match match x with
                   | val r' => raw_toString show r'
                   | _ => Some ""
                   end with
             | Some s =>
                 match rest with
                 | [] => Some s
                 | _ => match join rest with
                        | Some t => Some (s ++ "," ++ t)
                        | None => None
                        end
                 end
             | None => None
             end
         end) xs
  | object o =>
      if existsb (fun p => (fst p =? "toString")%string) o then None
      else Some "[object Object]"
  end.

Definition toString (show : number -> string) (v : value raw) : option string :=
  match v with
  | undefined => Some "undefined"
  | null => Some "null"
  | val r => raw_toString show r
  end.

(** [o?.p]: [undefined] when [o] is [undefined] or [null]. *)
Definition opt_chain {A B} (o : value A) (p : A -> value B) : value B :=
  match o with
  | val a => p a
  | _ => undefined
  end.

(** What the driver binds for a parameter of the column's type:
    [undefined] and [null] are both bound as SQL NULL. *)
Definition bind {A} (v : value A) : option A :=
  match v with
  | val a => Some a
  | _ => None
  end.

(** Absent, [null], a string or a number: what the driver binds as one
    parameter. *)
Definition scalar (v : value raw) : bool :=
  match v with
  | val (boolean _) | val (array _) | val (object _) => false
  | _ => true
  end.

(** [String.prototype.includes]. *)
Fixpoint includes (s sub : string) : bool :=
  String.prefix sub s ||
  match s with
  | EmptyString => false
  | String _ r => includes r sub
  end.

(** Decimal digits of a non-negative integer. *)
Definition digits (n : Z) : string := NilZero.string_of_uint (N.to_uint (Z.to_N n)).

Fixpoint zeros (k : nat) : string :=
  match k with
  | O => EmptyString
  | S k' => String "0" (zeros k')
  end.

(** [Number.prototype.toFixed(f)] (ECMA-262, 21.1.3.3): for a finite value
    below 1e21, [n] is the integer for which [n / 10^f - x] is closest to
    zero, the larger one on a tie; the digits of [n] are padded on the left
    to [f + 1] characters and the point goes before the last [f]. From 1e21
    on the result is [Number::toString] of the value. *)
Definition round_scaled (m : positive) (e : Z) (f : nat) : Z :=
  let scaled := Zpos m * 10 ^ Z.of_nat f in
  if 0 <=? e then scaled * 2 ^ e
  else (2 * scaled + 2 ^ (- e)) / 2 ^ (- e + 1).

Definition fixed_digits (n : Z) (f : nat) : string :=
  let d := digits n in
  let k := String.length d in
  let d := if (k <=? f)%nat then zeros (f + 1 - k) ++ d else d in
  let k := String.length d in
  match f with
  | O => d
  | _ => substring 0 (k - f) d ++ "." ++ substring (k - f) f d
  end.

(** [x >= 10^21] for a positive finite [m * 2^e]. *)
Definition huge (m : positive) (e : Z) : bool :=
  if 0 <=? e then 10 ^ 21 <=? Zpos m * 2 ^ e
  else 10 ^ 21 * 2 ^ (- e) <=? Zpos m.

Definition toFixed (show : number -> string) (x : number) (f : nat) : string :=
  match x with
  | S754_nan => "NaN"
  | S754_infinity s => if s then "-Infinity" else "Infinity"
  | S754_zero _ => fixed_digits 0 f
  | S754_finite s m e =>
      (if s then "-" else "") ++
      (if huge m e then show (S754_finite false m e)
       else fixed_digits (round_scaled m e f) f)
  end.

End Js.

(* ================================================================= *)
(** ** The store: schema, parameter binding and prepared statements *)

Module Store.

(** What a handler can catch. *)
Inductive exn : Type :=
| SqliteError (message : string)
| TypeError (message : string)
| RangeError (message : string)
| TransportError (message : string).

Definition message (e : exn) : string :=
  match e with
  | SqliteError m | TypeError m | RangeError m | TransportError m => m
  end.

(** A document handed to [JSON.stringify]: absent properties are dropped. *)
Definition json : Type := Js.value Js.raw.
Definition JNull : json := Js.null.
Definition JString (s : string) : json := Js.val (Js.str s).
Definition JNumber (x : Js.number) : json := Js.val (Js.num x).

Definition json_object : Type := list (string * json).

Definition prop_raw (k : string) (v : Js.value Js.raw) : json_object :=
  match v with
  | Js.undefined => []
  | _ => [(k, v)]
  end.

(** A value as SQLite holds it and as the driver hands it to JavaScript:
    NULL, a number or a text. *)
Inductive sql : Type :=
| Null
| Real (x : Js.number)
| Text (s : string).

(** One record per table of the [CREATE TABLE] script. A TEXT column
    declared NOT NULL has the type of its values, a nullable one is an
    [option]; the timestamps hold the text of [CURRENT_TIMESTAMP]; the
    REAL and DATETIME columns a request can write hold an [sql] value. *)

Module Subscriber.
Record t : Type := mk {
  id : string; email : string; source : option string; status : option string;
  created_at : string; updated_at : string }.
End Subscriber.

Module TrialSignup.
Record t : Type := mk {
  id : string; first_name : string; last_name : string; business_name : string;
  email : string; phone : string; industry : string; city : string;
  source : option string; status : option string; notes : option string;
  assigned_to : option string; follow_up_date : option string;
  created_at : string; updated_at : string }.
End TrialSignup.

Module Client.
Record t : Type := mk {
  id : string; trial_id : option string; business_name : string;
  contact_name : string; email : string; phone : string; industry : string;
  city : string; service_area : option string; services_offered : option string;
  avg_job_value : option Js.number; plan : option string;
  plan_price : option Js.number; status : option string;
  dashboard_token : option string; whop_membership_id : option string;
  whop_user_id : option string; onboarded_at : option string;
  created_at : string; updated_at : string }.

(** [SET status = ?, whop_membership_id = ?, whop_user_id = ?,
    updated_at = CURRENT_TIMESTAMP]. *)
Definition set_membership (st : string) (m u : option string) (ts : string) (c : t) : t :=
  let 'mk a1 a2 a3 a4 a5 a6 a7 a8 a9 a10 a11 a12 a13 _ a15 _ _ a18 a19 _ := c in
  mk a1 a2 a3 a4 a5 a6 a7 a8 a9 a10 a11 a12 a13 (Some st) a15 m u a18 a19 ts.

(** [SET status = ?, updated_at = CURRENT_TIMESTAMP]. *)
Definition set_status (st : string) (ts : string) (c : t) : t :=
  let 'mk a1 a2 a3 a4 a5 a6 a7 a8 a9 a10 a11 a12 a13 _ a15 a16 a17 a18 a19 _ := c in
  mk a1 a2 a3 a4 a5 a6 a7 a8 a9 a10 a11 a12 a13 (Some st) a15 a16 a17 a18 a19 ts.
End Client.

Module Lead.
Record t : Type := mk {
  id : string; client_id : option string; capture_page : option string;
  name : string; email : option string; phone : string;
  service_needed : option string; address : option string; city : option string;
  postal_code : option string; message : option string; source : option string;
  utm_source : option string; utm_medium : option string;
  utm_campaign : option string; status : option string;
  contacted_at : sql; booked_at : sql;
  job_value : sql; notes : option string;
  created_at : string; updated_at : string }.

(** The assignments a [SET] clause on [leads] can carry. *)
Inductive assignment : Type :=
| SetStatus (v : option string)
| SetNotes (v : option string)
| SetJobValue (v : sql)
| SetContactedAt (v : sql)
| SetBookedAt (v : sql)
| SetUpdatedAtNow.

Definition assign (ts : string) (a : assignment) (l : t) : t :=
  let 'mk a1 a2 a3 a4 a5 a6 a7 a8 a9 a10 a11 a12 a13 a14 a15 st ca ba jv nt cr up := l in
  match a with
  | SetStatus v => mk a1 a2 a3 a4 a5 a6 a7 a8 a9 a10 a11 a12 a13 a14 a15 v ca ba jv nt cr up
  | SetNotes v => mk a1 a2 a3 a4 a5 a6 a7 a8 a9 a10 a11 a12 a13 a14 a15 st ca ba jv v cr up
  | SetJobValue v => mk a1 a2 a3 a4 a5 a6 a7 a8 a9 a10 a11 a12 a13 a14 a15 st ca ba v nt cr up
  | SetContactedAt v => mk a1 a2 a3 a4 a5 a6 a7 a8 a9 a10 a11 a12 a13 a14 a15 st v ba jv nt cr up
  | SetBookedAt v => mk a1 a2 a3 a4 a5 a6 a7 a8 a9 a10 a11 a12 a13 a14 a15 st ca v jv nt cr up
  | SetUpdatedAtNow => mk a1 a2 a3 a4 a5 a6 a7 a8 a9 a10 a11 a12 a13 a14 a15 st ca ba jv nt cr ts
  end.
End Lead.

Module LeadActivity.
Record t : Type := mk {
  id : string; lead_id : option string; action : string;
  details : option json_object; created_by : option string; created_at : string }.
End LeadActivity.

Module CapturePage.
Record t : Type := mk {
  id : string; client_id : option string; slug : string; title : string;
  industry : option string; city : option string; status : option string;
  views : Z; submissions : Z; created_at : string }.

Definition incr_views (p : t) : t :=
  let 'mk a1 a2 a3 a4 a5 a6 a7 v s a10 := p in mk a1 a2 a3 a4 a5 a6 a7 (v + 1) s a10.

Definition incr_submissions (p : t) : t :=
  let 'mk a1 a2 a3 a4 a5 a6 a7 v s a10 := p in mk a1 a2 a3 a4 a5 a6 a7 v (s + 1) a10.
End CapturePage.

Module EmailLog.
Record t : Type := mk {
  id : string; recipient : string; subject : string; template : option string;
  status : option string; created_at : string }.
End EmailLog.

(** The database file: each table in rowid (insertion) order. *)
Record DB : Type := mkDB {
  subscribers : list Subscriber.t;
  trial_signups : list TrialSignup.t;
  clients : list Client.t;
  leads : list Lead.t;
  lead_activity : list LeadActivity.t;
  capture_pages : list CapturePage.t;
  email_log : list EmailLog.t }.

Definition empty : DB := mkDB [] [] [] [] [] [] [].

Definition with_subscribers (v : list Subscriber.t) (d : DB) : DB :=
  mkDB v (trial_signups d) (clients d) (leads d) (lead_activity d) (capture_pages d) (email_log d).
Definition with_trial_signups (v : list TrialSignup.t) (d : DB) : DB :=
  mkDB (subscribers d) v (clients d) (leads d) (lead_activity d) (capture_pages d) (email_log d).
Definition with_clients (v : list Client.t) (d : DB) : DB :=
  mkDB (subscribers d) (trial_signups d) v (leads d) (lead_activity d) (capture_pages d) (email_log d).
Definition with_leads (v : list Lead.t) (d : DB) : DB :=
  mkDB (subscribers d) (trial_signups d) (clients d) v (lead_activity d) (capture_pages d) (email_log d).
Definition with_lead_activity (v : list LeadActivity.t) (d : DB) : DB :=
  mkDB (subscribers d) (trial_signups d) (clients d) (leads d) v (capture_pages d) (email_log d).
Definition with_capture_pages (v : list CapturePage.t) (d : DB) : DB :=
  mkDB (subscribers d) (trial_signups d) (clients d) (leads d) (lead_activity d) v (email_log d).
Definition with_email_log (v : list EmailLog.t) (d : DB) : DB :=
  mkDB (subscribers d) (trial_signups d) (clients d) (leads d) (lead_activity d) (capture_pages d) v.

(** Constraint failures, with the text SQLite puts in [err.message]. *)
Definition not_null (table col : string) : exn :=
  SqliteError ("NOT NULL constraint failed: " ++ table ++ "." ++ col).
Definition unique (table col : string) : exn :=
  SqliteError ("UNIQUE constraint failed: " ++ table ++ "." ++ col).
Definition foreign_key : exn := SqliteError "FOREIGN KEY constraint failed".

(** What the driver throws while it binds the arguments of [run] or
    [get]. *)
Definition cannot_bind : exn :=
  TypeError "SQLite3 can only bind numbers, strings, bigints, buffers, and null".
Definition too_many : exn := RangeError "Too many parameter values were provided".
Definition too_few : exn := RangeError "Too few parameter values were provided".
Definition two_objects : exn :=
  TypeError "You cannot specify named parameters in two different objects".

(** Sequencing of statements that can fail. *)
Definition and_then {A B} (r : exn + A) (k : A -> exn + B) : exn + B :=
  match r with
  | inl e => inl e
  | inr a => k a
  end.

Notation "'let*' x ':=' r 'in' k" := (and_then r (fun x => k))
  (at level 10, x name, r at level 100, k at level 200).

(** One value bound to one parameter: [undefined] and [null] as NULL, a
    number as a double, a string as text; nothing else can be bound. *)
Definition bind_value (v : Js.value Js.raw) : exn + sql :=
  match v with
  | Js.undefined | Js.null => inr Null
  | Js.val (Js.num x) => inr (Real x)
  | Js.val (Js.str s) => inr (Text s)
  | Js.val _ => inl cannot_bind
  end.

(** The next anonymous parameter of a statement with [n] of them, [bound]
    being the values bound so far. *)
Definition bind_next (n : nat) (v : Js.value Js.raw) (bound : list sql) : exn + list sql :=
  let* p := bind_value v in
  if (List.length bound <? n)%nat then inr (bound ++ [p])%list else inl too_many.

Fixpoint bind_array (n : nat) (xs : list (Js.value Js.raw)) (bound : list sql)
    : exn + list sql :=
  match xs with
  | [] => inr bound
  | x :: rest => let* bound' := bind_next n x bound in bind_array n rest bound'
  end.

(** The arguments of [run(...)] or [get(...)], from left to right: an
    array argument gives its elements to the next parameters, a plain
    object argument gives values to named parameters (the statements of
    the server have none, and a second object is refused), any other
    argument is one value. At the end every parameter must be bound. *)
Fixpoint bind_arguments (n : nat) (args : list (Js.value Js.raw)) (bound : list sql)
    (named : bool) : exn + list sql :=
  match args with
  | [] => if (List.length bound <? n)%nat then inl too_few else inr bound
  | Js.val (Js.array xs) :: rest =>
      let* bound' := bind_array n xs bound in bind_arguments n rest bound' named
  | Js.val (Js.object _) :: rest =>
      if named then inl two_objects else bind_arguments n rest bound true
  | v :: rest =>
      let* bound' := bind_next n v bound in bind_arguments n rest bound' named
  end.

(** The parameters of a statement with [n] question marks. *)
Definition bind_parameters (n : nat) (args : list (Js.value Js.raw)) : exn + list sql :=
  bind_arguments n args [] false.

(** The [i]-th parameter. *)
Definition parameter (ps : list sql) (i : nat) : sql := nth i ps Null.

(** A TEXT column, or a comparison with one, turns a number into text;
    [show] is the text SQLite prints for a double. *)
Definition as_text (show : Js.number -> string) (p : sql) : option string :=
  match p with
  | Null => None
  | Real x => Some (show x)
  | Text s => Some s
  end.

(** A REAL or DATETIME column turns a text that reads as a number into
    that number; [read] is the reading of SQLite. *)
Definition as_numeric (read : string -> option Js.number) (p : sql) : sql :=
  match p with
  | Text s =>
      match read s with
      | Some x => Real x
      | None => Text s
      end
  | _ => p
  end.

(** A string, or [null], that the handler itself passes as an argument. *)
Definition arg (v : option string) : Js.value Js.raw :=
  match v with
  | Some s => Js.val (Js.str s)
  | None => Js.null
  end.

(** A bound parameter for a NOT NULL column. *)
Definition required (table col : string) (v : option string) : exn + string :=
  match v with
  | Some s => inr s
  | None => inl (not_null table col)
  end.

Definition has {R} (key : R -> string) (k : string) (rows : list R) : bool :=
  existsb (fun r => (key r =? k)%string) rows.

(** A nullable column that REFERENCES the primary key of another table
    (the driver opens the database with foreign keys enforced). *)
Definition references {R} (key : R -> string) (rows : list R) (v : option string) : bool :=
  match v with
  | None => true
  | Some k => has key k rows
  end.

(** [INSERT OR IGNORE INTO subscribers (id, email, source) VALUES (?, ?, ?)]:
    a row that would break a constraint is skipped without an error. *)
Definition insert_or_ignore_subscriber (ts : string) (id email : string)
    (source : option string) (d : DB) : DB :=
  if has Subscriber.id id (subscribers d) || has Subscriber.email email (subscribers d)
  then d
  else with_subscribers
         (subscribers d ++ [Subscriber.mk id email source (Some "active") ts ts]) d.

(** [INSERT INTO trial_signups (id, first_name, last_name, business_name,
    email, phone, industry, city, source, status) VALUES (?, ..., 'new')].
    SQLite tests the NOT NULL columns first, then the unique indexes. *)
Definition insert_trial_signup (ts : string) (id : string)
    (first_name last_name business_name : option string) (email : string)
    (phone industry city : option string) (source : string) (d : DB) : exn + DB :=
  let* fn := required "trial_signups" "first_name" first_name in
  let* ln := required "trial_signups" "last_name" last_name in
  let* bn := required "trial_signups" "business_name" business_name in
  let* ph := required "trial_signups" "phone" phone in
  let* ind := required "trial_signups" "industry" industry in
  let* ci := required "trial_signups" "city" city in
  if has TrialSignup.id id (trial_signups d) then inl (unique "trial_signups" "id")
  else if has TrialSignup.email email (trial_signups d)
  then inl (unique "trial_signups" "email")
  else inr (with_trial_signups
              (trial_signups d ++
               [TrialSignup.mk id fn ln bn email ph ind ci (Some source) (Some "new")
                  None None None ts ts]) d).

(** [INSERT INTO leads (id, client_id, capture_page, name, email, phone,
    service_needed, address, city, postal_code, message, source, utm_source,
    utm_medium, utm_campaign, status) VALUES (?, ..., 'new')]. *)
Definition insert_lead (ts : string) (id : string) (client_id capture_page name email phone
    service_needed address city postal_code message source
    utm_source utm_medium utm_campaign : option string) (d : DB) : exn + DB :=
  let* nm := required "leads" "name" name in
  let* ph := required "leads" "phone" phone in
  if has Lead.id id (leads d) then inl (unique "leads" "id")
  else if negb (references Client.id (clients d) client_id) then inl foreign_key
  else inr (with_leads
              (leads d ++
               [Lead.mk id client_id capture_page nm email ph service_needed address city
                  postal_code message source utm_source utm_medium utm_campaign
                  (Some "new") Null Null Null None ts ts]) d).

(** [INSERT INTO lead_activity (id, lead_id, action, details) VALUES (?, ?, ?, ?)]. *)
Definition insert_lead_activity (ts : string) (id : string) (lead_id : option string)
    (action : string) (details : json_object) (d : DB) : exn + DB :=
  if has LeadActivity.id id (lead_activity d) then inl (unique "lead_activity" "id")
  else if negb (references Lead.id (leads d) lead_id) then inl foreign_key
  else inr (with_lead_activity
              (lead_activity d ++
               [LeadActivity.mk id lead_id action (Some details) None ts]) d).

(** [INSERT INTO email_log (id, recipient, subject, template, status)
    VALUES (?, ?, ?, ?, ?)]. *)
Definition insert_email_log (ts : string) (id recipient subject template status : string)
    (d : DB) : exn + DB :=
  if has EmailLog.id id (email_log d) then inl (unique "email_log" "id")
  else inr (with_email_log
              (email_log d ++
               [EmailLog.mk id recipient subject (Some template) (Some status) ts]) d).

(** [SELECT client_id FROM capture_pages WHERE slug = ?], [.get]. *)
Definition select_capture_page (slug : string) (d : DB) : option CapturePage.t :=
  find (fun p => (CapturePage.slug p =? slug)%string) (capture_pages d).

(** The same with the parameter as it is bound: NULL equals no slug. *)
Definition select_capture_page_where (slug : option string) (d : DB)
    : option CapturePage.t :=
  match slug with
  | Some s => select_capture_page s d
  | None => None
  end.

(** [SELECT * FROM clients WHERE id = ?], [.get]. *)
Definition select_client (id : string) (d : DB) : option Client.t :=
  find (fun c => (Client.id c =? id)%string) (clients d).

(** [SELECT * FROM clients WHERE dashboard_token = ?], [.get]. *)
Definition select_client_by_token (token : string) (d : DB) : option Client.t :=
  find (fun c => match Client.dashboard_token c with
                 | Some t => (t =? token)%string
                 | None => false
                 end) (clients d).

(** [SELECT * FROM leads WHERE id = ?], [.get]. *)
Definition select_lead (id : string) (d : DB) : option Lead.t :=
  find (fun l => (Lead.id l =? id)%string) (leads d).

(** [ORDER BY created_at DESC] on the text of the timestamps; rows of equal
    [created_at] stay in rowid order. *)
Fixpoint insert_desc (l : Lead.t) (sorted : list Lead.t) : list Lead.t :=
  match sorted with
  | [] => [l]
  | x :: r =>
      if String.leb (Lead.created_at x) (Lead.created_at l) then l :: sorted
      else x :: insert_desc l r
  end.

Definition order_by_created_at_desc (rows : list Lead.t) : list Lead.t :=
  fold_right insert_desc [] rows.

Definition of_client (client_id : string) (l : Lead.t) : bool :=
  match Lead.client_id l with
  | Some c => (c =? client_id)%string
  | None => false
  end.

(** [SELECT * FROM leads WHERE client_id = ? ORDER BY created_at DESC], [.all]. *)
Definition select_leads_of_client (client_id : string) (d : DB) : list Lead.t :=
  order_by_created_at_desc (filter (of_client client_id) (leads d)).

(** [UPDATE leads SET <assignments> WHERE id = ?]. *)
Definition update_lead (ts : string) (assignments : list Lead.assignment) (id : string)
    (d : DB) : DB :=
  with_leads
    (map (fun l => if (Lead.id l =? id)%string
                   then fold_left (fun l a => Lead.assign ts a l) assignments l
                   else l) (leads d)) d.

(** The same with the parameter as it is bound: NULL equals no id. *)
Definition update_lead_where (ts : string) (assignments : list Lead.assignment)
    (id : option string) (d : DB) : DB :=
  match id with
  | Some i => update_lead ts assignments i d
  | None => d
  end.

(** [UPDATE capture_pages SET submissions = submissions + 1 WHERE slug = ?]. *)
Definition update_submissions (slug : string) (d : DB) : DB :=
  with_capture_pages
    (map (fun p => if (CapturePage.slug p =? slug)%string
                   then CapturePage.incr_submissions p else p) (capture_pages d)) d.

Definition update_submissions_where (slug : option string) (d : DB) : DB :=
  match slug with
  | Some s => update_submissions s d
  | None => d
  end.

(** [UPDATE capture_pages SET views = views + 1 WHERE slug = ?]. *)
Definition update_views (slug : string) (d : DB) : DB :=
  with_capture_pages
    (map (fun p => if (CapturePage.slug p =? slug)%string
                   then CapturePage.incr_views p else p) (capture_pages d)) d.

(** [UPDATE clients SET status = 'active', whop_membership_id = ?,
    whop_user_id = ?, updated_at = CURRENT_TIMESTAMP WHERE email = ?]. *)
Definition update_client_active (ts : string) (membership user : option string)
    (email : string) (d : DB) : DB :=
  with_clients
    (map (fun c => if (Client.email c =? email)%string
                   then Client.set_membership "active" membership user ts c
                   else c) (clients d)) d.

(** [UPDATE clients SET status = 'churned', updated_at = CURRENT_TIMESTAMP
    WHERE email = ?]. *)
Definition update_client_churned (ts : string) (email : string) (d : DB) : DB :=
  with_clients
    (map (fun c => if (Client.email c =? email)%string
                   then Client.set_status "churned" ts c
                   else c) (clients d)) d.

End Store.

(* ================================================================= *)
(** ** The server: runtime, email service, route handlers *)

Module Server.
Import Store.

(** What the process reads from outside during one request: the identifiers
    [uuidv4()] returns, the outcome of each [transporter.sendMail] (the
    message of the rejection, or the delivery info), the clock of
    JavaScript ([now], the milliseconds of [new Date()]) and of SQLite
    ([CURRENT_TIMESTAMP]), the environment, and the library functions that
    are not spelled out here:
    - [Date_parse text] is the time value of [new Date(text)], or [None]
      for an invalid date;
    - [setDate t n] is the time value after [d.setDate(d.getDate() + n)] on
      a date with time value [t];
    - [number_toString] is [Number::toString];
    - [toLowerCase] and [trim] are the methods of [String.prototype];
    - [real_text] is the text SQLite stores for a double in a TEXT column;
    - [real_of_text] and [numeric_of_text] are the number SQLite stores,
      and the driver reads back, for a text in a REAL and in a DATETIME
      column, when the text reads as a number. *)
Record Runtime : Type := mkRuntime {
  uuidv4_at : nat -> string;
  sendMail_at : nat -> string + string;
  now : Z;
  CURRENT_TIMESTAMP : string;
  Date_parse : string -> option Z;
  setDate : Z -> Z -> Z;
  NOTIFICATION_EMAIL : option string;
  WEBHOOK_SECRET : option string;
  WHOP_WEBHOOK_SECRET : option string;
  number_toString : Js.number -> string;
  toLowerCase : string -> string;
  trim : string -> string;
  real_text : Js.number -> string;
  real_of_text : string -> option Js.number;
  numeric_of_text : string -> option Js.number }.

(** The state a request runs in: the database, the console, and how many
    identifiers and deliveries have been asked for so far. *)
Record World : Type := mkWorld {
  db : DB;
  console : list string;
  uuid_calls : nat;
  mail_calls : nat }.

(** State and exceptions: a [throw] keeps the writes made before it. *)
Definition M (A : Type) : Type := World -> (exn + A) * World.

Definition ret {A} (a : A) : M A := fun w => (inr a, w).

Definition bind {A B} (m : M A) (k : A -> M B) : M B :=
  fun w =>
    match m w with
    | (inr a, w') => k a w'
    | (inl e, w') => (inl e, w')
    end.

Definition throw {A} (e : exn) : M A := fun w => (inl e, w).

Definition try_catch {A} (m : M A) (handler : exn -> M A) : M A :=
  fun w =>
    match m w with
    | (inr a, w') => (inr a, w')
    | (inl e, w') => handler e w'
    end.

Notation "x <- m ;; k" := (bind m (fun x => k))
  (at level 61, m at next level, right associativity).
Notation "m ;; k" := (bind m (fun _ => k))
  (at level 61, right associativity).

Definition lift {A} (r : exn + A) : M A := fun w => (r, w).

Definition query {A} (q : DB -> A) : M A := fun w => (inr (q (db w)), w).

Definition exec (stmt : DB -> DB) : M unit :=
  fun w => (inr tt, mkWorld (stmt (db w)) (console w) (uuid_calls w) (mail_calls w)).

Definition run_stmt (stmt : DB -> exn + DB) : M unit :=
  fun w =>
    match stmt (db w) with
    | inr d => (inr tt, mkWorld d (console w) (uuid_calls w) (mail_calls w))
    | inl e => (inl e, w)
    end.

Definition console_write (line : string) : M unit :=
  fun w => (inr tt, mkWorld (db w) (console w ++ [line]) (uuid_calls w) (mail_calls w)).

Definition when (c : bool) (m : M unit) : M unit := if c then m else ret tt.

(** [process.env.X || default]. *)
Definition env_or (v : option string) (d : string) : string :=
  match v with
  | Some s => if (s =? "")%string then d else s
  | None => d
  end.

(** [a === b] on two values that are strings or [undefined]. *)
Definition strict_eq (a b : option string) : bool :=
  match a, b with
  | Some x, Some y => (x =? y)%string
  | None, None => true
  | _, _ => false
  end.

(** [v === 'literal']. *)
Definition equals (v : Js.value string) (lit : string) : bool :=
  match v with
  | Js.val s => (s =? lit)%string
  | _ => false
  end.

(** The HTTP response: status code and body. *)
Inductive num_or_string : Type :=
| Num (x : Js.number)
| Str (s : string).

Record ClientInfo : Type := mkClientInfo {
  businessName : string; plan : option string;
  industry : string; city : string }.

Record Stats : Type := mkStats {
  totalLeads : nat; newLeads : nat; contactedLeads : nat; bookedLeads : nat;
  totalRevenue : num_or_string; closeRate : num_or_string; costPerLead : num_or_string }.

Record Bucket : Type := mkBucket { week : string; count : nat }.

Module RecentLead.
Record t : Type := mk {
  id : string; name : string; phone : string; serviceNeeded : option string;
  city : option string; status : option string; jobValue : sql;
  createdAt : string }.
End RecentLead.

Record Dashboard : Type := mkDashboard {
  client : ClientInfo;
  stats : Stats;
  weeklyLeads : list Bucket;
  recentLeads : list RecentLead.t }.

Inductive Body : Type :=
| Error (error : string)
| Success
| SuccessMessage (message : string)
| SuccessId (id message : string)
| Received
| Sent (text : option string)
| StatusText (text : string)
| DashboardJson (d : Dashboard).

Record Response : Type := mkResponse { status : Z; body : Body }.

(** Request bodies, as the handlers destructure them. *)
Module SubscribeBody.
Record t : Type := mk { email : Js.value Js.raw; source : Js.value Js.raw }.
End SubscribeBody.

Module TrialBody.
Record t : Type := mk {
  firstName : Js.value string; lastName : Js.value string;
  businessName : Js.value string; email : Js.value string;
  phone : Js.value string; industry : Js.value string;
  city : Js.value string; source : Js.value string }.
End TrialBody.

Module LeadBody.
Record t : Type := mk {
  name : Js.value Js.raw; email : Js.value Js.raw; phone : Js.value Js.raw;
  service_needed : Js.value Js.raw; address : Js.value Js.raw;
  city : Js.value Js.raw; postal_code : Js.value Js.raw;
  message : Js.value Js.raw; source : Js.value Js.raw;
  utm_source : Js.value Js.raw; utm_medium : Js.value Js.raw;
  utm_campaign : Js.value Js.raw; capture_page : Js.value Js.raw }.

(** Every field is absent, [null], a string or a number. *)
Definition scalars (b : t) : bool :=
  forallb Js.scalar
    [name b; email b; phone b; service_needed b; address b; city b; postal_code b;
     message b; source b; utm_source b; utm_medium b; utm_campaign b; capture_page b].
End LeadBody.

Module PatchBody.
Record t : Type := mk {
  status : Js.value Js.raw; notes : Js.value Js.raw;
  job_value : Js.value Js.raw; contacted_at : Js.value Js.raw;
  booked_at : Js.value Js.raw }.

Definition scalars (b : t) : bool :=
  forallb Js.scalar [status b; notes b; job_value b; contacted_at b; booked_at b].
End PatchBody.

Module WhopUser.
Record t : Type := mk {
  email : Js.value string; id : Js.value string; username : Js.value string }.
End WhopUser.

Module WhopPlan.
Record t : Type := mk {
  id : Js.value string; initial_price : Js.value Js.number;
  renewal_price : Js.value Js.number; plan_type : Js.value string }.
End WhopPlan.

Module WhopData.
Record t : Type := mk {
  user : Js.value WhopUser.t; plan : Js.value WhopPlan.t;
  membership : Js.value string; id : Js.value string }.
End WhopData.

Module WhopBody.
Record t : Type := mk { action : Js.value string; data : Js.value WhopData.t }.
End WhopBody.

(** The payload of [getEmailTemplate]: the properties its subjects and the
    [toUpperCase] call read, as the template literals print them. *)
Module TemplateData.
Record t : Type := mk {
  firstName : Js.value string; leadName : Js.value string;
  serviceNeeded : Js.value string; type : Js.value string;
  summary : Js.value string; businessName : Js.value string }.
End TemplateData.

(** A rendered template. The [html] part is a string built from the same
    payload and is only handed to the transport; it is not kept here. *)
Record Template : Type := mkTemplate { subject : string }.

(** The columns a status update can set from the body. *)
Inductive column : Type :=
| Status
| Notes
| JobValue
| ContactedAt
| BookedAt.

Section Handlers.

Variable rt : Runtime.

Definition uuidv4 : M string :=
  fun w => (inr (uuidv4_at rt (uuid_calls w)),
            mkWorld (db w) (console w) (S (uuid_calls w)) (mail_calls w)).

Definition transporter_sendMail : M string :=
  fun w =>
    let w' := mkWorld (db w) (console w) (uuid_calls w) (S (mail_calls w)) in
    match sendMail_at rt (mail_calls w) with
    | inl msg => (inl (TransportError msg), w')
    | inr info => (inr info, w')
    end.

Definition notification_email : string :=
  env_or (NOTIFICATION_EMAIL rt) "luke@leadflow24.com".

(** [`${v}`] for a parsed value. *)
Definition show (v : Js.value Js.raw) : exn + string :=
  match Js.toString (number_toString rt) v with
  | Some s => inr s
  | None => inl (TypeError "Cannot convert object to primitive value")
  end.

(** The value of a TEXT column for a bound parameter. *)
Definition text_column (ps : list sql) (i : nat) : option string :=
  as_text (real_text rt) (parameter ps i).

(** [async function sendEmail(to, subject, html, text)]. *)
Definition sendEmail (to subject : string) : M (option string) :=
  try_catch
    (info <- transporter_sendMail ;;
     id <- uuidv4 ;;
     run_stmt (insert_email_log (CURRENT_TIMESTAMP rt) id to subject "custom" "sent") ;;
     ret (Some info))
    (fun err =>
       console_write ("Email send failed: " ++ message err) ;;
       id <- uuidv4 ;;
       run_stmt (insert_email_log (CURRENT_TIMESTAMP rt) id to subject "custom" "failed") ;;
       ret None).

(** [function getEmailTemplate(type, data)]. The object literal [templates]
    renders its four entries before the lookup [templates[type] || null].
    The payload holds strings here (a caller with parsed values prints
    them first), so the one step of the rendering that can throw is
    [data.type.toUpperCase()] in the html of [internal_notification]. *)
Definition getEmailTemplate (type : string) (data : TemplateData.t) : exn + option Template :=
  match TemplateData.type data with
  | Js.undefined =>
      inl (TypeError "Cannot read properties of undefined (reading 'toUpperCase')")
  | Js.null =>
      inl (TypeError "Cannot read properties of null (reading 'toUpperCase')")
  | Js.val _ =>
      inr (if (type =? "trial_welcome")%string then
             Some (mkTemplate ("Welcome to LeadFlow24, "
                               ++ Js.tpl (TemplateData.firstName data)
                               ++ "! Your trial starts now."))
           else if (type =? "new_lead_notification")%string then
             Some (mkTemplate ("🔔 New Lead: " ++ Js.tpl (TemplateData.leadName data)
                               ++ " needs " ++ Js.tpl (TemplateData.serviceNeeded data)))
           else if (type =? "internal_notification")%string then
             Some (mkTemplate ("[LeadFlow24] " ++ Js.tpl (TemplateData.type data)
                               ++ ": " ++ Js.tpl (TemplateData.summary data)))
           else if (type =? "weekly_report")%string then
             Some (mkTemplate ("📊 Your Weekly Lead Report — "
                               ++ Js.tpl (TemplateData.businessName data)))
           else None)
  end.

(** [t.html] or [t.subject] on the result of [getEmailTemplate]. *)
Definition property (name : string) (t : option Template) : M Template :=
  match t with
  | Some t => ret t
  | None => throw (TypeError ("Cannot read properties of null (reading '" ++ name ++ "')"))
  end.

(** [getEmailTemplate('internal_notification', { type, summary, details }).html]. *)
Definition internal_notification_html (type summary : string) : M Template :=
  t <- lift (getEmailTemplate "internal_notification"
               (TemplateData.mk Js.undefined Js.undefined Js.undefined
                  (Js.val type) (Js.val summary) Js.undefined)) ;;
  property "html" t.

(** [email.toLowerCase().trim()] on a truthy value: only a string has the
    method. *)
Definition lower_trimmed (name : string) (v : Js.value Js.raw) : exn + string :=
  match v with
  | Js.val (Js.str s) => inr (trim rt (toLowerCase rt s))
  | _ => inl (TypeError (name ++ ".toLowerCase is not a function"))
  end.

(** [app.post('/api/subscribe', ...)]. *)
Definition post_subscribe (b : SubscribeBody.t) : M Response :=
  let email := SubscribeBody.email b in
  let source := SubscribeBody.source b in
  try_catch
    (if negb (Js.truthy email)
     then ret (mkResponse 400 (Error "Email required"))
     else
       id <- uuidv4 ;;
       address <- lift (lower_trimmed "email" email) ;;
       ps <- lift (bind_parameters 3
                     [arg (Some id); arg (Some address); Js.or_literal source "website"]) ;;
       exec (insert_or_ignore_subscriber (CURRENT_TIMESTAMP rt) id address
               (text_column ps 2)) ;;
       printed <- lift (show email) ;;
       _ <- internal_notification_html "New Subscriber" printed ;;
       _ <- sendEmail notification_email
              ("[LeadFlow24] New subscriber: " ++ printed) ;;
       ret (mkResponse 200 (SuccessMessage "Subscribed successfully")))
    (fun err =>
       console_write ("Subscribe error: " ++ message err) ;;
       ret (mkResponse 500 (Error "Subscription failed"))).

(** [app.post('/api/trial-signup', ...)]. *)
Definition post_trial_signup (b : TrialBody.t) : M Response :=
  let firstName := TrialBody.firstName b in
  let lastName := TrialBody.lastName b in
  let businessName := TrialBody.businessName b in
  let email := TrialBody.email b in
  let phone := TrialBody.phone b in
  let industry := TrialBody.industry b in
  let city := TrialBody.city b in
  let source := TrialBody.source b in
  try_catch
    (if negb (Js.truthy_string firstName) || negb (Js.truthy_string email)
        || negb (Js.truthy_string phone)
     then ret (mkResponse 400 (Error "First name, email, and phone required"))
     else
       id <- uuidv4 ;;
       run_stmt (insert_trial_signup (CURRENT_TIMESTAMP rt) id (Js.bind firstName)
                   (Js.bind lastName) (Js.bind businessName)
                   (trim rt (toLowerCase rt (Js.tpl email)))
                   (Js.bind phone) (Js.bind industry) (Js.bind city)
                   (Js.or_string source "free_trial_page")) ;;
       sid <- uuidv4 ;;
       exec (insert_or_ignore_subscriber (CURRENT_TIMESTAMP rt) sid
               (trim rt (toLowerCase rt (Js.tpl email))) (Some "trial_signup")) ;;
       welcomeEmail <- lift (getEmailTemplate "trial_welcome"
                               (TemplateData.mk firstName Js.undefined Js.undefined
                                  Js.undefined Js.undefined Js.undefined)) ;;
       match welcomeEmail with
       | Some t => _ <- sendEmail (Js.tpl email) (subject t) ;; ret tt
       | None => ret tt
       end ;;
       _ <- internal_notification_html "Trial Signup"
              (Js.tpl firstName ++ " " ++ Js.tpl lastName ++ " — " ++ Js.tpl businessName) ;;
       _ <- sendEmail notification_email
              ("🚀 NEW TRIAL SIGNUP: " ++ Js.tpl businessName ++ " (" ++ Js.tpl industry
               ++ ") — " ++ Js.tpl city) ;;
       ret (mkResponse 200 (SuccessId id "Trial signup successful")))
    (fun err =>
       if Js.includes (message err) "UNIQUE"
       then ret (mkResponse 409 (Error "Email already registered for a trial"))
       else
         console_write ("Trial signup error: " ++ message err) ;;
         ret (mkResponse 500 (Error "Signup failed"))).

(** [app.post('/api/leads', ...)], first part: the client of the capture
    page is looked up, the lead is inserted, the submission is counted on
    the page and the activity is logged. The result is the identifier of
    the lead and [clientId]. *)
Definition store_lead (b : LeadBody.t) : M (string * option string) :=
  let source := LeadBody.source b in
  let capture_page := LeadBody.capture_page b in
  clientId <-
    (if Js.truthy capture_page then
       ps <- lift (bind_parameters 1 [capture_page]) ;;
       page <- query (select_capture_page_where (text_column ps 0)) ;;
       ret (match page with
            | Some p => CapturePage.client_id p
            | None => None
            end)
     else ret None) ;;
  id <- uuidv4 ;;
  ps <- lift (bind_parameters 15
                [arg (Some id); arg clientId; capture_page; LeadBody.name b;
                 LeadBody.email b; LeadBody.phone b; LeadBody.service_needed b;
                 LeadBody.address b; LeadBody.city b; LeadBody.postal_code b;
                 LeadBody.message b; Js.or_literal source "facebook";
                 LeadBody.utm_source b; LeadBody.utm_medium b;
                 LeadBody.utm_campaign b]) ;;
  run_stmt (insert_lead (CURRENT_TIMESTAMP rt) id clientId (text_column ps 2)
              (text_column ps 3) (text_column ps 4) (text_column ps 5)
              (text_column ps 6) (text_column ps 7) (text_column ps 8)
              (text_column ps 9) (text_column ps 10) (text_column ps 11)
              (text_column ps 12) (text_column ps 13) (text_column ps 14)) ;;
  when (Js.truthy capture_page)
       (ps <- lift (bind_parameters 1 [capture_page]) ;;
        exec (update_submissions_where (text_column ps 0))) ;;
  aid <- uuidv4 ;;
  run_stmt (insert_lead_activity (CURRENT_TIMESTAMP rt) aid (Some id) "created"
              (prop_raw "source" source
               ++ prop_raw "capture_page" capture_page)%list) ;;
  ret (id, clientId).

(** Second part: [if (clientId) { ... }], the notification of the client.
    The template prints the name, the service, the phone, the city and a
    truthy message of the lead before it reaches the entry that throws. *)
Definition notify_client (b : LeadBody.t) (clientId : option string) : M unit :=
  match clientId with
  | Some cid =>
      if (cid =? "")%string then ret tt
      else
        client <- query (select_client cid) ;;
        match client with
        | Some c =>
            leadName <- lift (show (LeadBody.name b)) ;;
            serviceNeeded <- lift (show (Js.or_literal (LeadBody.service_needed b)
                                          "Service request")) ;;
            _ <- lift (show (LeadBody.phone b)) ;;
            _ <- lift (show (Js.or_literal (LeadBody.city b) "Local area")) ;;
            _ <- lift (if Js.truthy (LeadBody.message b)
                       then show (LeadBody.message b) else inr "") ;;
            leadEmail <- lift (getEmailTemplate "new_lead_notification"
                                 (TemplateData.mk Js.undefined (Js.val leadName)
                                    (Js.val serviceNeeded)
                                    Js.undefined Js.undefined Js.undefined)) ;;
            t <- property "subject" leadEmail ;;
            _ <- sendEmail (Client.email c) (subject t) ;;
            ret tt
        | None => ret tt
        end
  | None => ret tt
  end.

(** Third part: the notification of the operator. The subject is printed
    first, then the summary of the template. *)
Definition notify_operator (b : LeadBody.t) : M unit :=
  name <- lift (show (LeadBody.name b)) ;;
  service <- lift (show (Js.or_literal (LeadBody.service_needed b) "Service request")) ;;
  page <- lift (show (Js.or_literal (LeadBody.capture_page b) "direct")) ;;
  phone <- lift (show (LeadBody.phone b)) ;;
  _ <- internal_notification_html "New Lead" (name ++ " — " ++ phone) ;;
  _ <- sendEmail notification_email
         ("⚡ NEW LEAD: " ++ name ++ " — " ++ service ++ " (" ++ page ++ ")") ;;
  ret tt.

Definition post_leads (b : LeadBody.t) : M Response :=
  try_catch
    (if negb (Js.truthy (LeadBody.name b)) || negb (Js.truthy (LeadBody.phone b))
     then ret (mkResponse 400 (Error "Name and phone required"))
     else
       stored <- store_lead b ;;
       notify_client b (snd stored) ;;
       notify_operator b ;;
       ret (mkResponse 200 (SuccessId (fst stored) "Lead captured successfully")))
    (fun err =>
       console_write ("Lead capture error: " ++ message err) ;;
       ret (mkResponse 500 (Error "Lead capture failed"))).

(** The [updates] and [values] arrays of the PATCH handler, side by side:
    the columns that get a question mark, each with the value pushed for
    it. *)
Definition patch_values (b : PatchBody.t) : list (column * Js.value Js.raw) :=
  ((if Js.truthy (PatchBody.status b) then [(Status, PatchBody.status b)] else [])
   ++ (if Js.defined (PatchBody.notes b) then [(Notes, PatchBody.notes b)] else [])
   ++ (if Js.defined (PatchBody.job_value b)
       then [(JobValue, PatchBody.job_value b)] else [])
   ++ (if Js.truthy (PatchBody.contacted_at b)
       then [(ContactedAt, PatchBody.contacted_at b)] else [])
   ++ (if Js.truthy (PatchBody.booked_at b)
       then [(BookedAt, PatchBody.booked_at b)] else []))%list.

(** What a column of [leads] stores for a bound parameter. *)
Definition assignment_of (c : column) (p : sql) : Lead.assignment :=
  match c with
  | Status => Lead.SetStatus (as_text (real_text rt) p)
  | Notes => Lead.SetNotes (as_text (real_text rt) p)
  | JobValue => Lead.SetJobValue (as_numeric (real_of_text rt) p)
  | ContactedAt => Lead.SetContactedAt (as_numeric (numeric_of_text rt) p)
  | BookedAt => Lead.SetBookedAt (as_numeric (numeric_of_text rt) p)
  end.

(** The [SET] clause: the question marks take the parameters in order,
    [updated_at = CURRENT_TIMESTAMP] comes last. *)
Definition patch_updates (columns : list column) (ps : list sql) : list Lead.assignment :=
  (map (fun cp => assignment_of (fst cp) (snd cp)) (combine columns ps)
   ++ [Lead.SetUpdatedAtNow])%list.

(** [app.patch('/api/leads/:id', ...)]. *)
Definition patch_leads (id : string) (b : PatchBody.t) : M Response :=
  try_catch
    (lead <- query (select_lead id) ;;
     match lead with
     | None => ret (mkResponse 404 (Error "Lead not found"))
     | Some _ =>
         let columns := map fst (patch_values b) in
         ps <- lift (bind_parameters (S (List.length columns))
                       (map snd (patch_values b) ++ [arg (Some id)])) ;;
         exec (update_lead_where (CURRENT_TIMESTAMP rt) (patch_updates columns ps)
                 (text_column ps (List.length columns))) ;;
         aid <- uuidv4 ;;
         run_stmt (insert_lead_activity (CURRENT_TIMESTAMP rt) aid (Some id)
                     "status_updated"
                     (prop_raw "status" (PatchBody.status b)
                      ++ prop_raw "notes" (PatchBody.notes b)
                      ++ prop_raw "job_value" (PatchBody.job_value b))%list) ;;
         ret (mkResponse 200 (SuccessMessage "Lead updated"))
     end)
    (fun err =>
       console_write ("Lead update error: " ++ message err) ;;
       ret (mkResponse 500 (Error "Update failed"))).

(** [leads.filter(l => l.status === s).length]. *)
Definition has_status (s : string) (l : Lead.t) : bool :=
  match Lead.status l with
  | Some x => (x =? s)%string
  | None => false
  end.

Definition count_status (s : string) (leads : list Lead.t) : nat :=
  List.length (filter (has_status s) leads).

(** [l.job_value || 0]. *)
Definition or_zero (v : sql) : num_or_string :=
  match v with
  | Null => Num (Js.of_Z 0)
  | Real x => if Js.truthy_number (Js.val x) then Num x else Num (Js.of_Z 0)
  | Text s => if (s =? "")%string then Num (Js.of_Z 0) else Str s
  end.

(** [a + b]: the sum of two numbers, the concatenation when one of the two
    is a string. *)
Definition plus (a b : num_or_string) : num_or_string :=
  let print v := match v with
                 | Num x => number_toString rt x
                 | Str s => s
                 end in
  match a, b with
  | Num x, Num y => Num (Js.add x y)
  | _, _ => Str (print a ++ print b)
  end.

(** [leads.reduce((sum, l) => sum + (l.job_value || 0), 0)]. *)
Definition total_revenue (leads : list Lead.t) : num_or_string :=
  fold_left (fun sum l => plus sum (or_zero (Lead.job_value l))) leads (Num (Js.of_Z 0)).

(** [totalLeads > 0 ? ((bookedLeads / totalLeads) * 100).toFixed(1) : 0]. *)
Definition close_rate (totalLeads bookedLeads : nat) : num_or_string :=
  if (0 <? totalLeads)%nat
  then Str (Js.toFixed (number_toString rt)
              (Js.mul (Js.div (Js.of_nat bookedLeads) (Js.of_nat totalLeads))
                 (Js.of_Z 100)) 1)
  else Num (Js.of_Z 0).

(** [totalLeads > 0 ? (client.plan_price / totalLeads).toFixed(0) : 0]; a
    NULL price divides as 0. *)
Definition cost_per_lead (plan_price : option Js.number) (totalLeads : nat) : num_or_string :=
  if (0 <? totalLeads)%nat
  then Str (Js.toFixed (number_toString rt)
              (Js.div (match plan_price with
                       | Some p => p
                       | None => Js.of_Z 0
                       end) (Js.of_nat totalLeads)) 0)
  else Num (Js.of_Z 0).

(** [weekStart = new Date(now); weekStart.setDate(weekStart.getDate() - i * 7)]
    and [weekEnd = new Date(weekStart); weekEnd.setDate(weekEnd.getDate() + 7)]. *)
Definition weekStart (i : nat) : Z := setDate rt (now rt) (- (Z.of_nat i * 7)).
Definition weekEnd (i : nat) : Z := setDate rt (weekStart i) 7.

(** [d = new Date(l.created_at); d >= weekStart && d < weekEnd]: an invalid
    date compares false. *)
Definition in_week (i : nat) (l : Lead.t) : bool :=
  match Date_parse rt (Lead.created_at l) with
  | Some d => (weekStart i <=? d) && (d <? weekEnd i)
  | None => false
  end.

Definition week_bucket (leads : list Lead.t) (i : nat) : Bucket :=
  mkBucket ("W" ++ Js.digits (4 - Z.of_nat i)) (List.length (filter (in_week i) leads)).

(** [for (let i = ...; i >= 0; i--) weeklyLeads.push(...)]. *)
Fixpoint weekly_loop (leads : list Lead.t) (i : nat) : list Bucket :=
  week_bucket leads i ::
  match i with
  | O => []
  | S j => weekly_loop leads j
  end.

Definition weekly_leads (leads : list Lead.t) : list Bucket :=
  weekly_loop leads 3.

Definition recent_lead (l : Lead.t) : RecentLead.t :=
  RecentLead.mk (Lead.id l) (Lead.name l) (Lead.phone l) (Lead.service_needed l)
    (Lead.city l) (Lead.status l) (Lead.job_value l) (Lead.created_at l).

(** The payload of the dashboard for a client and its leads. *)
Definition dashboard (c : Client.t) (leads : list Lead.t) : Dashboard :=
  let totalLeads := List.length leads in
  let bookedLeads := count_status "booked" leads in
  mkDashboard
    (mkClientInfo (Client.business_name c) (Client.plan c) (Client.industry c)
       (Client.city c))
    (mkStats totalLeads (count_status "new" leads) (count_status "contacted" leads)
       bookedLeads
       (total_revenue leads)
       (close_rate totalLeads bookedLeads)
       (cost_per_lead (Client.plan_price c) totalLeads))
    (weekly_leads leads)
    (map recent_lead (firstn 20 leads)).

(** [app.get('/api/dashboard/:token', ...)]. *)
Definition get_dashboard (token : string) : M Response :=
  try_catch
    (client <- query (select_client_by_token token) ;;
     match client with
     | None => ret (mkResponse 404 (Error "Dashboard not found"))
     | Some c =>
         leads <- query (select_leads_of_client (Client.id c)) ;;
         ret (mkResponse 200 (DashboardJson (dashboard c leads)))
     end)
    (fun err =>
       console_write ("Dashboard error: " ++ message err) ;;
       ret (mkResponse 500 (Error "Dashboard load failed"))).

(** [app.post('/api/capture-pages/:slug/view', ...)]. *)
Definition post_capture_page_view (slug : string) : M Response :=
  exec (update_views slug) ;;
  ret (mkResponse 200 Success).

(** [app.get('/api/webhooks/facebook', ...)]: the three query parameters
    are strings or absent. *)
Definition get_webhooks_facebook (mode token challenge : option string) : M Response :=
  if strict_eq mode (Some "subscribe") && strict_eq token (WEBHOOK_SECRET rt)
  then ret (mkResponse 200 (Sent challenge))
  else ret (mkResponse 403 (StatusText "Forbidden")).

(** [data.user]: reading a property of [undefined] or [null] throws. *)
Definition data_object (d : Js.value WhopData.t) : M WhopData.t :=
  match d with
  | Js.val o => ret o
  | Js.undefined => throw (TypeError "Cannot read properties of undefined (reading 'user')")
  | Js.null => throw (TypeError "Cannot read properties of null (reading 'user')")
  end.

Definition tpl_number (v : Js.value Js.number) : string :=
  match v with
  | Js.undefined => "undefined"
  | Js.null => "null"
  | Js.val x => number_toString rt x
  end.

(** [whopSecret && req.headers['whop-signature'] !== whopSecret]. *)
Definition invalid_signature (signature : option string) : bool :=
  match WHOP_WEBHOOK_SECRET rt with
  | Some s => negb (s =? "")%string && negb (strict_eq signature (Some s))
  | None => false
  end.

(** [app.post('/api/webhooks/whop', ...)]. *)
Definition post_webhooks_whop (signature : option string) (b : WhopBody.t) : M Response :=
  let action := WhopBody.action b in
  try_catch
    (console_write ("Whop webhook: " ++ Js.tpl action) ;;
     if invalid_signature signature
     then
       console_write "Invalid Whop webhook signature" ;;
       ret (mkResponse 401 (Error "Invalid signature"))
     else
       (if equals action "payment.succeeded" then
          data <- data_object (WhopBody.data b) ;;
          let email := Js.opt_chain (WhopData.user data) WhopUser.email in
          let planId := Js.opt_chain (WhopData.plan data) WhopPlan.id in
          let amount := Js.or_value Js.truthy_number
                          (Js.opt_chain (WhopData.plan data) WhopPlan.initial_price)
                          (Js.opt_chain (WhopData.plan data) WhopPlan.renewal_price) in
          console_write ("Payment succeeded: " ++ Js.tpl email ++ ", plan: "
                         ++ Js.tpl planId ++ ", amount: $" ++ tpl_number amount) ;;
          when (Js.truthy_string email)
               (exec (update_client_active (CURRENT_TIMESTAMP rt)
                        (Js.or_null (WhopData.membership data))
                        (Js.or_null (Js.opt_chain (WhopData.user data) WhopUser.id))
                        (Js.tpl email))) ;;
          _ <- sendEmail notification_email
                 ("💰 New Payment: $" ++ tpl_number amount ++ " from " ++ Js.tpl email) ;;
          ret tt
        else if equals action "membership.went_valid" then
          data <- data_object (WhopBody.data b) ;;
          let email := Js.opt_chain (WhopData.user data) WhopUser.email in
          console_write ("Membership valid: " ++ Js.tpl email) ;;
          when (Js.truthy_string email)
               (exec (update_client_active (CURRENT_TIMESTAMP rt)
                        (Js.or_null (WhopData.id data))
                        (Js.or_null (Js.opt_chain (WhopData.user data) WhopUser.id))
                        (Js.tpl email)))
        else if equals action "membership.went_invalid" then
          data <- data_object (WhopBody.data b) ;;
          let email := Js.opt_chain (WhopData.user data) WhopUser.email in
          console_write ("Membership invalid: " ++ Js.tpl email) ;;
          when (Js.truthy_string email)
               (exec (update_client_churned (CURRENT_TIMESTAMP rt) (Js.tpl email))) ;;
          _ <- sendEmail notification_email
                 ("⚠️ Membership Cancelled: " ++ Js.tpl email) ;;
          ret tt
        else if equals action "payment.failed" then
          data <- data_object (WhopBody.data b) ;;
          let email := Js.opt_chain (WhopData.user data) WhopUser.email in
          console_write ("Payment failed: " ++ Js.tpl email) ;;
          _ <- sendEmail notification_email ("❌ Payment Failed: " ++ Js.tpl email) ;;
          ret tt
        else console_write ("Unhandled Whop event: " ++ Js.tpl action)) ;;
       ret (mkResponse 200 Received))
    (fun err =>
       console_write ("Whop webhook error: " ++ message err) ;;
       ret (mkResponse 500 (Error "Webhook processing failed"))).

End Handlers.

End Server.

(* ================================================================= *)
(** ** Vocabulary of the properties *)

Module Props.
Import Store Server.

(** The identifier the [k]-th next call of [uuidv4] returns. *)
Definition next_uuid (rt : Runtime) (w : World) (k : nat) : string :=
  uuidv4_at rt (uuid_calls w + k).

(** Rows of [subscribers] that carry a given email. *)
Definition subscribers_with (e : string) (d : DB) : list Subscriber.t :=
  filter (fun s => (Subscriber.email s =? e)%string) (subscribers d).

(** The normal form [/api/subscribe] and [/api/trial-signup] store. *)
Definition normalized (rt : Runtime) (email : string) : string :=
  trim rt (toLowerCase rt email).

(** Sum of the counts of a histogram. *)
Definition bucket_total (bs : list Bucket) : nat :=
  fold_right (fun b acc => (count b + acc)%nat) 0%nat bs.

(** The parameter a body field is bound as, when it is bound as one. *)
Definition parameter_of (v : Js.value Js.raw) : sql :=
  match bind_value v with
  | inr p => p
  | inl _ => Null
  end.

(** What a TEXT, a REAL and a DATETIME column store for it. *)
Definition text_of (rt : Runtime) (v : Js.value Js.raw) : option string :=
  as_text (real_text rt) (parameter_of v).

Definition real_of (rt : Runtime) (v : Js.value Js.raw) : sql :=
  as_numeric (real_of_text rt) (parameter_of v).

Definition numeric_of (rt : Runtime) (v : Js.value Js.raw) : sql :=
  as_numeric (numeric_of_text rt) (parameter_of v).

(** The same for a NOT NULL column. *)
Definition text_or_empty (rt : Runtime) (v : Js.value Js.raw) : string :=
  match text_of rt v with
  | Some s => s
  | None => ""
  end.

(** The row a status update leaves: [status], [contacted_at] and
    [booked_at] are written when the body carries a truthy value, [notes]
    and [job_value] when the body carries the property at all, [updated_at]
    always; the other columns are copied. *)
Definition patched_row (rt : Runtime) (b : PatchBody.t) (l : Lead.t) : Lead.t :=
  Lead.mk (Lead.id l) (Lead.client_id l) (Lead.capture_page l) (Lead.name l)
    (Lead.email l) (Lead.phone l) (Lead.service_needed l) (Lead.address l)
    (Lead.city l) (Lead.postal_code l) (Lead.message l) (Lead.source l)
    (Lead.utm_source l) (Lead.utm_medium l) (Lead.utm_campaign l)
    (if Js.truthy (PatchBody.status b)
     then text_of rt (PatchBody.status b) else Lead.status l)
    (if Js.truthy (PatchBody.contacted_at b)
     then numeric_of rt (PatchBody.contacted_at b) else Lead.contacted_at l)
    (if Js.truthy (PatchBody.booked_at b)
     then numeric_of rt (PatchBody.booked_at b) else Lead.booked_at l)
    (if Js.defined (PatchBody.job_value b)
     then real_of rt (PatchBody.job_value b) else Lead.job_value l)
    (if Js.defined (PatchBody.notes b)
     then text_of rt (PatchBody.notes b) else Lead.notes l)
    (Lead.created_at l) (CURRENT_TIMESTAMP rt).

(** The [SET] clause of a status update whose pushed values are bound one
    to one. *)
Definition guarded_updates (rt : Runtime) (b : PatchBody.t) : list Lead.assignment :=
  (map (fun cv => assignment_of rt (fst cv) (parameter_of (snd cv))) (patch_values b)
   ++ [Lead.SetUpdatedAtNow])%list.

(** The activity row a status update logs. *)
Definition updated_activity (rt : Runtime) (w : World) (id : string) (b : PatchBody.t)
    : LeadActivity.t :=
  LeadActivity.mk (next_uuid rt w 0) (Some id) "status_updated"
    (Some (prop_raw "status" (PatchBody.status b)
           ++ prop_raw "notes" (PatchBody.notes b)
           ++ prop_raw "job_value" (PatchBody.job_value b))%list)
    None (CURRENT_TIMESTAMP rt).

(** [n / 10] is a closest one-decimal value to [100 * booked / total]. *)
Definition nearest_tenth (booked total : nat) (n : Z) : bool :=
  2 * Z.abs (n * Z.of_nat total - 1000 * Z.of_nat booked) <=? Z.of_nat total.

(** The close rate printed for [booked] out of [total] is a closest
    one-decimal value to the exact percentage. *)
Definition close_rate_rounds (rt : Runtime) (total booked : nat) : bool :=
  match close_rate rt total booked with
  | Str s =>
      let q := 1000 * Z.of_nat booked / Z.of_nat total in
      nearest_tenth booked total q && (s =? Js.fixed_digits q 1)%string
      || nearest_tenth booked total (q + 1) && (s =? Js.fixed_digits (q + 1) 1)%string
  | Num _ => false
  end.

(** The row [/api/leads] inserts for a given owner when every field is
    bound as one parameter. *)
Definition lead_row (rt : Runtime) (w : World) (b : LeadBody.t)
    (owner : option string) : Lead.t :=
  Lead.mk (next_uuid rt w 0) owner (text_of rt (LeadBody.capture_page b))
    (text_or_empty rt (LeadBody.name b)) (text_of rt (LeadBody.email b))
    (text_or_empty rt (LeadBody.phone b))
    (text_of rt (LeadBody.service_needed b)) (text_of rt (LeadBody.address b))
    (text_of rt (LeadBody.city b)) (text_of rt (LeadBody.postal_code b))
    (text_of rt (LeadBody.message b))
    (text_of rt (Js.or_literal (LeadBody.source b) "facebook"))
    (text_of rt (LeadBody.utm_source b)) (text_of rt (LeadBody.utm_medium b))
    (text_of rt (LeadBody.utm_campaign b)) (Some "new") Null Null Null None
    (CURRENT_TIMESTAMP rt) (CURRENT_TIMESTAMP rt).

(** The activity row [/api/leads] logs for it. *)
Definition created_activity (rt : Runtime) (w : World) (b : LeadBody.t) : LeadActivity.t :=
  LeadActivity.mk (next_uuid rt w 1) (Some (next_uuid rt w 0)) "created"
    (Some (prop_raw "source" (LeadBody.source b)
           ++ prop_raw "capture_page" (LeadBody.capture_page b))%list)
    None (CURRENT_TIMESTAMP rt).

(** The database after the first part of [/api/leads]: the lead and its
    activity are appended, and a submission is counted on the pages whose
    slug is a truthy [capture_page]. *)
Definition with_lead_stored (rt : Runtime) (w : World) (b : LeadBody.t)
    (owner : option string) : DB :=
  let d1 := with_leads (leads (db w) ++ [lead_row rt w b owner]) (db w) in
  let d2 := if Js.truthy (LeadBody.capture_page b)
            then update_submissions_where (text_of rt (LeadBody.capture_page b)) d1
            else d1 in
  with_lead_activity (lead_activity d2 ++ [created_activity rt w b]) d2.

(** The client [/api/leads] resolves for the lead. *)
Definition owner_of (rt : Runtime) (b : LeadBody.t) (d : DB) : option string :=
  if Js.truthy (LeadBody.capture_page b)
  then match select_capture_page_where (text_of rt (LeadBody.capture_page b)) d with
       | Some p => CapturePage.client_id p
       | None => None
       end
  else None.

(** The row [/api/leads] inserts when no client is resolved. *)
Definition captured_lead (rt : Runtime) (w : World) (b : LeadBody.t) : Lead.t :=
  lead_row rt w b None.

(** The instant [new Date(l.created_at)] of a lead lies in [[from, to)]. *)
Definition created_within (rt : Runtime) (from to : Z) (l : Lead.t) : bool :=
  match Date_parse rt (Lead.created_at l) with
  | Some d => (from <=? d) && (d <? to)
  | None => false
  end.

(** One day, in milliseconds. *)
Definition day_ms : Z := 86400000.

(** [setDate] on a server whose local days all last 24 hours (no
    daylight-saving shift, as with [TZ=UTC]). *)
Definition plain_days (rt : Runtime) : Prop :=
  forall t n, setDate rt t n = t + n * day_ms.

(** [a] is at least as recent as [b], in the order of [ORDER BY]. *)
Definition newer_or_equal (a b : Lead.t) : Prop :=
  String.leb (Lead.created_at b) (Lead.created_at a) = true.

End Props.

(* ================================================================= *)
(** ** A reference runtime: a server in UTC *)

Module Utc.

(** Days since 1970-01-01 of a date of the proleptic Gregorian calendar,
    and back. *)
Definition days_from_civil (y m d : Z) : Z :=
  let y := if m <=? 2 then y - 1 else y in
  let era := y / 400 in
  let yoe := y - era * 400 in
  let doy := (153 * (if 2 <? m then m - 3 else m + 9) + 2) / 5 + d - 1 in
  let doe := yoe * 365 + yoe / 4 - yoe / 100 + doy in
  era * 146097 + doe - 719468.

Definition civil_from_days (z : Z) : Z * Z * Z :=
  let z := z + 719468 in
  let era := z / 146097 in
  let doe := z - era * 146097 in
  let yoe := (doe - doe / 1460 + doe / 36524 - doe / 146096) / 365 in
  let y := yoe + era * 400 in
  let doy := doe - (365 * yoe + yoe / 4 - yoe / 100) in
  let mp := (5 * doy + 2) / 153 in
  let d := doy - (153 * mp + 2) / 5 + 1 in
  let m := if mp <? 10 then mp + 3 else mp - 9 in
  ((if m <=? 2 then y + 1 else y), m, d).

Definition padded (width : nat) (n : Z) : string :=
  let d := Js.digits n in
  Js.zeros (width - String.length d) ++ d.

(** The text of [CURRENT_TIMESTAMP] at [ms] milliseconds after the epoch:
    ['YYYY-MM-DD HH:MM:SS'], in UTC. *)
Definition timestamp (ms : Z) : string :=
  let s := ms / 1000 in
  let '(y, m, d) := civil_from_days (s / 86400) in
  let r := s mod 86400 in
  padded 4 y ++ "-" ++ padded 2 m ++ "-" ++ padded 2 d ++ " "
  ++ padded 2 (r / 3600) ++ ":" ++ padded 2 (r mod 3600 / 60) ++ ":" ++ padded 2 (r mod 60).

Definition digit (c : ascii) : option Z :=
  let n := nat_of_ascii c in
  if ((48 <=? n) && (n <=? 57))%nat then Some (Z.of_nat n - 48) else None.

Fixpoint decimal (s : string) (acc : Z) : option Z :=
  match s with
  | EmptyString => Some acc
  | String c r =>
      match digit c with
      | Some d => decimal r (10 * acc + d)
      | None => None
      end
  end.

Definition field (s : string) (from len : nat) : option Z :=
  decimal (substring from len s) 0.

(** [new Date(text)] for a text of the form ['YYYY-MM-DD HH:MM:SS'], read
    as local time on a server in UTC; anything else is an invalid date
    here. *)
Definition parse (s : string) : option Z :=
  if ((String.length s =? 19)%nat
      && (substring 4 1 s =? "-")%string && (substring 7 1 s =? "-")%string
      && (substring 10 1 s =? " ")%string
      && (substring 13 1 s =? ":")%string && (substring 16 1 s =? ":")%string)%bool
  then
    match field s 0 4, field s 5 2, field s 8 2, field s 11 2, field s 14 2, field s 17 2 with
    | Some y, Some m, Some d, Some h, Some mi, Some se =>
        if ((1 <=? m) && (m <=? 12) && (1 <=? d) && (d <=? 31)
            && (h <=? 23) && (mi <=? 59) && (se <=? 59))%bool
        then Some ((days_from_civil y m d * 86400 + h * 3600 + mi * 60 + se) * 1000)
        else None
    | _, _, _, _, _, _ => None
    end
  else None.

(** [Number::toString] on the integers up to 2^53, the only numbers the
    runs below print. (For a value with a fraction this gives the exact
    expansion, where JavaScript prints the shortest text that reads back
    as the same double.) *)
Definition trailing (m : Z) (k : Z) : string :=
  let scaled := m * 5 ^ k in
  Js.digits (scaled / 10 ^ k) ++ "." ++ padded (Z.to_nat k) (scaled mod 10 ^ k).

Definition number_toString (x : Js.number) : string :=
  match x with
  | S754_nan => "NaN"
  | S754_infinity s => if s then "-Infinity" else "Infinity"
  | S754_zero _ => "0"
  | S754_finite s m e =>
      (if s then "-" else "") ++
      (if 0 <=? e then Js.digits (Zpos m * 2 ^ e)
       else if Zpos m mod 2 ^ (- e) =? 0 then Js.digits (Zpos m / 2 ^ (- e))
       else trailing (Zpos m) (- e))
  end.

(** The text SQLite stores for a double in a TEXT column, on the integers
    below 1e15, the only numbers the runs below store as text: the digits,
    then [.0]. (SQLite prints 15 significant digits.) *)
Definition real_text (x : Js.number) : string :=
  match x with
  | S754_nan => "NaN"
  | S754_infinity s => if s then "-Inf" else "Inf"
  | S754_zero _ => "0.0"
  | S754_finite s m e =>
      (if s then "-" else "") ++
      (if 0 <=? e then Js.digits (Zpos m * 2 ^ e) ++ ".0"
       else if Zpos m mod 2 ^ (- e) =? 0 then Js.digits (Zpos m / 2 ^ (- e)) ++ ".0"
       else trailing (Zpos m) (- e))
  end.

(** The number SQLite reads in a text made of decimal digits only. The
    runs below store no other text that reads as a number (a sign, spaces,
    a fraction or an exponent), so any other text is kept as text. *)
Definition number_of_text (s : string) : option Js.number :=
  match s with
  | EmptyString => None
  | _ =>
      match decimal s 0 with
      | Some n => Some (Js.of_Z n)
      | None => None
      end
  end.

(** [toLowerCase] and [trim] on ASCII text, the only text the runs below
    normalize. *)
Definition lower_ascii (c : ascii) : ascii :=
  let n := nat_of_ascii c in
  if ((65 <=? n) && (n <=? 90))%nat then ascii_of_nat (n + 32) else c.

Fixpoint toLowerCase (s : string) : string :=
  match s with
  | EmptyString => EmptyString
  | String c r => String (lower_ascii c) (toLowerCase r)
  end.

Definition is_space (c : ascii) : bool :=
  let n := nat_of_ascii c in
  ((9 <=? n) && (n <=? 13) || (n =? 32))%nat.

Fixpoint trimStart (s : string) : string :=
  match s with
  | EmptyString => EmptyString
  | String c r => if is_space c then trimStart r else s
  end.

Fixpoint trimEnd (s : string) : string :=
  match s with
  | EmptyString => EmptyString
  | String c r =>
      match trimEnd r with
      | EmptyString => if is_space c then EmptyString else String c EmptyString
      | r' => String c r'
      end
  end.

Definition trim (s : string) : string := trimEnd (trimStart s).

End Utc.

(* ================================================================= *)
(** ** Concrete runs *)

Module Examples.
Import Store Server.

(** The time of the runs: 28 days after the epoch. *)
Definition clock : Z := 2419200000.

(** A runtime in UTC with identifiers ["0"], ["1"], ... *)
Definition runtime (sendMail : nat -> string + string)
    (webhook_secret whop_secret : option string) : Runtime :=
  {| uuidv4_at := fun n => NilZero.string_of_uint (Nat.to_uint n);
     sendMail_at := sendMail;
     now := clock;
     CURRENT_TIMESTAMP := Utc.timestamp clock;
     Date_parse := Utc.parse;
     setDate := fun t n => t + n * Props.day_ms;
     NOTIFICATION_EMAIL := None;
     WEBHOOK_SECRET := webhook_secret;
     WHOP_WEBHOOK_SECRET := whop_secret;
     number_toString := Utc.number_toString;
     toLowerCase := Utc.toLowerCase;
     trim := Utc.trim;
     real_text := Utc.real_text;
     real_of_text := Utc.number_of_text;
     numeric_of_text := Utc.number_of_text |}.

(** Every delivery succeeds; no secret set. *)
Definition rt_ok : Runtime := runtime (fun _ => inr "250 OK") None None.

(** The same with a transport that rejects every message. *)
Definition rt_smtp_down : Runtime :=
  runtime (fun _ => inl "connect ECONNREFUSED") None None.

(** The same with both webhook secrets configured. *)
Definition rt_secret : Runtime :=
  runtime (fun _ => inr "250 OK") (Some "fb-verify") (Some "s3cret").

Definition w_empty : World := mkWorld empty [] 0 0.

Definition epoch : string := Utc.timestamp 0.

Definition demo_client : Client.t :=
  Client.mk "client-1" None "Edmonton Pro HVAC" "Mike Johnson"
    "mike@edmontonprohvac.ca" "(780) 555-0123" "hvac" "Edmonton" None None None
    (Some "growth") (Some (Js.of_Z 597)) (Some "churned") (Some "demo_token")
    None None None epoch epoch.

Definition demo_page : CapturePage.t :=
  CapturePage.mk "page-1" (Some "client-1") "hvac-edmonton-demo"
    "Edmonton HVAC Services" (Some "hvac") (Some "Edmonton") (Some "active") 847 23 epoch.

(** A lead of the demo client created [days_ago] days before [clock]. *)
Definition demo_lead (id : string) (status : string) (days_ago : Z) : Lead.t :=
  Lead.mk id (Some "client-1") (Some "hvac-edmonton-demo") "Sarah Mitchell" None
    "(780) 555-0201" (Some "Furnace install") None (Some "Windermere") None None
    (Some "facebook") None None None (Some status) Null Null Null None
    (Utc.timestamp (clock - days_ago * Props.day_ms))
    (Utc.timestamp (clock - days_ago * Props.day_ms)).

Definition demo_trial : TrialSignup.t :=
  TrialSignup.mk "trial-1" "Mike" "Johnson" "Edmonton Pro HVAC"
    "mike@edmontonprohvac.ca" "(780) 555-0123" "hvac" "Edmonton"
    (Some "free_trial_page") (Some "new") None None None epoch epoch.

(** A database with the demo client, its page, one trial signup, and one
    lead created 25 days ago. *)
Definition w_demo : World :=
  mkWorld
    (mkDB [] [demo_trial] [demo_client] [demo_lead "lead-1" "new" 25] []
       [demo_page] [])
    [] 0 0.


(** Twenty-five leads of the demo client, one per day, stored oldest
    first, and one lead of nobody. *)
Definition lead_of_day (k : nat) : Lead.t :=
  demo_lead ("d" ++ NilZero.string_of_uint (Nat.to_uint k)) "new" (Z.of_nat k).

Definition stray_lead : Lead.t :=
  Lead.mk "stray" None None "Walk-in" None "(780) 555-0300" None None None None None
    (Some "facebook") None None None (Some "new") Null Null Null None
    (Utc.timestamp clock) (Utc.timestamp clock).

Definition w_many : World :=
  mkWorld
    (mkDB [] [] [demo_client] (stray_lead :: rev (map lead_of_day (seq 0 25))) []
       [demo_page] [])
    [] 0 0.

Definition absent {A} : Js.value A := Js.undefined.

Definition txt (text : string) : Js.value Js.raw := Js.val (Js.str text).

(** A status update that carries an empty [status] and nothing else. *)
Definition patch_empty_status : PatchBody.t :=
  PatchBody.mk (txt "") absent absent absent absent.

(** A status update that books a job and clears the notes. *)
Definition patch_booked : PatchBody.t :=
  PatchBody.mk (txt "booked") Js.null (Js.val (Js.num (Js.of_Z 4200))) absent
    (txt "2026-01-29 10:00:00").

(** A status update whose notes are a boolean. *)
Definition patch_notes_true : PatchBody.t :=
  PatchBody.mk (txt "booked") (Js.val (Js.boolean true)) absent absent absent.

(** The demo trial's email again, in another case, without a first name. *)
Definition trial_no_first_name : TrialBody.t :=
  TrialBody.mk absent (Js.val "Johnson") (Js.val "Edmonton Pro HVAC")
    (Js.val "Mike@EdmontonProHVAC.ca") (Js.val "(780) 555-0123") (Js.val "hvac")
    (Js.val "Edmonton") absent.


(** Two opt-ins with the same address, written differently. *)
Definition subscribe_first : SubscribeBody.t :=
  SubscribeBody.mk (txt "Sarah@Example.com") absent.
Definition subscribe_second : SubscribeBody.t :=
  SubscribeBody.mk (txt " sarah@example.com ") (txt "footer").

(** An opt-in whose [source] is a boolean. *)
Definition subscribe_source_true : SubscribeBody.t :=
  SubscribeBody.mk (txt "sarah@example.com") (Js.val (Js.boolean true)).

(** A payment by the demo client, as the billing platform delivers it. *)
Definition payment_data : WhopData.t :=
  WhopData.mk
    (Js.val (WhopUser.mk (Js.val "mike@edmontonprohvac.ca") (Js.val "user_8Kq2")
               (Js.val "mikej")))
    (Js.val (WhopPlan.mk (Js.val "plan_growth") (Js.val (Js.of_Z 597)) absent
               (Js.val "renewal")))
    (Js.val "mem_4Zt9") absent.

Definition payment_succeeded : WhopBody.t :=
  WhopBody.mk (Js.val "payment.succeeded") (Js.val payment_data).

(** The same event without its payload. *)
Definition payment_without_data : WhopBody.t :=
  WhopBody.mk (Js.val "payment.succeeded") absent.

(** A first signup with every field of the form filled in. *)
Definition trial_new : TrialBody.t :=
  TrialBody.mk (Js.val "Lisa") (Js.val "Park") (Js.val "Park Plumbing")
    (Js.val "lisa@parkplumbing.ca") (Js.val "(780) 555-0203") (Js.val "plumbing")
    (Js.val "St. Albert") absent.

(** A landing-page submission through the demo client's page. *)
Definition lead_demo_page : LeadBody.t :=
  LeadBody.mk (txt "David Chen") absent (txt "(780) 555-0202")
    (txt "AC repair") absent (txt "Millwoods") absent absent absent
    absent absent absent (txt "hvac-edmonton-demo").

(** A landing-page submission that names a page nobody created. *)
Definition lead_unknown_page : LeadBody.t :=
  LeadBody.mk (txt "James Torres") absent (txt "(780) 555-0204")
    (txt "Furnace repair") absent (txt "Sherwood Park") absent absent absent
    absent absent absent (txt "plumbing-calgary").

(** The same submission with a boolean where the form has the email. *)
Definition lead_email_true : LeadBody.t :=
  LeadBody.mk (txt "James Torres") (Js.val (Js.boolean true)) (txt "(780) 555-0204")
    (txt "Furnace repair") absent (txt "Sherwood Park") absent absent absent
    absent absent absent absent.

End Examples.

(* ================================================================= *)
(** ** The admin, page and Lead-Ads delivery routes *)

Module Routes.
Import Store Server.

(** [s.replace(/-/g, '')]. *)
Fixpoint remove_hyphens (s : string) : string :=
  match s with
  | EmptyString => EmptyString
  | String c r =>
      if Ascii.eqb c "-"%char then remove_hyphens r else String c (remove_hyphens r)
  end.

(** [a || 397] on a numeric body field. *)
Definition or_number (v : Js.value Js.number) (d : Js.number) : Js.number :=
  match v with
  | Js.val x => if Js.truthy_number v then x else d
  | _ => d
  end.

Definition has_token (token : string) (rows : list Client.t) : bool :=
  existsb (fun c => match Client.dashboard_token c with
                    | Some t => (t =? token)%string
                    | None => false
                    end) rows.

(** [INSERT INTO clients (id, trial_id, business_name, contact_name, email,
    phone, industry, city, service_area, services_offered, avg_job_value,
    plan, plan_price, dashboard_token, onboarded_at)
    VALUES (?, ..., ?, CURRENT_TIMESTAMP)]. *)
Definition insert_client (ts : string) (id : string)
    (trial_id business_name contact_name email phone industry city
       service_area services_offered : option string)
    (avg_job_value : option Js.number) (plan : string) (plan_price : Js.number)
    (dashboard_token : string) (d : DB) : exn + DB :=
  let* bn := required "clients" "business_name" business_name in
  let* cn := required "clients" "contact_name" contact_name in
  let* em := required "clients" "email" email in
  let* ph := required "clients" "phone" phone in
  let* ind := required "clients" "industry" industry in
  let* ci := required "clients" "city" city in
  if has Client.id id (clients d) then inl (unique "clients" "id")
  else if has Client.email em (clients d) then inl (unique "clients" "email")
  else if has_token dashboard_token (clients d)
  then inl (unique "clients" "dashboard_token")
  else if negb (references TrialSignup.id (trial_signups d) trial_id) then inl foreign_key
  else inr (with_clients
              (clients d ++
               [Client.mk id trial_id bn cn em ph ind ci service_area services_offered
                  avg_job_value (Some plan) (Some plan_price) (Some "active")
                  (Some dashboard_token) None None (Some ts) ts ts]) d).

Definition trial_set_status (st : string) (t : TrialSignup.t) : TrialSignup.t :=
  TrialSignup.mk (TrialSignup.id t) (TrialSignup.first_name t) (TrialSignup.last_name t)
    (TrialSignup.business_name t) (TrialSignup.email t) (TrialSignup.phone t)
    (TrialSignup.industry t) (TrialSignup.city t) (TrialSignup.source t) (Some st)
    (TrialSignup.notes t) (TrialSignup.assigned_to t) (TrialSignup.follow_up_date t)
    (TrialSignup.created_at t) (TrialSignup.updated_at t).

(** [UPDATE trial_signups SET status = ? WHERE id = ?] with 'converted'. *)
Definition update_trial_converted (id : string) (d : DB) : DB :=
  with_trial_signups
    (map (fun t => if (TrialSignup.id t =? id)%string
                   then trial_set_status "converted" t else t) (trial_signups d)) d.


(** [SELECT * FROM capture_pages WHERE slug = ? AND status = ?] with
    'active', [.get]. *)
Definition select_active_page (slug : string) (d : DB) : option CapturePage.t :=
  find (fun p => (CapturePage.slug p =? slug)%string
                 && match CapturePage.status p with
                    | Some st => (st =? "active")%string
                    | None => false
                    end) (capture_pages d).

(** Request bodies. *)
Module ClientBody.
Record t : Type := mk {
  trial_id : Js.value string; business_name : Js.value string;
  contact_name : Js.value string; email : Js.value string;
  phone : Js.value string; industry : Js.value string; city : Js.value string;
  service_area : Js.value string; services_offered : Js.value string;
  avg_job_value : Js.value Js.number; plan : Js.value string;
  plan_price : Js.value Js.number }.
End ClientBody.

Module PageBody.
Record t : Type := mk {
  client_id : Js.value string; slug : Js.value string; title : Js.value string;
  industry : Js.value string; city : Js.value string }.
End PageBody.

(** One element of [entry[].changes] in a Lead-Ads delivery; [value] is the
    flat object the platform sends for a lead. *)
Module FbChange.
Record t : Type := mk { field : Js.value string; value : Js.value json_object }.
End FbChange.

Module FbEntry.
Record t : Type := mk { changes : Js.value (list (Js.value FbChange.t)) }.
End FbEntry.

(** What the admin and page routes answer. *)
Inductive Reply : Type :=
| ClientCreated (id dashboardToken dashboardUrl : string)
| PageCreated (id url : string)
| Failed (status : Z) (error : string)
| Text (status : Z) (text : string)
| File (name : string).

(** [for (const x of xs) { ... }]. *)
Fixpoint for_each {A} (body : A -> M unit) (xs : list A) : M unit :=
  match xs with
  | [] => ret tt
  | x :: rest => bind (body x) (fun _ => for_each body rest)
  end.

(** [o.name]: reading a property of [undefined] or [null] throws. *)
Definition object {A} (name : string) (o : Js.value A) : M A :=
  match o with
  | Js.val a => ret a
  | Js.undefined =>
      throw (TypeError ("Cannot read properties of undefined (reading '" ++ name ++ "')"))
  | Js.null =>
      throw (TypeError ("Cannot read properties of null (reading '" ++ name ++ "')"))
  end.

Section Handlers.

Variable rt : Runtime.

(** [process.env.BASE_URL]. *)
Variable BASE_URL : option string.

(** How [console.log] prints a lead payload. *)
Variable inspect : Js.value json_object -> string.

Definition base_url : string := env_or BASE_URL "https://leadflow24.com".

(** [app.post('/api/admin/clients', ...)]. *)
Definition post_admin_clients (b : ClientBody.t) : M Reply :=
  let trial_id := ClientBody.trial_id b in
  try_catch
    (id <- uuidv4 rt ;;
     u <- uuidv4 rt ;;
     let dashboardToken := substring 0 24 (remove_hyphens u) in
     run_stmt (insert_client (CURRENT_TIMESTAMP rt) id (Js.bind trial_id)
                 (Js.bind (ClientBody.business_name b)) (Js.bind (ClientBody.contact_name b))
                 (Js.bind (ClientBody.email b)) (Js.bind (ClientBody.phone b))
                 (Js.bind (ClientBody.industry b)) (Js.bind (ClientBody.city b))
                 (Js.bind (ClientBody.service_area b))
                 (Js.bind (ClientBody.services_offered b))
                 (Js.bind (ClientBody.avg_job_value b))
                 (Js.or_string (ClientBody.plan b) "starter")
                 (or_number (ClientBody.plan_price b) (Js.of_Z 397)) dashboardToken) ;;
     when (Js.truthy_string trial_id) (exec (update_trial_converted (Js.tpl trial_id))) ;;
     ret (ClientCreated id dashboardToken
            (base_url ++ "/dashboard?token=" ++ dashboardToken)))
    (fun err =>
       console_write ("Client creation error: " ++ message err) ;;
       ret (Failed 500 "Client creation failed")).


(** [app.get('/quote/:slug', ...)]. *)
Definition get_quote (slug : string) : M Reply :=
  page <- query (select_active_page slug) ;;
  match page with
  | None => ret (Text 404 "Page not found")
  | Some _ =>
      exec (update_views slug) ;;
      ret (File "capture-page.html")
  end.

(** [app.post('/api/webhooks/facebook', ...)]. *)
Definition post_webhooks_facebook
    (entry : Js.value (list (Js.value FbEntry.t))) : M Response :=
  try_catch
    (match entry with
     | Js.val entries =>
         for_each
           (fun e =>
              e <- object "changes" e ;;
              for_each
                (fun change =>
                   change <- object "field" change ;;
                   when (equals (FbChange.field change) "leadgen")
                        (console_write ("Facebook lead webhook: "
                                        ++ inspect (FbChange.value change))))
                (match FbEntry.changes e with
                 | Js.val cs => cs
                 | _ => []
                 end))
           entries ;;
         ret (mkResponse 200 Success)
     | _ => ret (mkResponse 400 (Error "Invalid webhook data"))
     end)
    (fun err =>
       console_write ("Facebook webhook error: " ++ message err) ;;
       ret (mkResponse 500 (Error "Webhook processing failed"))).

End Handlers.

End Routes.

(* ================================================================= *)
(** ** What a computation may change *)

Module Frames.
Import Store Server Routes.

(** Whatever state a computation starts in, the database it leaves is
    related by [R] to the database it found. *)
Definition relates (R : DB -> DB -> Prop) {A} (m : M A) : Prop :=
  forall w, R (db w) (db (snd (m w))).

(** What a billing delivery may change: in [clients] only columns other
    than [id] and [email] (no client is added or removed), in [email_log]
    only new rows at the end, and nothing in the other tables. *)
Definition billing_frame (d d' : DB) : Prop :=
  subscribers d' = subscribers d /\
  trial_signups d' = trial_signups d /\
  leads d' = leads d /\
  lead_activity d' = lead_activity d /\
  capture_pages d' = capture_pages d /\
  map Client.id (clients d') = map Client.id (clients d) /\
  map Client.email (clients d') = map Client.email (clients d) /\
  exists rows, email_log d' = (email_log d ++ rows)%list.

(** A computation that stores nothing, draws no identifier and sends no
    email, whatever state it starts in. *)
Definition quiet {A} (m : M A) : Prop :=
  forall w,
    db (snd (m w)) = db w /\
    uuid_calls (snd (m w)) = uuid_calls w /\
    mail_calls (snd (m w)) = mail_calls w.

(** The changes of an entry, [e.changes || []]. *)
Definition changes_of (e : FbEntry.t) : list (Js.value FbChange.t) :=
  match FbEntry.changes e with
  | Js.val cs => cs
  | _ => []
  end.

(** A delivery whose entries and changes are all objects. *)
Definition objects_only (entries : list (Js.value FbEntry.t)) : Prop :=
  Forall (fun e => exists e', e = Js.val e' /\
                              Forall (fun c => exists c', c = Js.val c') (changes_of e'))
    entries.

(** The console lines of a delivery: one per change whose field is
    "leadgen", in order. *)
Definition leadgen_lines (inspect : Js.value json_object -> string)
    (entries : list (Js.value FbEntry.t)) : list string :=
  flat_map
    (fun e =>
       match e with
       | Js.val e' =>
           flat_map
             (fun c =>
                match c with
                | Js.val c' =>
                    if equals (FbChange.field c') "leadgen"
                    then [("Facebook lead webhook: " ++ inspect (FbChange.value c'))%string]
                    else []
                | _ => []
                end) (changes_of e')
       | _ => []
       end) entries.

(** The window the four buckets of the dashboard cover on a server with
    plain days: from 21 days before the request to 7 days after it. *)
Definition in_histogram (rt : Runtime) (l : Lead.t) : bool :=
  Props.created_within rt (now rt - 21 * Props.day_ms) (now rt + 7 * Props.day_ms) l.

(** The window of the [i]-th bucket on such a server. *)
Definition in_window (rt : Runtime) (i : Z) (l : Lead.t) : bool :=
  Props.created_within rt (now rt - i * 7 * Props.day_ms)
    (now rt - i * 7 * Props.day_ms + 7 * Props.day_ms) l.


(** The row [/api/admin/clients] inserts. *)
Definition client_row (rt : Runtime) (w : World) (b : ClientBody.t) : Client.t :=
  Client.mk (Props.next_uuid rt w 0) (Js.bind (ClientBody.trial_id b))
    (Js.tpl (ClientBody.business_name b)) (Js.tpl (ClientBody.contact_name b))
    (Js.tpl (ClientBody.email b)) (Js.tpl (ClientBody.phone b))
    (Js.tpl (ClientBody.industry b)) (Js.tpl (ClientBody.city b))
    (Js.bind (ClientBody.service_area b)) (Js.bind (ClientBody.services_offered b))
    (Js.bind (ClientBody.avg_job_value b))
    (Some (Js.or_string (ClientBody.plan b) "starter"))
    (Some (or_number (ClientBody.plan_price b) (Js.of_Z 397))) (Some "active")
    (Some (substring 0 24 (remove_hyphens (Props.next_uuid rt w 1))))
    None None (Some (CURRENT_TIMESTAMP rt)) (CURRENT_TIMESTAMP rt)
    (CURRENT_TIMESTAMP rt).


End Frames.

(* ================================================================= *)
(** ** More concrete runs *)

Module Scenarios.
Import Store Server Routes.

(** Identifiers in the canonical 8-4-4-4-12 layout, numbered in the last
    group. *)
Definition uuid_of (n : nat) : string :=
  "3f2b8c1e-9a4d-4e7b-8c2f-00000000000" ++ NilZero.string_of_uint (Nat.to_uint n).

Definition rt_uuid : Runtime :=
  {| uuidv4_at := uuid_of;
     sendMail_at := sendMail_at Examples.rt_ok;
     now := now Examples.rt_ok;
     CURRENT_TIMESTAMP := CURRENT_TIMESTAMP Examples.rt_ok;
     Date_parse := Date_parse Examples.rt_ok;
     setDate := setDate Examples.rt_ok;
     NOTIFICATION_EMAIL := None;
     WEBHOOK_SECRET := None;
     WHOP_WEBHOOK_SECRET := None;
     number_toString := number_toString Examples.rt_ok;
     toLowerCase := toLowerCase Examples.rt_ok;
     trim := trim Examples.rt_ok;
     real_text := real_text Examples.rt_ok;
     real_of_text := real_of_text Examples.rt_ok;
     numeric_of_text := numeric_of_text Examples.rt_ok |}.

(** A client created by hand, without a trial. *)
Definition new_client : ClientBody.t :=
  ClientBody.mk Js.undefined (Js.val "Park Plumbing") (Js.val "Lisa Park")
    (Js.val "lisa@parkplumbing.ca") (Js.val "(780) 555-0203") (Js.val "plumbing")
    (Js.val "St. Albert") Js.undefined Js.undefined Js.undefined Js.undefined
    Js.undefined.





(** The demo database with the demo page paused. *)
Definition paused_page : CapturePage.t :=
  CapturePage.mk "page-1" (Some "client-1") "hvac-edmonton-demo"
    "Edmonton HVAC Services" (Some "hvac") (Some "Edmonton") (Some "paused") 847 23 Examples.epoch.

Definition w_paused : World :=
  mkWorld
    (mkDB [] [Examples.demo_trial] [Examples.demo_client]
       [Examples.demo_lead "lead-1" "new" 25] [] [paused_page] [])
    [] 0 0.

(** A Lead-Ads delivery: one lead, one change of another kind, and an entry
    without changes. *)
Definition fb_delivery : Js.value (list (Js.value FbEntry.t)) :=
  Js.val
    [Js.val (FbEntry.mk
               (Js.val [Js.val (FbChange.mk (Js.val "leadgen")
                                  (Js.val [("leadgen_id", JString "444");
                                           ("page_id", JString "555")]));
                        Js.val (FbChange.mk (Js.val "feed") Js.undefined)]));
     Js.val (FbEntry.mk Js.undefined)].

(** How the scenarios print a payload: by its number of properties. *)
Definition show_size (v : Js.value json_object) : string :=
  match v with
  | Js.val o => NilZero.string_of_uint (Nat.to_uint (List.length o))
  | _ => "undefined"
  end.





End Scenarios.

(* ================================================================= *)
(** ** Properties *)

Import Store Server Props.

(** *** Lists and keys *)

Lemma has_false_iff {R} (key : R -> string) (k : string) (rows : list R) :
  has key k rows = false <-> forall r, In r rows -> key r <> k.
Proof.
  unfold has. induction rows as [| x rows IH]; simpl.
  - split; [intros _ r [] | reflexivity].
  - rewrite orb_false_iff, IH, String.eqb_neq. split.
    + intros [Hx Hr] r [<- | Hin]; auto.
    + intros H. split; [apply H; now left | intros r Hin; apply H; now right].
Qed.

Lemma has_true_iff {R} (key : R -> string) (k : string) (rows : list R) :
  has key k rows = true <-> exists r, In r rows /\ key r = k.
Proof.
  unfold has. rewrite existsb_exists.
  split; intros [r [Hin Hk]]; exists r; split; auto; now apply String.eqb_eq.
Qed.

Lemma has_app {R} (key : R -> string) (k : string) (xs ys : list R) :
  has key k (xs ++ ys) = has key k xs || has key k ys.
Proof. unfold has. apply existsb_app. Qed.

Lemma map_if_none {R} (test : R -> bool) (f : R -> R) (rows : list R) :
  (forall r, In r rows -> test r = false) ->
  map (fun r => if test r then f r else r) rows = rows.
Proof.
  induction rows as [| x rows IH]; simpl; intros H; [reflexivity |].
  rewrite (H x (or_introl eq_refl)), IH; auto.
Qed.

Lemma find_none_all {R} (test : R -> bool) (rows : list R) :
  find test rows = None -> forall r, In r rows -> test r = false.
Proof. intros H r Hin. exact (find_none test rows H r Hin). Qed.

(** *** Running the monad *)

Lemma bind_run {A B} (m : M A) (k : A -> M B) (w w1 : World) (a : A) :
  m w = (inr a, w1) -> bind m k w = k a w1.
Proof. intros H. unfold bind. rewrite H. reflexivity. Qed.

Lemma bind_throw {A B} (m : M A) (k : A -> M B) (w w1 : World) (e : exn) :
  m w = (inl e, w1) -> bind m k w = (inl e, w1).
Proof. intros H. unfold bind. rewrite H. reflexivity. Qed.

Lemma ret_run {A} (a : A) (w : World) : ret a w = (inr a, w).
Proof. reflexivity. Qed.

Lemma uuidv4_run (rt : Runtime) (w : World) :
  uuidv4 rt w = (inr (uuidv4_at rt (uuid_calls w)),
                 mkWorld (db w) (console w) (S (uuid_calls w)) (mail_calls w)).
Proof. reflexivity. Qed.

Lemma run_stmt_ok (stmt : DB -> exn + DB) (w : World) (d : DB) :
  stmt (db w) = inr d ->
  run_stmt stmt w = (inr tt, mkWorld d (console w) (uuid_calls w) (mail_calls w)).
Proof. intros H. unfold run_stmt. rewrite H. reflexivity. Qed.



Lemma internal_notification_html_run (type summary : string) (w : World) :
  internal_notification_html type summary w
  = (inr (mkTemplate ("[LeadFlow24] " ++ type ++ ": " ++ summary)), w).
Proof. reflexivity. Qed.

(** *** The email service *)

(** What one call of [sendEmail] does when the identifier it draws is not
    yet a key of [email_log]. *)
Lemma sendEmail_run (rt : Runtime) (w : World) (to subject : string) :
  has EmailLog.id (next_uuid rt w 0) (email_log (db w)) = false ->
  sendEmail rt to subject w =
  match sendMail_at rt (mail_calls w) with
  | inr info =>
      (inr (Some info),
       mkWorld
         (with_email_log
            (email_log (db w) ++
             [EmailLog.mk (next_uuid rt w 0) to subject (Some "custom") (Some "sent")
                (CURRENT_TIMESTAMP rt)]) (db w))
         (console w) (S (uuid_calls w)) (S (mail_calls w)))
  | inl msg =>
      (inr None,
       mkWorld
         (with_email_log
            (email_log (db w) ++
             [EmailLog.mk (next_uuid rt w 0) to subject (Some "custom") (Some "failed")
                (CURRENT_TIMESTAMP rt)]) (db w))
         (console w ++ ["Email send failed: " ++ msg])
         (S (uuid_calls w)) (S (mail_calls w)))
  end.
Proof.
  unfold next_uuid. rewrite Nat.add_0_r. intros Hfresh.
  unfold sendEmail, try_catch, bind, transporter_sendMail, uuidv4, run_stmt,
    console_write, ret, insert_email_log.
  destruct (sendMail_at rt (mail_calls w)) as [msg | info]; simpl;
    rewrite Hfresh; reflexivity.
Qed.

Lemma sendEmail_ok (rt : Runtime) (w : World) (to subject : string) :
  has EmailLog.id (next_uuid rt w 0) (email_log (db w)) = false ->
  exists (r : option string) (w' : World),
    sendEmail rt to subject w = (inr r, w') /\
    with_email_log (email_log (db w)) (db w') = db w /\
    uuid_calls w' = S (uuid_calls w).
Proof.
  intros F. rewrite (sendEmail_run rt w to subject F).
  destruct (sendMail_at rt (mail_calls w)); eexists _, _;
    (split; [reflexivity |]); destruct w as [[] ? ? ?]; split; reflexivity.
Qed.

(** C9. Every call of [sendEmail] whose fresh identifier is not yet a key
    of [email_log] appends exactly one row to [email_log], with status
    "sent" when the transport delivers and "failed" when it rejects; the
    call never throws: on a rejection it writes the failure to the console
    and returns [null]. No other table is touched. *)
Theorem sendEmail_logs_once_and_never_throws
    (rt : Runtime) (w : World) (to subject : string) :
  has EmailLog.id (next_uuid rt w 0) (email_log (db w)) = false ->
  exists (result : option string) (w' : World) (st : string),
    sendEmail rt to subject w = (inr result, w') /\
    email_log (db w') =
      (email_log (db w) ++
       [EmailLog.mk (next_uuid rt w 0) to subject (Some "custom") (Some st) (CURRENT_TIMESTAMP rt)])%list /\
    with_email_log (email_log (db w)) (db w') = db w /\
    match sendMail_at rt (mail_calls w) with
    | inr info => result = Some info /\ st = "sent" /\ console w' = console w
    | inl msg =>
        result = None /\ st = "failed" /\
        console w' = (console w ++ [("Email send failed: " ++ msg)%string])%list
    end.
Proof.
  intros Hfresh. rewrite (sendEmail_run rt w to subject Hfresh).
  destruct (sendMail_at rt (mail_calls w)) as [msg | info].
  - eexists _, _, "failed". split; [reflexivity |].
    destruct w as [[] ? ? ?]; simpl. repeat split; reflexivity.
  - eexists _, _, "sent". split; [reflexivity |].
    destruct w as [[] ? ? ?]; simpl. repeat split; reflexivity.
Qed.

Lemma sendEmail_logs_once_and_never_throws_witness :
  has EmailLog.id (next_uuid Examples.rt_smtp_down Examples.w_demo 0)
    (email_log (db Examples.w_demo)) = false /\
  exists (result : option string) (w' : World) (st : string),
    sendEmail Examples.rt_smtp_down "mike@edmontonprohvac.ca" "Welcome" Examples.w_demo
      = (inr result, w') /\
    email_log (db w') =
      (email_log (db Examples.w_demo) ++
       [EmailLog.mk (next_uuid Examples.rt_smtp_down Examples.w_demo 0)
          "mike@edmontonprohvac.ca" "Welcome" (Some "custom") (Some st)
          (CURRENT_TIMESTAMP Examples.rt_smtp_down)])%list /\
    with_email_log (email_log (db Examples.w_demo)) (db w') = db Examples.w_demo /\
    match sendMail_at Examples.rt_smtp_down (mail_calls Examples.w_demo) with
    | inr info => result = Some info /\ st = "sent" /\ console w' = console Examples.w_demo
    | inl msg =>
        result = None /\ st = "failed" /\
        console w' = (console Examples.w_demo ++ [("Email send failed: " ++ msg)%string])%list
    end.
Proof.
  split; [reflexivity |].
  apply (sendEmail_logs_once_and_never_throws Examples.rt_smtp_down Examples.w_demo).
  reflexivity.
Defined.

(** *** Capture-page views *)

(** C10. For every slug, [POST /api/capture-pages/:slug/view] answers 200
    with [{success: true}]; it increments [views] on the rows of
    [capture_pages] with that slug and touches nothing else, so when no row
    has the slug the database is left as it was. *)
Theorem capture_page_view_counts_existing_rows_only (slug : string) (w : World) :
  exists w' : World,
    post_capture_page_view slug w = (inr (mkResponse 200 Success), w') /\
    capture_pages (db w') =
      map (fun p => if (CapturePage.slug p =? slug)%string
                    then CapturePage.incr_views p else p) (capture_pages (db w)) /\
    with_capture_pages (capture_pages (db w)) (db w') = db w /\
    ((forall p, In p (capture_pages (db w)) -> CapturePage.slug p <> slug) ->
     db w' = db w).
Proof.
  eexists. split; [reflexivity |]. simpl.
  destruct w as [[s t c l a p e] co u m]; simpl.
  split; [reflexivity |]. split; [reflexivity |].
  intros Hnone. unfold update_views, with_capture_pages; simpl.
  rewrite map_if_none; [reflexivity |].
  intros r Hin. apply String.eqb_neq. auto.
Qed.

Lemma capture_page_view_counts_existing_rows_only_witness :
  (forall p, In p (capture_pages (db Examples.w_demo)) ->
             CapturePage.slug p <> "no-such-page") /\
  exists w' : World,
    post_capture_page_view "no-such-page" Examples.w_demo
      = (inr (mkResponse 200 Success), w') /\
    db w' = db Examples.w_demo.
Proof.
  assert (Hnone : forall p, In p (capture_pages (db Examples.w_demo)) ->
                            CapturePage.slug p <> "no-such-page").
  { intros p [<- | []]. discriminate. }
  split; [exact Hnone |].
  destruct (capture_page_view_counts_existing_rows_only
              "no-such-page" Examples.w_demo)
    as [w' [Hrun [_ [_ Hsame]]]].
  exists w'. split; [exact Hrun | exact (Hsame Hnone)].
Defined.

(** *** Lead-Ads verification *)

Lemma strict_eq_true_iff (a b : option string) : strict_eq a b = true <-> a = b.
Proof.
  destruct a as [x |], b as [y |]; simpl;
    try (split; [discriminate | congruence]); try tauto.
  rewrite String.eqb_eq. split; congruence.
Qed.

(** C7. [GET /api/webhooks/facebook] answers 200 with exactly the
    [hub.challenge] value when [hub.mode] is "subscribe" and
    [hub.verify_token] is strictly equal to [process.env.WEBHOOK_SECRET];
    for every other combination it answers 403 with the fixed status text,
    whatever the challenge is. It never changes the state. *)
Theorem facebook_verification_echoes_challenge_or_forbids
    (rt : Runtime) (mode token challenge : option string) (w : World) :
  (mode = Some "subscribe" /\ token = WEBHOOK_SECRET rt ->
   get_webhooks_facebook rt mode token challenge w
     = (inr (mkResponse 200 (Sent challenge)), w)) /\
  (~ (mode = Some "subscribe" /\ token = WEBHOOK_SECRET rt) ->
   get_webhooks_facebook rt mode token challenge w
     = (inr (mkResponse 403 (StatusText "Forbidden")), w)).
Proof.
  unfold get_webhooks_facebook. split.
  - intros [Hm Ht].
    apply strict_eq_true_iff in Hm, Ht. rewrite Hm, Ht. reflexivity.
  - intros Hno.
    destruct (strict_eq mode (Some "subscribe")) eqn:Hm;
      destruct (strict_eq token (WEBHOOK_SECRET rt)) eqn:Ht; simpl; try reflexivity.
    exfalso. apply Hno. split; now apply strict_eq_true_iff.
Qed.

Lemma facebook_verification_echoes_challenge_or_forbids_witness :
  (Some "subscribe" = Some "subscribe" /\ Some "fb-verify" = WEBHOOK_SECRET Examples.rt_secret) /\
  get_webhooks_facebook Examples.rt_secret (Some "subscribe") (Some "fb-verify")
      (Some "1158201444") Examples.w_empty
    = (inr (mkResponse 200 (Sent (Some "1158201444"))), Examples.w_empty) /\
  ~ (Some "subscribe" = Some "subscribe" /\ Some "guess" = WEBHOOK_SECRET Examples.rt_secret) /\
  get_webhooks_facebook Examples.rt_secret (Some "subscribe") (Some "guess")
      (Some "1158201444") Examples.w_empty
    = (inr (mkResponse 403 (StatusText "Forbidden")), Examples.w_empty).
Proof.
  assert (Hyes : Some "subscribe" = Some "subscribe" /\
                 Some "fb-verify" = WEBHOOK_SECRET Examples.rt_secret)
    by (split; reflexivity).
  assert (Hno : ~ (Some "subscribe" = Some "subscribe" /\
                   Some "guess" = WEBHOOK_SECRET Examples.rt_secret))
    by (intros [_ H]; discriminate H).
  split; [exact Hyes |].
  split; [exact (proj1 (facebook_verification_echoes_challenge_or_forbids
                          Examples.rt_secret (Some "subscribe") (Some "fb-verify")
                          (Some "1158201444") Examples.w_empty) Hyes) |].
  split; [exact Hno |].
  exact (proj2 (facebook_verification_echoes_challenge_or_forbids
                  Examples.rt_secret (Some "subscribe") (Some "guess")
                  (Some "1158201444") Examples.w_empty) Hno).
Defined.

(** *** The dashboard *)

Lemma insert_desc_length (l : Lead.t) (rows : list Lead.t) :
  List.length (insert_desc l rows) = S (List.length rows).
Proof.
  induction rows as [| x rows IH]; simpl; [reflexivity |].
  destruct (String.leb (Lead.created_at x) (Lead.created_at l)); simpl; congruence.
Qed.

Lemma insert_desc_filter_length (f : Lead.t -> bool) (l : Lead.t) (rows : list Lead.t) :
  List.length (filter f (insert_desc l rows)) = List.length (filter f (l :: rows)).
Proof.
  induction rows as [| x rows IH]; [reflexivity |].
  simpl in *. destruct (String.leb (Lead.created_at x) (Lead.created_at l)); [reflexivity |].
  simpl. destruct (f x), (f l); simpl in *; lia.
Qed.

Lemma order_by_length (rows : list Lead.t) :
  List.length (order_by_created_at_desc rows) = List.length rows.
Proof.
  induction rows as [| x rows IH]; simpl; [reflexivity |].
  rewrite insert_desc_length. congruence.
Qed.

Lemma order_by_filter_length (f : Lead.t -> bool) (rows : list Lead.t) :
  List.length (filter f (order_by_created_at_desc rows)) = List.length (filter f rows).
Proof.
  induction rows as [| x rows IH]; simpl; [reflexivity |].
  rewrite insert_desc_filter_length. simpl. destruct (f x); simpl; congruence.
Qed.

Lemma order_by_permutation (rows : list Lead.t) :
  Permutation (order_by_created_at_desc rows) rows.
Proof.
  induction rows as [| x rows IH]; simpl; [constructor |].
  transitivity (x :: order_by_created_at_desc rows); [| now constructor].
  generalize (order_by_created_at_desc rows) as sorted. clear.
  induction sorted as [| y sorted IH]; simpl; [reflexivity |].
  destruct (String.leb (Lead.created_at y) (Lead.created_at x)); [reflexivity |].
  rewrite IH. apply perm_swap.
Qed.

(** What the handler answers for a known token. *)
Lemma get_dashboard_run (rt : Runtime) (w : World) (token : string) (c : Client.t) :
  select_client_by_token token (db w) = Some c ->
  get_dashboard rt token w =
  (inr (mkResponse 200
          (DashboardJson (dashboard rt c (select_leads_of_client (Client.id c) (db w))))),
   w).
Proof.
  intros Hc. unfold get_dashboard, try_catch, bind, query, ret. rewrite Hc. reflexivity.
Qed.


(** Up to 100 leads the printed close rate is the exact percentage rounded
    to a closest tenth (on an exact tie such as 23 of 80 the binary64
    product lies just below the tie and the lower tenth is printed). *)
Lemma close_rate_rounds_upto_100 (rt : Runtime) (total booked : nat) :
  (1 <= total <= 100)%nat -> (booked <= total)%nat ->
  close_rate_rounds rt total booked = true.
Proof.
  intros Ht Hb.
  assert (Hall : forallb (fun t => forallb (close_rate_rounds rt t) (seq 0 (S t)))
                   (seq 1 100) = true) by (vm_compute; reflexivity).
  rewrite forallb_forall in Hall.
  assert (Hrow : forallb (close_rate_rounds rt total) (seq 0 (S total)) = true)
    by (apply Hall, in_seq; lia).
  rewrite forallb_forall in Hrow. apply Hrow, in_seq. lia.
Qed.

Example close_rate_of_23_in_80 (rt : Runtime) : close_rate rt 80 23 = Str "28.7".
Proof. vm_compute. reflexivity. Qed.



(** *** The weekly histogram *)

(** The labels of the histogram: four buckets, W1 to W4 in that order. *)
Lemma weekly_leads_labels (rt : Runtime) (leads : list Lead.t) :
  map week (weekly_leads rt leads) = ["W1"; "W2"; "W3"; "W4"].
Proof. reflexivity. Qed.

(** With plain days the windows are consecutive 7-day windows from 21 days
    before [now] to 7 days after it. *)
Lemma weekly_windows (rt : Runtime) :
  plain_days rt ->
  weekStart rt 3 = now rt - 21 * day_ms /\
  weekEnd rt 3 = weekStart rt 2 /\
  weekEnd rt 2 = weekStart rt 1 /\
  weekEnd rt 1 = weekStart rt 0 /\
  weekStart rt 0 = now rt /\
  weekEnd rt 0 = now rt + 7 * day_ms.
Proof.
  intros Hplain. unfold weekEnd, weekStart. rewrite !Hplain.
  unfold day_ms. simpl. repeat split; lia.
Qed.

Lemma in_week_window (rt : Runtime) (i : nat) (l : Lead.t) :
  plain_days rt ->
  in_week rt i l = Frames.in_window rt (Z.of_nat i) l.
Proof.
  intros Hplain. unfold in_week, Frames.in_window, created_within, weekEnd, weekStart.
  rewrite !Hplain.
  replace (now rt + - (Z.of_nat i * 7) * day_ms) with (now rt - Z.of_nat i * 7 * day_ms)
    by lia.
  reflexivity.
Qed.

Lemma filter_cons_length {R} (f : R -> bool) (x : R) (rows : list R) :
  List.length (filter f (x :: rows)) = (Nat.b2n (f x) + List.length (filter f rows))%nat.
Proof. simpl. destruct (f x); reflexivity. Qed.

(** A lead is in exactly one window when its instant lies in the 28 days
    the windows cover, and in none otherwise. *)
Lemma in_week_partition (rt : Runtime) (l : Lead.t) :
  plain_days rt ->
  (Nat.b2n (in_week rt 3 l) + Nat.b2n (in_week rt 2 l)
   + Nat.b2n (in_week rt 1 l) + Nat.b2n (in_week rt 0 l)
   = Nat.b2n (Frames.in_histogram rt l))%nat.
Proof.
  intros Hplain. rewrite !in_week_window by exact Hplain.
  unfold Frames.in_window, Frames.in_histogram, created_within, day_ms.
  destruct (Date_parse rt (Lead.created_at l)) as [d |]; [| reflexivity].
  simpl Z.of_nat.
  repeat match goal with
         | |- context [?a <=? ?b] => destruct (Z.leb_spec a b)
         | |- context [?a <? ?b] => destruct (Z.ltb_spec a b)
         end; simpl; lia.
Qed.

(** The counts add up to the number of leads in the covered window. *)
Lemma weekly_leads_sum (rt : Runtime) (leads : list Lead.t) :
  plain_days rt ->
  bucket_total (weekly_leads rt leads)
  = List.length (filter (Frames.in_histogram rt) leads).
Proof.
  intros Hplain.
  unfold weekly_leads, bucket_total. cbn [weekly_loop week_bucket fold_right count].
  induction leads as [| l leads IH]; [reflexivity |].
  assert (Hl := in_week_partition rt l Hplain).
  rewrite !filter_cons_length. lia.
Qed.

(** The counts add up to the number of leads when every lead was created
    between 21 days before [now] and 7 days after it. *)
Lemma weekly_leads_total (rt : Runtime) (leads : list Lead.t) :
  plain_days rt ->
  (forall l, In l leads -> Frames.in_histogram rt l = true) ->
  bucket_total (weekly_leads rt leads) = List.length leads.
Proof.
  intros Hplain Hall. rewrite weekly_leads_sum by exact Hplain.
  f_equal. apply forallb_filter_id, forallb_forall. exact Hall.
Qed.

(** Leads created between 28 and 21 days before [now] are in no window. *)
Lemma weekly_leads_skip_fourth_week (rt : Runtime) (leads : list Lead.t) :
  plain_days rt ->
  (forall l, In l leads ->
             created_within rt (now rt - 28 * day_ms) (now rt - 21 * day_ms) l = true) ->
  bucket_total (weekly_leads rt leads) = 0%nat.
Proof.
  intros Hplain Hall. rewrite weekly_leads_sum by exact Hplain.
  induction leads as [| l leads IH]; [reflexivity |].
  rewrite filter_cons_length, IH by (intros x Hx; apply Hall; now right).
  assert (Hl := Hall l (or_introl eq_refl)).
  unfold Frames.in_histogram, created_within in *.
  destruct (Date_parse rt (Lead.created_at l)) as [d |]; [| discriminate].
  apply andb_true_iff in Hl. destruct Hl as [_ Hl]. apply Z.ltb_lt in Hl.
  replace (now rt - 21 * day_ms <=? d) with false by (symmetry; apply Z.leb_gt; lia).
  reflexivity.
Qed.

(** C1 (the code at a failing input). The server runs in UTC. The demo
    client has one lead, created 25 days before the request, so inside the
    28 days that precede it; the dashboard reports [totalLeads = 1] and the
    four buckets W1..W4 all with count 0: the lead is in no window, and the
    counts do not add up to the total. *)
Theorem weekly_histogram_misses_lead_of_fourth_week :
  exists d : Dashboard,
    get_dashboard Examples.rt_ok "demo_token" Examples.w_demo
      = (inr (mkResponse 200 (DashboardJson d)), Examples.w_demo) /\
    Forall (fun l => created_within Examples.rt_ok
                       (now Examples.rt_ok - 28 * day_ms) (now Examples.rt_ok) l = true)
      (filter (of_client "client-1") (leads (db Examples.w_demo))) /\
    totalLeads (stats d) = 1%nat /\
    weeklyLeads d = [mkBucket "W1" 0; mkBucket "W2" 0; mkBucket "W3" 0; mkBucket "W4" 0] /\
    bucket_total (weeklyLeads d) = 0%nat.
Proof.
  eexists. split; [apply (get_dashboard_run _ _ _ Examples.demo_client); reflexivity |].
  split.
  - repeat constructor.
  - repeat split; vm_compute; reflexivity.
Qed.

(** *** Binding the arguments of a statement *)

Lemma scalar_bind_value (v : Js.value Js.raw) :
  Js.scalar v = true -> bind_value v = inr (parameter_of v).
Proof.
  unfold parameter_of. destruct v as [| | [s | x | b | xs | o]]; simpl;
    intros H; try discriminate; reflexivity.
Qed.

Lemma bind_arguments_scalars (n : nat) (args : list (Js.value Js.raw)) :
  forall (bound : list sql) (named : bool),
    forallb Js.scalar args = true ->
    (List.length bound + List.length args = n)%nat ->
    bind_arguments n args bound named = inr (bound ++ map parameter_of args)%list.
Proof.
  induction args as [| v args IH]; intros bound named Hs Hn; simpl in *.
  - rewrite Nat.add_0_r in Hn. subst n. rewrite Nat.ltb_irrefl, app_nil_r. reflexivity.
  - apply andb_true_iff in Hs. destruct Hs as [Hv Hs].
    assert (Hnext : bind_next n v bound = inr (bound ++ [parameter_of v])%list).
    { unfold bind_next. rewrite (scalar_bind_value v Hv). simpl.
      replace (List.length bound <? n)%nat with true
        by (symmetry; apply Nat.ltb_lt; lia).
      reflexivity. }
    assert (Hrest : bind_arguments n args (bound ++ [parameter_of v]) named
                    = inr (bound ++ parameter_of v :: map parameter_of args)%list).
    { rewrite IH; [| exact Hs | rewrite length_app; simpl; lia].
      rewrite <- app_assoc. reflexivity. }
    destruct v as [| | [s | x | b | xs | o]]; try discriminate Hv;
      rewrite Hnext; exact Hrest.
Qed.

(** Arguments that are all absent, [null], strings or numbers are bound
    one to one, in order. *)
Lemma bind_parameters_scalars (n : nat) (args : list (Js.value Js.raw)) :
  forallb Js.scalar args = true -> List.length args = n ->
  bind_parameters n args = inr (map parameter_of args).
Proof.
  intros Hs Hn. unfold bind_parameters.
  rewrite bind_arguments_scalars; [reflexivity | exact Hs | exact Hn].
Qed.

Lemma scalar_arg (v : option string) : Js.scalar (arg v) = true.
Proof. destruct v; reflexivity. Qed.

Lemma scalar_or_literal (v : Js.value Js.raw) (d : string) :
  Js.scalar v = true -> Js.scalar (Js.or_literal v d) = true.
Proof. intros H. unfold Js.or_literal. destruct (Js.truthy v); [exact H | reflexivity]. Qed.

Lemma parameter_of_arg (v : option string) (show : Js.number -> string) :
  as_text show (parameter_of (arg v)) = v.
Proof. destruct v; reflexivity. Qed.

(** A truthy scalar is a string or a number, so it has a text. *)
Lemma truthy_scalar_text (rt : Runtime) (v : Js.value Js.raw) :
  Js.scalar v = true -> Js.truthy v = true ->
  text_of rt v = Some (text_or_empty rt v).
Proof.
  unfold text_or_empty, text_of, parameter_of.
  destruct v as [| | [s | x | b | xs | o]]; simpl; intros Hs Ht;
    try discriminate; reflexivity.
Qed.

Lemma lift_run {A} (a : A) (w : World) : lift (inr a) w = (inr a, w).
Proof. reflexivity. Qed.

Lemma lift_throw {A} (e : exn) (w : World) : @lift A (inl e) w = (inl e, w).
Proof. reflexivity. Qed.

Lemma query_run {A} (q : DB -> A) (w : World) : query q w = (inr (q (db w)), w).
Proof. reflexivity. Qed.

(** A string or a number always has a text to print. *)
Lemma show_scalar (rt : Runtime) (v : Js.value Js.raw) :
  Js.scalar v = true -> exists s : string, show rt v = inr s.
Proof.
  destruct v as [| | [s | x | b | xs | o]]; simpl; intros H;
    try discriminate; eexists; reflexivity.
Qed.

Lemma bind_lift {A B} (a : A) (k : A -> M B) (w : World) :
  bind (lift (inr a)) k w = k a w.
Proof. reflexivity. Qed.

(** *** Lead capture *)

Lemma lead_fields_scalar (b : LeadBody.t) :
  LeadBody.scalars b = true ->
  Js.scalar (LeadBody.name b) = true /\
  Js.scalar (LeadBody.phone b) = true /\
  Js.scalar (LeadBody.service_needed b) = true /\
  Js.scalar (LeadBody.city b) = true /\
  Js.scalar (LeadBody.message b) = true /\
  Js.scalar (LeadBody.capture_page b) = true.
Proof.
  unfold LeadBody.scalars. cbn [forallb]. intros H.
  repeat match type of H with
         | (_ && _)%bool = true => apply andb_true_iff in H; destruct H as [? H]
         end.
  repeat split; assumption.
Qed.

Lemma update_submissions_none (slug : string) (d : DB) :
  select_capture_page slug d = None -> update_submissions slug d = d.
Proof.
  intros H. unfold update_submissions.
  rewrite map_if_none; [destruct d; reflexivity |].
  exact (find_none_all _ _ H).
Qed.

Lemma lead_scalars (b : LeadBody.t) :
  LeadBody.scalars b = true ->
  forall clientId id,
    forallb Js.scalar
      [arg (Some id); arg clientId; LeadBody.capture_page b; LeadBody.name b;
       LeadBody.email b; LeadBody.phone b; LeadBody.service_needed b;
       LeadBody.address b; LeadBody.city b; LeadBody.postal_code b;
       LeadBody.message b; Js.or_literal (LeadBody.source b) "facebook";
       LeadBody.utm_source b; LeadBody.utm_medium b; LeadBody.utm_campaign b] = true.
Proof.
  unfold LeadBody.scalars. cbn [forallb]. intros H clientId id.
  repeat match type of H with
         | (_ && _)%bool = true => apply andb_true_iff in H; destruct H as [? H]
         end.
  rewrite !scalar_arg, scalar_or_literal by assumption.
  repeat match goal with
         | E : Js.scalar ?v = true |- context [Js.scalar ?v] => rewrite E
         end.
  reflexivity.
Qed.

Lemma capture_page_scalar (b : LeadBody.t) :
  LeadBody.scalars b = true -> Js.scalar (LeadBody.capture_page b) = true.
Proof.
  unfold LeadBody.scalars. cbn [forallb]. intros H.
  repeat match type of H with
         | (_ && _)%bool = true => apply andb_true_iff in H; destruct H as [? H]
         end.
  assumption.
Qed.

(** Counting a submission touches no table but [capture_pages]. *)
Lemma counted_tables (c : bool) (slug : option string) (d : DB) :
  let d' := if c then update_submissions_where slug d else d in
  subscribers d' = subscribers d /\ trial_signups d' = trial_signups d /\
  clients d' = clients d /\ leads d' = leads d /\
  lead_activity d' = lead_activity d /\ email_log d' = email_log d.
Proof. destruct c, slug, d; repeat split; reflexivity. Qed.

Lemma count_submission_run (rt : Runtime) (cp : Js.value Js.raw) (w : World) :
  Js.scalar cp = true ->
  when (Js.truthy cp)
    (bind (lift (bind_parameters 1 [cp]))
       (fun ps => exec (update_submissions_where (text_column rt ps 0)))) w
  = (inr tt,
     mkWorld (if Js.truthy cp then update_submissions_where (text_of rt cp) (db w)
              else db w)
       (console w) (uuid_calls w) (mail_calls w)).
Proof.
  intros Hcp. unfold when.
  destruct (Js.truthy cp); [| destruct w; reflexivity].
  rewrite (bind_parameters_scalars 1 [cp]); [| cbn [forallb]; now rewrite Hcp | reflexivity].
  reflexivity.
Qed.

(** The first part of [/api/leads] on a body of scalars with a truthy name
    and phone: the lead is stored for the client of its page. *)
Lemma store_lead_run (rt : Runtime) (w : World) (b : LeadBody.t) :
  LeadBody.scalars b = true ->
  Js.truthy (LeadBody.name b) = true ->
  Js.truthy (LeadBody.phone b) = true ->
  references Client.id (clients (db w)) (owner_of rt b (db w)) = true ->
  has Lead.id (next_uuid rt w 0) (leads (db w)) = false ->
  has LeadActivity.id (next_uuid rt w 1) (lead_activity (db w)) = false ->
  store_lead rt b w =
  (inr (next_uuid rt w 0, owner_of rt b (db w)),
   mkWorld (with_lead_stored rt w b (owner_of rt b (db w))) (console w)
     (S (S (uuid_calls w))) (mail_calls w)).
Proof.
  intros Hs Hn Hp Hfk F0 F1.
  assert (Hcp := capture_page_scalar b Hs).
  assert (Hone : bind_parameters 1 [LeadBody.capture_page b]
                 = inr [parameter_of (LeadBody.capture_page b)]).
  { apply bind_parameters_scalars; [cbn [forallb]; now rewrite Hcp | reflexivity]. }
  unfold store_lead.
  (* the client of the page *)
  rewrite (bind_run _ _ w w (owner_of rt b (db w))).
  2:{ unfold owner_of. destruct (Js.truthy (LeadBody.capture_page b)); [| reflexivity].
      rewrite Hone. rewrite (bind_run _ _ _ _ _ (lift_run _ _)).
      rewrite (bind_run _ _ _ _ _ (query_run _ _)). reflexivity. }
  (* the lead *)
  rewrite (bind_run _ _ _ _ _ (uuidv4_run rt _)).
  rewrite (bind_parameters_scalars 15 _ (lead_scalars b Hs _ _) eq_refl).
  rewrite (bind_run _ _ _ _ _ (lift_run _ _)).
  unfold text_column, parameter. cbn [map nth].
  fold (text_of rt (LeadBody.capture_page b)) (text_of rt (LeadBody.name b))
    (text_of rt (LeadBody.email b)) (text_of rt (LeadBody.phone b))
    (text_of rt (LeadBody.service_needed b)) (text_of rt (LeadBody.address b))
    (text_of rt (LeadBody.city b)) (text_of rt (LeadBody.postal_code b))
    (text_of rt (LeadBody.message b))
    (text_of rt (Js.or_literal (LeadBody.source b) "facebook"))
    (text_of rt (LeadBody.utm_source b)) (text_of rt (LeadBody.utm_medium b))
    (text_of rt (LeadBody.utm_campaign b)).
  assert (Hname : Js.scalar (LeadBody.name b) = true /\ Js.scalar (LeadBody.phone b) = true).
  { revert Hs. unfold LeadBody.scalars. cbn [forallb]. intros H.
    repeat match type of H with
           | (_ && _)%bool = true => apply andb_true_iff in H; destruct H as [? H]
           end.
    split; assumption. }
  destruct Hname as [Hsn Hsp].
  rewrite (truthy_scalar_text rt _ Hsn Hn), (truthy_scalar_text rt _ Hsp Hp).
  set (id := uuidv4_at rt (uuid_calls w)).
  assert (Eid : next_uuid rt w 0 = id) by (unfold next_uuid; now rewrite Nat.add_0_r).
  clearbody id.
  erewrite (bind_run (run_stmt _)).
  2:{ apply run_stmt_ok. cbn [db]. unfold insert_lead. cbn [required and_then].
      rewrite <- Eid, F0, Hfk. reflexivity. }
  (* the submission *)
  rewrite (bind_run _ _ _ _ _ (count_submission_run rt _ _ Hcp)).
  cbn [db console uuid_calls mail_calls].
  (* the activity *)
  rewrite (bind_run _ _ _ _ _ (uuidv4_run rt _)).
  cbn [db console uuid_calls mail_calls].
  match goal with
  | |- context [if Js.truthy _ then update_submissions_where ?s ?d1 else _] =>
      destruct (counted_tables (Js.truthy (LeadBody.capture_page b)) s d1)
        as [_ [_ [_ [Hleads [Hact _]]]]];
      set (d2 := if Js.truthy (LeadBody.capture_page b)
                 then update_submissions_where s d1 else d1) in *
  end.
  erewrite (bind_run (run_stmt _)).
  2:{ apply run_stmt_ok. unfold insert_lead_activity. cbn [db].
      rewrite Hact, Hleads.
      replace (uuidv4_at rt (S (uuid_calls w))) with (next_uuid rt w 1)
        by (unfold next_uuid; f_equal; lia).
      replace (lead_activity (with_leads _ (db w))) with (lead_activity (db w))
        by (destruct (db w); reflexivity).
      rewrite F1. unfold references.
      match goal with
      | |- context [leads (with_leads ?rows (db w))] =>
          replace (leads (with_leads rows (db w))) with rows
            by (destruct (db w); reflexivity)
      end.
      rewrite has_app. cbn [has existsb Lead.id]. rewrite Eid, String.eqb_refl, orb_true_r.
      reflexivity. }
  rewrite ret_run. cbn [db console uuid_calls mail_calls]. rewrite Eid.
  f_equal. f_equal.
  unfold with_lead_stored, created_activity, lead_row. cbn zeta.
  subst d2 id.
  replace (uuidv4_at rt (S (uuid_calls w))) with (next_uuid rt w 1)
    by (unfold next_uuid; f_equal; lia).
  destruct (Js.truthy (LeadBody.capture_page b));
    [destruct (text_of rt (LeadBody.capture_page b)) |];
    destruct (db w); reflexivity.
Qed.

(** The tables after the first part of [/api/leads]. *)
Lemma with_lead_stored_tables (rt : Runtime) (w : World) (b : LeadBody.t)
    (owner : option string) :
  let d' := with_lead_stored rt w b owner in
  subscribers d' = subscribers (db w) /\
  trial_signups d' = trial_signups (db w) /\
  clients d' = clients (db w) /\
  leads d' = (leads (db w) ++ [lead_row rt w b owner])%list /\
  lead_activity d' = (lead_activity (db w) ++ [created_activity rt w b])%list /\
  capture_pages d' =
    (if Js.truthy (LeadBody.capture_page b)
     then capture_pages
            (update_submissions_where (text_of rt (LeadBody.capture_page b)) (db w))
     else capture_pages (db w)) /\
  email_log d' = email_log (db w).
Proof.
  unfold with_lead_stored. cbn zeta.
  destruct (Js.truthy (LeadBody.capture_page b));
    [destruct (text_of rt (LeadBody.capture_page b)) |];
    destruct (db w); repeat split; reflexivity.
Qed.

(** The third part of [/api/leads]: the operator is notified whatever the
    transport answers; only [email_log] changes. *)
Lemma notify_operator_run (rt : Runtime) (b : LeadBody.t) (w : World) :
  LeadBody.scalars b = true ->
  has EmailLog.id (next_uuid rt w 0) (email_log (db w)) = false ->
  exists w' : World,
    notify_operator rt b w = (inr tt, w') /\
    with_email_log (email_log (db w)) (db w') = db w /\
    uuid_calls w' = S (uuid_calls w).
Proof.
  intros Hs F. unfold notify_operator.
  destruct (lead_fields_scalar b Hs) as (Hn & Hp & Hsv & _ & _ & Hcp).
  destruct (show_scalar rt _ Hn) as [name ->].
  destruct (show_scalar rt _ (scalar_or_literal _ "Service request" Hsv)) as [service ->].
  destruct (show_scalar rt _ (scalar_or_literal _ "direct" Hcp)) as [page ->].
  destruct (show_scalar rt _ Hp) as [phone ->].
  rewrite !bind_lift.
  rewrite (bind_run _ _ _ _ _ (internal_notification_html_run _ _ _)).
  match goal with
  | |- context [bind (sendEmail rt ?to ?subj) _ ?w0] =>
      destruct (sendEmail_ok rt w0 to subj F) as [r [w' [Hsend [Hdb Hu]]]]
  end.
  rewrite (bind_run _ _ _ _ _ Hsend). exists w'. repeat split; assumption.
Qed.

(** C2 (as stated, at a concrete request). A lead-capture request with a
    name, a phone and no [capture_page], whose [email] is the boolean
    [true], is answered 500: the driver refuses to bind a boolean, and no
    lead is stored. *)
Theorem lead_capture_with_boolean_email_answers_500 :
  Js.truthy (LeadBody.name Examples.lead_email_true) = true /\
  Js.truthy (LeadBody.phone Examples.lead_email_true) = true /\
  LeadBody.capture_page Examples.lead_email_true = Js.undefined /\
  exists w' : World,
    post_leads Examples.rt_ok Examples.lead_email_true Examples.w_demo
      = (inr (mkResponse 500 (Error "Lead capture failed")), w') /\
    db w' = db Examples.w_demo /\
    console w' = ["Lead capture error: SQLite3 can only bind numbers, strings, bigints, buffers, and null"].
Proof.
  split; [reflexivity |]. split; [reflexivity |]. split; [reflexivity |].
  eexists. split; [vm_compute; reflexivity |]. split; reflexivity.
Qed.

(** C2 (amended). A lead-capture request whose fields are each absent,
    [null], a string or a number, with a truthy name and phone, and whose
    [capture_page] is falsy or names no row of [capture_pages], is answered
    200 with the success envelope; it appends exactly one row to [leads],
    and that row has a NULL [client_id]. The three identifiers the handler
    draws are taken to be fresh for the table they key. *)
Theorem lead_capture_without_page_is_unassigned
    (rt : Runtime) (w : World) (b : LeadBody.t) :
  LeadBody.scalars b = true ->
  Js.truthy (LeadBody.name b) = true ->
  Js.truthy (LeadBody.phone b) = true ->
  (Js.truthy (LeadBody.capture_page b) = true ->
   forall s, text_of rt (LeadBody.capture_page b) = Some s ->
             select_capture_page s (db w) = None) ->
  has Lead.id (next_uuid rt w 0) (leads (db w)) = false ->
  has LeadActivity.id (next_uuid rt w 1) (lead_activity (db w)) = false ->
  has EmailLog.id (next_uuid rt w 2) (email_log (db w)) = false ->
  exists w' : World,
    post_leads rt b w
      = (inr (mkResponse 200
                (SuccessId (next_uuid rt w 0) "Lead captured successfully")), w') /\
    leads (db w') = (leads (db w) ++ [captured_lead rt w b])%list /\
    Lead.client_id (captured_lead rt w b) = None.
Proof.
  intros Hs Hn Hp Hpage F0 F1 F2.
  assert (Hnone : owner_of rt b (db w) = None).
  { unfold owner_of. destruct (Js.truthy (LeadBody.capture_page b)) eqn:Ht; [| reflexivity].
    destruct (text_of rt (LeadBody.capture_page b)) as [s |] eqn:Es; [| reflexivity].
    cbn [select_capture_page_where]. now rewrite (Hpage eq_refl s eq_refl). }
  assert (Hrun := store_lead_run rt w b Hs Hn Hp).
  rewrite Hnone in Hrun. specialize (Hrun eq_refl F0 F1).
  destruct (with_lead_stored_tables rt w b None) as [_ [_ [_ [Hleads [_ [_ Hlog]]]]]].
  unfold post_leads, try_catch. rewrite Hn, Hp. cbn [negb orb].
  rewrite (bind_run _ _ _ _ _ Hrun). cbn [fst snd notify_client].
  rewrite (bind_run _ _ _ _ _ (ret_run tt _)).
  match goal with
  | |- context [bind (notify_operator rt b) _ ?w0] =>
      destruct (notify_operator_run rt b w0 Hs) as [w' [Hnotify [Hdb _]]]
  end.
  { unfold next_uuid. cbn [db uuid_calls]. rewrite Hlog.
    replace (S (S (uuid_calls w)) + 0)%nat with (uuid_calls w + 2)%nat by lia.
    exact F2. }
  rewrite (bind_run _ _ _ _ _ Hnotify).
  exists w'. split; [reflexivity |]. split; [| reflexivity].
  cbn [db] in Hdb. apply (f_equal leads) in Hdb.
  replace (leads (with_email_log _ (db w'))) with (leads (db w')) in Hdb
    by (destruct (db w'); reflexivity).
  rewrite Hdb. exact Hleads.
Qed.

Lemma lead_capture_without_page_is_unassigned_witness :
  exists w' : World,
    post_leads Examples.rt_ok Examples.lead_unknown_page Examples.w_demo
      = (inr (mkResponse 200 (SuccessId "0" "Lead captured successfully")), w') /\
    leads (db w') =
      (leads (db Examples.w_demo)
       ++ [captured_lead Examples.rt_ok Examples.w_demo Examples.lead_unknown_page])%list /\
    Lead.client_id
      (captured_lead Examples.rt_ok Examples.w_demo Examples.lead_unknown_page) = None.
Proof.
  apply (lead_capture_without_page_is_unassigned
           Examples.rt_ok Examples.w_demo Examples.lead_unknown_page);
    try reflexivity.
  intros _ s Hs. injection Hs as <-. reflexivity.
Defined.

(** A submission through a page bound to a client is stored and counted,
    but rendering the client's notification throws in the same way, so the
    answer is 500 and no email is sent. *)
Example lead_capture_with_page_is_stored_and_answers_500 :
  exists w' : World,
    post_leads Examples.rt_ok Examples.lead_demo_page Examples.w_demo
      = (inr (mkResponse 500 (Error "Lead capture failed")), w') /\
    List.length (leads (db w')) = 2%nat /\
    map CapturePage.submissions (capture_pages (db w')) = [24] /\
    email_log (db w') = [].
Proof. eexists. split; [vm_compute; reflexivity |]. repeat split; reflexivity. Qed.

(** *** Lead status update *)

Lemma combine_fst_snd {A B C} (f : B -> C) (xs : list (A * B)) (more : list C) :
  combine (map fst xs) (map f (map snd xs) ++ more)
  = map (fun x => (fst x, f (snd x))) xs.
Proof. induction xs as [| x xs IH]; simpl; [reflexivity | now rewrite IH]. Qed.

(** With pushed values that are bound one to one, the question marks of
    the [SET] clause take them in order and the last parameter is the id. *)
Lemma patch_parameters (rt : Runtime) (id : string) (b : PatchBody.t) :
  forallb Js.scalar (map snd (patch_values b)) = true ->
  exists ps : list sql,
    bind_parameters (S (List.length (map fst (patch_values b))))
      (map snd (patch_values b) ++ [arg (Some id)]) = inr ps /\
    patch_updates rt (map fst (patch_values b)) ps = guarded_updates rt b /\
    text_column rt ps (List.length (map fst (patch_values b))) = Some id.
Proof.
  intros Hs. eexists. split.
  - apply bind_parameters_scalars.
    + rewrite forallb_app, Hs. reflexivity.
    + rewrite length_app, !length_map. simpl. lia.
  - rewrite map_app. cbn [map]. split.
    + unfold patch_updates, guarded_updates. rewrite combine_fst_snd.
      rewrite map_map. reflexivity.
    + unfold text_column, parameter.
      rewrite app_nth2 by (rewrite !length_map; lia).
      rewrite !length_map, Nat.sub_diag. reflexivity.
Qed.

Lemma guarded_updates_row (rt : Runtime) (b : PatchBody.t) (l : Lead.t) :
  fold_left (fun l a => Lead.assign (CURRENT_TIMESTAMP rt) a l) (guarded_updates rt b) l
  = patched_row rt b l.
Proof.
  unfold guarded_updates, patch_values, patched_row.
  destruct (Js.truthy (PatchBody.status b)),
           (Js.defined (PatchBody.notes b)),
           (Js.defined (PatchBody.job_value b)),
           (Js.truthy (PatchBody.contacted_at b)),
           (Js.truthy (PatchBody.booked_at b));
    destruct l; reflexivity.
Qed.

Lemma update_lead_rows (rt : Runtime) (b : PatchBody.t) (id : string) (d : DB) :
  leads (update_lead (CURRENT_TIMESTAMP rt) (guarded_updates rt b) id d) =
  map (fun r => if (Lead.id r =? id)%string then patched_row rt b r else r) (leads d).
Proof.
  unfold update_lead. destruct d; simpl.
  apply map_ext. intros r. now rewrite guarded_updates_row.
Qed.

Lemma select_lead_some (id : string) (d : DB) (l : Lead.t) :
  select_lead id d = Some l -> In l (leads d) /\ Lead.id l = id.
Proof.
  intros H. apply find_some in H. destruct H as [Hin Hid].
  split; [exact Hin | now apply String.eqb_eq].
Qed.

(** C3 (as stated, at a concrete request). The demo lead has status "new";
    a status update whose body supplies [status] as the empty string is
    answered 200, yet the row keeps "new": the supplied field is not
    written. *)
Lemma status_update_skips_supplied_empty_status :
  Js.defined (PatchBody.status Examples.patch_empty_status) = true /\
  exists (w' : World) (l' : Lead.t),
    patch_leads Examples.rt_ok "lead-1" Examples.patch_empty_status Examples.w_demo
      = (inr (mkResponse 200 (SuccessMessage "Lead updated")), w') /\
    select_lead "lead-1" (db w') = Some l' /\
    Lead.status l' = Some "new" /\
    Lead.status l' <> text_of Examples.rt_ok (PatchBody.status Examples.patch_empty_status).
Proof.
  split; [reflexivity |].
  eexists _, _. split; [vm_compute; reflexivity |].
  split; [vm_compute; reflexivity |].
  split; [reflexivity | discriminate].
Qed.

(** A status update whose [notes] are a boolean is answered 500 and writes
    nothing, not even the status that came with it. *)
Example status_update_with_boolean_notes_answers_500 :
  exists w' : World,
    patch_leads Examples.rt_ok "lead-1" Examples.patch_notes_true Examples.w_demo
      = (inr (mkResponse 500 (Error "Update failed")), w') /\
    db w' = db Examples.w_demo.
Proof. eexists. split; [vm_compute; reflexivity | reflexivity]. Qed.

(** C3 (amended). A status update on an existing lead, whose pushed values
    (a truthy [status], [contacted_at] or [booked_at]; [notes] or
    [job_value] when present) are each [null], a string or a number, with a
    fresh identifier for its activity row, is answered 200. In [leads] only
    the rows with that id change, and they become [patched_row]: [status],
    [contacted_at] and [booked_at] take the supplied value when it is
    truthy, [notes] and [job_value] take the supplied value whenever the
    property is present (NULL for [null]), [updated_at] is the current
    time, and every other column keeps its value. Exactly one row, with
    action "status_updated", is appended to [lead_activity]; no other table
    changes. *)
Theorem status_update_writes_guarded_fields
    (rt : Runtime) (w : World) (id : string) (b : PatchBody.t) (l : Lead.t) :
  forallb Js.scalar (map snd (patch_values b)) = true ->
  select_lead id (db w) = Some l ->
  has LeadActivity.id (next_uuid rt w 0) (lead_activity (db w)) = false ->
  exists w' : World,
    patch_leads rt id b w = (inr (mkResponse 200 (SuccessMessage "Lead updated")), w') /\
    leads (db w') =
      map (fun r => if (Lead.id r =? id)%string then patched_row rt b r else r)
        (leads (db w)) /\
    lead_activity (db w') = (lead_activity (db w) ++ [updated_activity rt w id b])%list /\
    with_leads (leads (db w)) (with_lead_activity (lead_activity (db w)) (db w')) = db w.
Proof.
  intros Hs Hl F.
  destruct (patch_parameters rt id b Hs) as [ps [Hbind [Hupd Hid]]].
  unfold updated_activity, next_uuid in *. rewrite Nat.add_0_r in *.
  unfold patch_leads, try_catch.
  rewrite (bind_run (query _) _ w w (Some l)) by (unfold query; now rewrite Hl).
  cbn zeta. rewrite Hbind, (bind_run _ _ _ _ _ (lift_run _ _)), Hupd, Hid.
  cbn [update_lead_where].
  erewrite (bind_run (exec _)) with (a := tt) by reflexivity.
  rewrite (bind_run _ _ _ _ _ (uuidv4_run rt _)).
  cbn [db console uuid_calls mail_calls].
  erewrite (bind_run (run_stmt _)).
  2:{ apply run_stmt_ok. cbn [db update_lead_where]. unfold insert_lead_activity.
      match goal with
      | |- context [lead_activity (update_lead ?ts ?us ?i (db w))] =>
          replace (lead_activity (update_lead ts us i (db w))) with (lead_activity (db w))
            by (destruct (db w); reflexivity)
      end.
      rewrite F. unfold references. rewrite update_lead_rows.
      destruct (select_lead_some _ _ _ Hl) as [Hin Hlid].
      replace (has Lead.id id _) with true; [reflexivity |].
      symmetry. apply has_true_iff.
      exists (patched_row rt b l). split; [| exact Hlid].
      apply in_map_iff. exists l. split; [| exact Hin].
      now rewrite (proj2 (String.eqb_eq _ _) Hlid). }
  eexists. split; [reflexivity |]. cbn [db update_lead_where].
  split; [| split].
  - rewrite <- update_lead_rows.
    destruct (update_lead (CURRENT_TIMESTAMP rt) (guarded_updates rt b) id (db w));
      reflexivity.
  - destruct (db w); reflexivity.
  - destruct (db w); reflexivity.
Qed.

Lemma status_update_writes_guarded_fields_witness :
  exists w' : World,
    patch_leads Examples.rt_ok "lead-1" Examples.patch_booked Examples.w_demo
      = (inr (mkResponse 200 (SuccessMessage "Lead updated")), w') /\
    leads (db w') =
      map (fun r => if (Lead.id r =? "lead-1")%string
                    then patched_row Examples.rt_ok Examples.patch_booked r else r)
        (leads (db Examples.w_demo)) /\
    lead_activity (db w') =
      (lead_activity (db Examples.w_demo) ++
       [LeadActivity.mk "0" (Some "lead-1") "status_updated"
          (Some [("status", JString "booked"); ("notes", JNull);
                 ("job_value", JNumber (Js.of_Z 4200))])
          None (CURRENT_TIMESTAMP Examples.rt_ok)])%list /\
    with_leads (leads (db Examples.w_demo))
      (with_lead_activity (lead_activity (db Examples.w_demo)) (db w'))
      = db Examples.w_demo.
Proof.
  exact (status_update_writes_guarded_fields Examples.rt_ok Examples.w_demo "lead-1"
           Examples.patch_booked (Examples.demo_lead "lead-1" "new" 25)
           eq_refl eq_refl eq_refl).
Defined.

(** *** Trial signup *)






(** A first-time signup is stored, but rendering the welcome template
    throws ([data.type] is not set for it), so the answer is 500. *)
Example trial_signup_first_time_is_stored_and_answers_500 :
  exists w' : World,
    post_trial_signup Examples.rt_ok Examples.trial_new Examples.w_demo
      = (inr (mkResponse 500 (Error "Signup failed")), w') /\
    has TrialSignup.email "lisa@parkplumbing.ca" (trial_signups (db w')) = true /\
    email_log (db w') = [].
Proof. eexists. split; [vm_compute; reflexivity |]. split; reflexivity. Qed.

(** *** Subscribe *)

Lemma filter_key_none {R} (key : R -> string) (k : string) (rows : list R) :
  has key k rows = false -> filter (fun r => (key r =? k)%string) rows = [].
Proof.
  unfold has. induction rows as [| x rows IH]; simpl; [reflexivity |].
  intros H. apply orb_false_iff in H. destruct H as [Hx Hr].
  rewrite Hx. auto.
Qed.

(** A key that a UNIQUE column holds is held by exactly one row. *)
Lemma unique_key_once {R} (key : R -> string) (k : string) (rows : list R) :
  NoDup (map key rows) -> has key k rows = true ->
  List.length (filter (fun r => (key r =? k)%string) rows) = 1%nat.
Proof.
  induction rows as [| x rows IH]; simpl; [discriminate |].
  intros Hnd Hhas. inversion Hnd as [| ? ? Hnotin Hnd']; subst.
  destruct (key x =? k)%string eqn:Hx.
  - apply String.eqb_eq in Hx. subst k. simpl.
    rewrite filter_key_none; [reflexivity |].
    apply has_false_iff. intros r Hin Heq. apply Hnotin.
    rewrite <- Heq. now apply in_map.
  - apply IH; [exact Hnd' | exact Hhas].
Qed.

Lemma insert_or_ignore_existing (ts id email : string) (source : option string) (d : DB) :
  has Subscriber.email email (subscribers d) = true ->
  insert_or_ignore_subscriber ts id email source d = d.
Proof.
  intros H. unfold insert_or_ignore_subscriber. now rewrite H, orb_true_r.
Qed.

(** After the statement the email is in the table, once. *)
Lemma insert_or_ignore_once (ts id email : string) (source : option string) (d : DB) :
  NoDup (map Subscriber.email (subscribers d)) ->
  has Subscriber.id id (subscribers d) = false ->
  has Subscriber.email email (subscribers (insert_or_ignore_subscriber ts id email source d))
    = true /\
  List.length (subscribers_with email (insert_or_ignore_subscriber ts id email source d))
    = 1%nat.
Proof.
  intros Hnd Hid. unfold insert_or_ignore_subscriber, subscribers_with. rewrite Hid.
  destruct (has Subscriber.email email (subscribers d)) eqn:He; cbn [orb].
  - split; [exact He | now apply unique_key_once].
  - unfold with_subscribers. cbn [subscribers].
    split.
    + rewrite has_app. cbn [has existsb Subscriber.email].
      now rewrite String.eqb_refl, orb_true_r.
    + rewrite filter_app, filter_key_none by exact He.
      cbn [filter Subscriber.email app]. now rewrite String.eqb_refl.
Qed.

(** What the handler does for a non-empty string email and a [source]
    that is bound as one parameter, when the identifier of the log row is
    fresh. *)
Lemma post_subscribe_run (rt : Runtime) (w : World) (b : SubscribeBody.t) (e : string) :
  SubscribeBody.email b = Js.val (Js.str e) -> (e =? "")%string = false ->
  Js.scalar (SubscribeBody.source b) = true ->
  has EmailLog.id (next_uuid rt w 1) (email_log (db w)) = false ->
  exists w' : World,
    post_subscribe rt b w
      = (inr (mkResponse 200 (SuccessMessage "Subscribed successfully")), w') /\
    subscribers (db w') =
      subscribers
        (insert_or_ignore_subscriber (CURRENT_TIMESTAMP rt) (next_uuid rt w 0)
           (normalized rt e)
           (text_of rt (Js.or_literal (SubscribeBody.source b) "website")) (db w)).
Proof.
  intros Ee He Hs F. unfold next_uuid in *. rewrite Nat.add_0_r.
  unfold post_subscribe, try_catch. rewrite Ee. cbn [Js.truthy]. rewrite He. cbn [negb].
  rewrite (bind_run _ _ _ _ _ (uuidv4_run rt _)).
  cbn [lower_trimmed]. rewrite (bind_run _ _ _ _ _ (lift_run _ _)).
  rewrite (bind_parameters_scalars 3).
  2:{ cbn [forallb arg Js.scalar]. rewrite scalar_or_literal by exact Hs. reflexivity. }
  2:{ reflexivity. }
  rewrite (bind_run _ _ _ _ _ (lift_run _ _)).
  erewrite (bind_run (exec _)) with (a := tt) by reflexivity.
  cbn [show Js.toString Js.raw_toString]. rewrite bind_lift.
  rewrite (bind_run _ _ _ _ _ (internal_notification_html_run _ _ _)).
  cbn [db console uuid_calls mail_calls].
  match goal with
  | |- context [bind (sendEmail rt ?to ?subj) _ ?w0] =>
      destruct (sendEmail_ok rt w0 to subj) as [r [w' [Hsend [Hdb _]]]]
  end.
  { unfold next_uuid. cbn [db uuid_calls].
    replace (S (uuid_calls w) + 0)%nat with (uuid_calls w + 1)%nat by lia.
    unfold insert_or_ignore_subscriber.
    match goal with |- context [if ?c then _ else _] => destruct c end;
      [exact F | destruct (db w); exact F]. }
  rewrite (bind_run _ _ _ _ _ Hsend).
  exists w'. split; [reflexivity |].
  cbn [db] in Hdb. apply (f_equal subscribers) in Hdb.
  replace (subscribers (with_email_log _ (db w'))) with (subscribers (db w')) in Hdb
    by (destruct (db w'); reflexivity).
  exact Hdb.
Qed.

(** C5 (as stated, at a concrete request). An opt-in with a well-formed
    email whose [source] is the boolean [true] is answered 500, and no row
    is stored for the email: the driver refuses to bind a boolean. *)
Theorem subscribe_with_boolean_source_answers_500 :
  SubscribeBody.email Examples.subscribe_source_true = Js.val (Js.str "sarah@example.com") /\
  exists w' : World,
    post_subscribe Examples.rt_ok Examples.subscribe_source_true Examples.w_demo
      = (inr (mkResponse 500 (Error "Subscription failed")), w') /\
    subscribers_with "sarah@example.com" (db w') = [] /\
    db w' = db Examples.w_demo.
Proof.
  split; [reflexivity |].
  eexists. split; [vm_compute; reflexivity |]. split; reflexivity.
Qed.

(** C5 (amended). Two subscribe requests whose emails are non-empty strings
    that agree after lower-casing and trimming, and whose [source] is
    absent, [null], a string or a number, are both answered 200, and
    afterwards exactly one row of [subscribers] carries that email: the
    second request leaves the table as the first one left it. The table
    starts with its UNIQUE constraint on [email] satisfied, and the
    identifiers drawn for the new rows are fresh. *)
Theorem subscribe_is_idempotent
    (rt1 rt2 : Runtime) (w : World) (b1 b2 : SubscribeBody.t) (e1 e2 : string) :
  SubscribeBody.email b1 = Js.val (Js.str e1) -> (e1 =? "")%string = false ->
  SubscribeBody.email b2 = Js.val (Js.str e2) -> (e2 =? "")%string = false ->
  Js.scalar (SubscribeBody.source b1) = true ->
  Js.scalar (SubscribeBody.source b2) = true ->
  normalized rt1 e1 = normalized rt2 e2 ->
  NoDup (map Subscriber.email (subscribers (db w))) ->
  has Subscriber.id (next_uuid rt1 w 0) (subscribers (db w)) = false ->
  has EmailLog.id (next_uuid rt1 w 1) (email_log (db w)) = false ->
  let w1 := snd (post_subscribe rt1 b1 w) in
  has EmailLog.id (next_uuid rt2 w1 1) (email_log (db w1)) = false ->
  let w2 := snd (post_subscribe rt2 b2 w1) in
  fst (post_subscribe rt1 b1 w)
    = inr (mkResponse 200 (SuccessMessage "Subscribed successfully")) /\
  fst (post_subscribe rt2 b2 w1)
    = inr (mkResponse 200 (SuccessMessage "Subscribed successfully")) /\
  subscribers (db w2) = subscribers (db w1) /\
  List.length (subscribers_with (normalized rt1 e1) (db w2)) = 1%nat.
Proof.
  intros Ee1 He1 Ee2 He2 Hs1 Hs2 Hsame Hnd Fid Flog1 w1 Flog2 w2. subst w2 w1.
  destruct (post_subscribe_run rt1 w b1 e1 Ee1 He1 Hs1 Flog1) as [w1 [Hrun1 Hsub1]].
  rewrite Hrun1 in *. cbn [fst snd] in *.
  destruct (post_subscribe_run rt2 w1 b2 e2 Ee2 He2 Hs2 Flog2) as [w2 [Hrun2 Hsub2]].
  rewrite Hrun2. cbn [fst snd].
  destruct (insert_or_ignore_once (CURRENT_TIMESTAMP rt1) (next_uuid rt1 w 0)
              (normalized rt1 e1)
              (text_of rt1 (Js.or_literal (SubscribeBody.source b1) "website"))
              (db w) Hnd Fid)
    as [Hin Hone].
  unfold subscribers_with in *. rewrite <- Hsub1 in Hin, Hone.
  assert (Hnoop : subscribers (db w2) = subscribers (db w1)).
  { rewrite Hsub2, <- Hsame. now rewrite insert_or_ignore_existing. }
  repeat split; try assumption. now rewrite Hnoop.
Qed.

Lemma subscribe_is_idempotent_witness :
  let w1 := snd (post_subscribe Examples.rt_ok Examples.subscribe_first Examples.w_demo) in
  let w2 := snd (post_subscribe Examples.rt_smtp_down Examples.subscribe_second w1) in
  fst (post_subscribe Examples.rt_ok Examples.subscribe_first Examples.w_demo)
    = inr (mkResponse 200 (SuccessMessage "Subscribed successfully")) /\
  fst (post_subscribe Examples.rt_smtp_down Examples.subscribe_second w1)
    = inr (mkResponse 200 (SuccessMessage "Subscribed successfully")) /\
  subscribers (db w2) = subscribers (db w1) /\
  List.length (subscribers_with "sarah@example.com" (db w2)) = 1%nat.
Proof.
  apply (subscribe_is_idempotent Examples.rt_ok Examples.rt_smtp_down Examples.w_demo
           Examples.subscribe_first Examples.subscribe_second
           "Sarah@Example.com" " sarah@example.com ");
    try reflexivity.
  constructor.
Defined.

(** *** Billing webhook *)

Lemma bind_ret {A B} (a : A) (k : A -> M B) : bind (ret a) k = k a.
Proof. reflexivity. Qed.

Lemma console_write_run (line : string) (w : World) :
  console_write line w
  = (inr tt, mkWorld (db w) (console w ++ [line]) (uuid_calls w) (mail_calls w)).
Proof. reflexivity. Qed.

Lemma update_client_active_none (ts : string) (m u : option string) (email : string) (d : DB) :
  (forall c, In c (clients d) -> Client.email c <> email) ->
  update_client_active ts m u email d = d.
Proof.
  intros H. unfold update_client_active.
  rewrite map_if_none; [destruct d; reflexivity |].
  intros c Hin. apply String.eqb_neq. auto.
Qed.

(** C6 (as stated, at a concrete delivery). With a webhook secret
    configured, a "payment.succeeded" delivery for the demo client's email
    that carries no signature is answered 401 and the client, which was
    "churned", is not made "active". *)
Lemma payment_succeeded_without_signature_changes_nothing :
  exists c : Client.t,
    In c (clients (db Examples.w_demo)) /\
    Js.opt_chain (WhopData.user Examples.payment_data) WhopUser.email
      = Js.val (Client.email c) /\
    exists w' : World,
      post_webhooks_whop Examples.rt_secret None Examples.payment_succeeded Examples.w_demo
        = (inr (mkResponse 401 (Error "Invalid signature")), w') /\
      clients (db w') = clients (db Examples.w_demo) /\
      Client.status c = Some "churned".
Proof.
  exists Examples.demo_client. split; [now left |]. split; [reflexivity |].
  eexists. split; [vm_compute; reflexivity |]. split; reflexivity.
Qed.

(** C6 (amended). A "payment.succeeded" delivery that passes the
    shared-secret check (no secret configured, or the [whop-signature]
    header equal to it), with a fresh identifier for the log row of its
    notification and string-typed payload fields: when it carries a [data]
    object it is acknowledged with 200 [{received: true}]; when the
    payload's user email is a non-empty string, every client with that
    email gets status "active", [whop_membership_id = data.membership ||
    null] and [whop_user_id = data.user.id || null], and the other clients
    are untouched; when no client has that email, or the payload has none,
    [clients] is left as it was. A delivery whose [data] is absent or
    [null] is answered 500 and changes nothing. *)
Theorem payment_succeeded_activates_matching_client
    (rt : Runtime) (w : World) (signature : option string) (b : WhopBody.t) :
  invalid_signature rt signature = false ->
  WhopBody.action b = Js.val "payment.succeeded" ->
  has EmailLog.id (next_uuid rt w 0) (email_log (db w)) = false ->
  match WhopBody.data b with
  | Js.val d =>
      let email := Js.opt_chain (WhopData.user d) WhopUser.email in
      let membership := Js.or_null (WhopData.membership d) in
      let user := Js.or_null (Js.opt_chain (WhopData.user d) WhopUser.id) in
      exists w' : World,
        post_webhooks_whop rt signature b w = (inr (mkResponse 200 Received), w') /\
        (Js.truthy_string email = true ->
         clients (db w') =
           map (fun c => if (Client.email c =? Js.tpl email)%string
                         then Client.set_membership "active" membership user
                                (CURRENT_TIMESTAMP rt) c
                         else c) (clients (db w)) /\
         forall c, In c (clients (db w)) -> Client.email c = Js.tpl email ->
           exists c', In c' (clients (db w')) /\
             Client.id c' = Client.id c /\ Client.email c' = Client.email c /\
             Client.status c' = Some "active" /\
             Client.whop_membership_id c' = membership /\
             Client.whop_user_id c' = user) /\
        (Js.truthy_string email = false \/
         (forall c, In c (clients (db w)) -> Client.email c <> Js.tpl email) ->
         clients (db w') = clients (db w))
  | _ =>
      exists w' : World,
        post_webhooks_whop rt signature b w
          = (inr (mkResponse 500 (Error "Webhook processing failed")), w') /\
        db w' = db w
  end.
Proof.
  intros Hsig Hact F.
  unfold next_uuid in F. rewrite Nat.add_0_r in F.
  unfold post_webhooks_whop, try_catch.
  rewrite (bind_run _ _ _ _ _ (console_write_run _ _)).
  rewrite Hsig, Hact.
  replace (equals (Js.val "payment.succeeded") "payment.succeeded") with true
    by reflexivity.
  destruct (WhopBody.data b) as [| | d].
  1, 2: (eexists; split; [reflexivity | reflexivity]).
  cbv zeta. unfold data_object. cbv beta iota. rewrite bind_ret. cbv beta zeta.
  set (email := Js.opt_chain (WhopData.user d) WhopUser.email).
  set (membership := Js.or_null (WhopData.membership d)).
  set (user := Js.or_null (Js.opt_chain (WhopData.user d) WhopUser.id)).
  assert (Hset : forall c, Client.id (Client.set_membership "active" membership user (CURRENT_TIMESTAMP rt) c)
                             = Client.id c /\
                           Client.email (Client.set_membership "active" membership user (CURRENT_TIMESTAMP rt) c)
                             = Client.email c /\
                           Client.status (Client.set_membership "active" membership user (CURRENT_TIMESTAMP rt) c)
                             = Some "active" /\
                           Client.whop_membership_id
                             (Client.set_membership "active" membership user (CURRENT_TIMESTAMP rt) c)
                             = membership /\
                           Client.whop_user_id
                             (Client.set_membership "active" membership user (CURRENT_TIMESTAMP rt) c)
                             = user)
    by (intros c; destruct c; repeat split; reflexivity).
  destruct (Js.truthy_string email) eqn:Hte;
    unfold when; unfold bind, ret, exec, console_write;
    cbv beta iota; cbn [db console uuid_calls mail_calls];
    match goal with
    | |- context [sendEmail rt ?to ?subj ?w0] =>
        destruct (sendEmail_ok rt w0 to subj) as [r [w' [Hsend [Hdb _]]]]
    end.
  1, 3: (unfold next_uuid; cbn [db uuid_calls]; rewrite Nat.add_0_r;
         try (replace (email_log (update_client_active _ _ _ _ (db w)))
                with (email_log (db w)) by (destruct (db w); reflexivity));
         exact F).
  - rewrite Hsend. exists w'. split; [reflexivity |].
    cbn [db] in Hdb. apply (f_equal clients) in Hdb.
    replace (clients (with_email_log _ (db w'))) with (clients (db w')) in Hdb
      by (destruct (db w'); reflexivity).
    assert (Hmap : clients (db w') =
                   map (fun c => if (Client.email c =? Js.tpl email)%string
                                 then Client.set_membership "active" membership user (CURRENT_TIMESTAMP rt) c
                                 else c) (clients (db w)))
      by (rewrite Hdb; destruct (db w); reflexivity).
    split.
    + intros _. split; [exact Hmap |].
      intros c Hin Hc.
      exists (Client.set_membership "active" membership user (CURRENT_TIMESTAMP rt) c).
      split; [| apply Hset].
      rewrite Hmap. apply in_map_iff. exists c. split; [| exact Hin].
      now rewrite (proj2 (String.eqb_eq _ _) Hc).
    + intros [Habs | Hnone]; [discriminate Habs |].
      rewrite Hmap. apply map_if_none.
      intros c Hin. apply String.eqb_neq. auto.
  - rewrite Hsend. exists w'. split; [reflexivity |].
    cbn [db] in Hdb. apply (f_equal clients) in Hdb.
    replace (clients (with_email_log _ (db w'))) with (clients (db w')) in Hdb
      by (destruct (db w'); reflexivity).
    split; [discriminate |]. intros _. exact Hdb.
Qed.

Lemma payment_succeeded_activates_matching_client_witness :
  exists (w' : World) (c' : Client.t),
    post_webhooks_whop Examples.rt_ok None Examples.payment_succeeded Examples.w_demo
      = (inr (mkResponse 200 Received), w') /\
    In c' (clients (db w')) /\
    Client.id c' = "client-1" /\
    Client.status c' = Some "active" /\
    Client.whop_membership_id c' = Some "mem_4Zt9" /\
    Client.whop_user_id c' = Some "user_8Kq2".
Proof.
  destruct (payment_succeeded_activates_matching_client
              Examples.rt_ok Examples.w_demo None Examples.payment_succeeded
              eq_refl eq_refl eq_refl)
    as [w' [Hrun [Hknown _]]].
  destruct (Hknown eq_refl) as [_ Hrow].
  destruct (Hrow Examples.demo_client (or_introl eq_refl) eq_refl)
    as [c' [Hin [Hid [_ [Hst [Hm Hu]]]]]].
  exists w', c'. repeat split; assumption.
Defined.

(* ================================================================= *)

(** The same event without its payload. *)
Example payment_succeeded_without_data_answers_500 :
  exists w' : World,
    post_webhooks_whop Examples.rt_ok None Examples.payment_without_data Examples.w_demo
      = (inr (mkResponse 500 (Error "Webhook processing failed")), w') /\
    db w' = db Examples.w_demo.
Proof. eexists. split; [vm_compute; reflexivity | reflexivity]. Qed.

(* ================================================================= *)
(** ** Further properties of the routes *)

Import Routes Frames.

(** *** Rejected requests *)

(** X1. A subscribe request without a truthy email, a trial signup
    without a non-empty first name, email or phone, and a lead without a
    truthy name or phone are answered 400 and leave the state exactly as
    it was: no row, no identifier drawn, no email, no console line. *)
Theorem ingestion_rejects_incomplete_requests (rt : Runtime) (w : World) :
  (forall b, Js.truthy (SubscribeBody.email b) = false ->
     post_subscribe rt b w = (inr (mkResponse 400 (Error "Email required")), w)) /\
  (forall b,
     Js.truthy_string (TrialBody.firstName b) = false \/
     Js.truthy_string (TrialBody.email b) = false \/
     Js.truthy_string (TrialBody.phone b) = false ->
     post_trial_signup rt b w
       = (inr (mkResponse 400 (Error "First name, email, and phone required")), w)) /\
  (forall b,
     Js.truthy (LeadBody.name b) = false \/
     Js.truthy (LeadBody.phone b) = false ->
     post_leads rt b w = (inr (mkResponse 400 (Error "Name and phone required")), w)).
Proof.
  split; [| split].
  - intros b H. unfold post_subscribe, try_catch. rewrite H. reflexivity.
  - intros b H. unfold post_trial_signup, try_catch.
    replace (negb (Js.truthy_string (TrialBody.firstName b))
             || negb (Js.truthy_string (TrialBody.email b))
             || negb (Js.truthy_string (TrialBody.phone b))) with true; [reflexivity |].
    destruct H as [H | [H | H]]; rewrite H; cbn [negb orb];
      rewrite ?orb_true_r; reflexivity.
  - intros b H. unfold post_leads, try_catch.
    replace (negb (Js.truthy (LeadBody.name b))
             || negb (Js.truthy (LeadBody.phone b))) with true; [reflexivity |].
    destruct H as [H | H]; rewrite H; cbn [negb orb]; rewrite ?orb_true_r; reflexivity.
Qed.

Lemma ingestion_rejects_incomplete_requests_witness :
  post_subscribe Examples.rt_ok (SubscribeBody.mk (Examples.txt "") Js.undefined)
      Examples.w_demo
    = (inr (mkResponse 400 (Error "Email required")), Examples.w_demo) /\
  post_trial_signup Examples.rt_ok Examples.trial_no_first_name Examples.w_demo
    = (inr (mkResponse 400 (Error "First name, email, and phone required")),
       Examples.w_demo) /\
  post_leads Examples.rt_ok
      (LeadBody.mk (Examples.txt "James Torres") Js.undefined Js.null Js.undefined
         Js.undefined Js.undefined Js.undefined Js.undefined Js.undefined Js.undefined
         Js.undefined Js.undefined Js.undefined) Examples.w_demo
    = (inr (mkResponse 400 (Error "Name and phone required")), Examples.w_demo).
Proof.
  destruct (ingestion_rejects_incomplete_requests Examples.rt_ok Examples.w_demo)
    as [Hs [Ht Hl]].
  split; [apply Hs; reflexivity |].
  split; [apply Ht; left; reflexivity | apply Hl; right; reflexivity].
Defined.

Lemma select_lead_none (id : string) (d : DB) :
  has Lead.id id (leads d) = false -> select_lead id d = None.
Proof.
  intros H. unfold select_lead.
  destruct (find _ (leads d)) as [l |] eqn:Hf; [| reflexivity].
  apply find_some in Hf. destruct Hf as [Hin Hid].
  apply String.eqb_eq in Hid.
  exfalso. exact (proj1 (has_false_iff Lead.id id (leads d)) H l Hin Hid).
Qed.

(** X2. A status update for an id that no lead has is answered 404; it
    writes nothing and logs no activity. *)
Theorem status_update_of_unknown_lead_is_404
    (rt : Runtime) (w : World) (id : string) (b : PatchBody.t) :
  has Lead.id id (leads (db w)) = false ->
  patch_leads rt id b w = (inr (mkResponse 404 (Error "Lead not found")), w).
Proof.
  intros H. unfold patch_leads, try_catch, bind, query.
  rewrite (select_lead_none id (db w) H). reflexivity.
Qed.

Lemma status_update_of_unknown_lead_is_404_witness :
  patch_leads Examples.rt_ok "lead-2" Examples.patch_booked Examples.w_demo
    = (inr (mkResponse 404 (Error "Lead not found")), Examples.w_demo).
Proof.
  apply (status_update_of_unknown_lead_is_404 Examples.rt_ok Examples.w_demo "lead-2").
  reflexivity.
Defined.


(** *** The dashboard, beyond the close rate *)

(** The order of [ORDER BY] on texts is transitive. *)
Lemma compare_lt_trans (a b c : string) :
  String.compare a b = Lt -> String.compare b c = Lt -> String.compare a c = Lt.
Proof.
  revert b c. induction a as [| x a IH]; intros [| y b] [| z c]; simpl;
    try discriminate; try reflexivity.
  unfold Ascii.compare.
  destruct (N.compare_spec (N_of_ascii x) (N_of_ascii y)) as [Exy | Lxy | Gxy];
    destruct (N.compare_spec (N_of_ascii y) (N_of_ascii z)) as [Eyz | Lyz | Gyz];
    try discriminate; intros Hab Hbc.
  - rewrite Exy, Eyz, N.compare_refl. now apply (IH b c).
  - rewrite Exy. now rewrite (proj2 (N.compare_lt_iff _ _) Lyz).
  - rewrite <- Eyz. now rewrite (proj2 (N.compare_lt_iff _ _) Lxy).
  - now rewrite (proj2 (N.compare_lt_iff _ _) (N.lt_trans _ _ _ Lxy Lyz)).
Qed.

Lemma leb_trans (a b c : string) :
  String.leb a b = true -> String.leb b c = true -> String.leb a c = true.
Proof.
  unfold String.leb.
  destruct (String.compare a b) eqn:Hab; try discriminate;
    destruct (String.compare b c) eqn:Hbc; try discriminate; intros _ _.
  - apply String.compare_eq_iff in Hab. subst b. now rewrite Hbc.
  - apply String.compare_eq_iff in Hab. subst b. now rewrite Hbc.
  - apply String.compare_eq_iff in Hbc. subst c. now rewrite Hab.
  - now rewrite (compare_lt_trans a b c Hab Hbc).
Qed.

Lemma insert_desc_in (l y : Lead.t) (rows : list Lead.t) :
  In y (insert_desc l rows) -> In y (l :: rows).
Proof.
  induction rows as [| z rows IH]; simpl.
  - intros [<- | []]. now left.
  - destruct (String.leb (Lead.created_at z) (Lead.created_at l)); simpl.
    + tauto.
    + intros [<- | Hy]; [right; now left |].
      destruct (IH Hy) as [<- | Hin]; [now left | right; now right].
Qed.

Lemma insert_desc_sorted (l : Lead.t) (rows : list Lead.t) :
  StronglySorted newer_or_equal rows ->
  StronglySorted newer_or_equal (insert_desc l rows).
Proof.
  unfold newer_or_equal.
  induction 1 as [| x rows Hs IH Hx]; simpl.
  - repeat constructor.
  - destruct (String.leb (Lead.created_at x) (Lead.created_at l)) eqn:Hle.
    + constructor; [now constructor |].
      constructor; [assumption |].
      rewrite Forall_forall in *. intros y Hy. specialize (Hx y Hy).
      exact (leb_trans _ _ _ Hx Hle).
    + constructor; [exact IH |].
      rewrite Forall_forall in *. intros y Hy.
      destruct (insert_desc_in l y rows Hy) as [<- | Hin]; [| now apply Hx].
      destruct (String.leb_total (Lead.created_at x) (Lead.created_at l)) as [H | H];
        [congruence | exact H].
Qed.

Lemma order_by_sorted (rows : list Lead.t) :
  StronglySorted newer_or_equal (order_by_created_at_desc rows).
Proof.
  induction rows as [| x rows IH]; simpl; [constructor | now apply insert_desc_sorted].
Qed.

Lemma firstn_subset {R} (n : nat) (rows : list R) (x : R) :
  In x (firstn n rows) -> In x rows.
Proof.
  revert n. induction rows as [| y rows IH]; intros [| n]; simpl; try tauto.
  intros [-> | H]; [now left | right; eauto].
Qed.

(** In a sorted list every element of a prefix precedes every element of
    the rest. *)
Lemma sorted_prefix_precedes {R} (le : R -> R -> Prop) (n : nat) (rows : list R) :
  StronglySorted le rows ->
  forall x y, In x (firstn n rows) -> In y (skipn n rows) -> le x y.
Proof.
  intros Hs. revert n. induction Hs as [| z rows Hs IH Hz]; intros [| n] x y; simpl;
    try tauto.
  intros [<- | Hx] Hy.
  - rewrite Forall_forall in Hz. apply Hz.
    rewrite <- (firstn_skipn n rows). apply in_or_app. now right.
  - exact (IH n x y Hx Hy).
Qed.

Lemma status_is_one_of (l : Lead.t) :
  (Nat.b2n (has_status "new" l) + Nat.b2n (has_status "contacted" l)
   + Nat.b2n (has_status "booked" l) <= 1)%nat.
Proof.
  unfold has_status. destruct (Lead.status l) as [s |]; [| simpl; lia].
  destruct (String.eqb_spec s "new") as [-> | _]; [simpl; lia |].
  destruct (String.eqb_spec s "contacted") as [-> | _]; [simpl; lia |].
  destruct (s =? "booked")%string; simpl; lia.
Qed.

Lemma status_counts_bounded (rows : list Lead.t) :
  (count_status "new" rows + count_status "contacted" rows + count_status "booked" rows
   <= List.length rows)%nat.
Proof.
  unfold count_status. induction rows as [| l rows IH]; [simpl; lia |].
  rewrite !filter_cons_length. pose proof (status_is_one_of l). simpl List.length. lia.
Qed.

(** X3. The dashboard of a client shows that client's leads and no others,
    the newest first. There is an arrangement [sorted] of exactly the
    leads whose [client_id] is the client's id, in which no lead is older
    than the one after it, such that [recentLeads] is the projection of
    its first 20 elements: every lead of the client that is left out is at
    most as recent as every lead that is shown. [totalLeads] is the number
    of the client's leads, and the three status counts together never
    exceed it. *)
Theorem dashboard_shows_only_own_leads
    (rt : Runtime) (w : World) (token : string) (c : Client.t) :
  select_client_by_token token (db w) = Some c ->
  let own := filter (of_client (Client.id c)) (leads (db w)) in
  exists (d : Dashboard) (sorted : list Lead.t),
    get_dashboard rt token w = (inr (mkResponse 200 (DashboardJson d)), w) /\
    Permutation sorted own /\
    StronglySorted newer_or_equal sorted /\
    recentLeads d = map recent_lead (firstn 20 sorted) /\
    (forall shown left_out,
       In shown (firstn 20 sorted) -> In left_out (skipn 20 sorted) ->
       newer_or_equal shown left_out) /\
    List.length (recentLeads d) = Nat.min 20 (List.length own) /\
    (forall r, In r (recentLeads d) ->
       exists l, In l (leads (db w)) /\ Lead.client_id l = Some (Client.id c) /\
                 r = recent_lead l) /\
    totalLeads (stats d) = List.length own /\
    (newLeads (stats d) + contactedLeads (stats d) + bookedLeads (stats d)
     <= totalLeads (stats d))%nat.
Proof.
  intros Hc own. exists (dashboard rt c (order_by_created_at_desc own)).
  exists (order_by_created_at_desc own).
  split; [apply (get_dashboard_run rt w token c Hc) |].
  split; [apply order_by_permutation |].
  split; [apply order_by_sorted |].
  unfold dashboard. cbn [stats totalLeads newLeads contactedLeads bookedLeads recentLeads].
  split; [reflexivity |].
  split; [apply sorted_prefix_precedes, order_by_sorted |].
  split.
  { rewrite length_map, length_firstn, order_by_length. reflexivity. }
  split.
  { intros r Hr. apply in_map_iff in Hr. destruct Hr as [l [<- Hl]].
    apply firstn_subset in Hl.
    apply (Permutation_in _ (order_by_permutation own)) in Hl.
    apply filter_In in Hl. destruct Hl as [Hin Hown].
    exists l. split; [exact Hin |]. split; [| reflexivity].
    unfold of_client in Hown. destruct (Lead.client_id l) as [x |]; [| discriminate].
    apply String.eqb_eq in Hown. now subst x. }
  split; [apply order_by_length |].
  unfold count_status. rewrite !order_by_filter_length, order_by_length.
  apply status_counts_bounded.
Qed.

(** The demo client has 25 leads, one per day, stored oldest first beside
    a lead of nobody: the dashboard shows the 20 newest, newest first. *)
Lemma dashboard_shows_only_own_leads_witness :
  exists d : Dashboard,
    get_dashboard Examples.rt_ok "demo_token" Examples.w_many
      = (inr (mkResponse 200 (DashboardJson d)), Examples.w_many) /\
    totalLeads (stats d) = 25%nat /\
    map RecentLead.id (recentLeads d)
    = ["d0"; "d1"; "d2"; "d3"; "d4"; "d5"; "d6"; "d7"; "d8"; "d9"; "d10"; "d11"; "d12";
       "d13"; "d14"; "d15"; "d16"; "d17"; "d18"; "d19"].
Proof.
  destruct (dashboard_shows_only_own_leads Examples.rt_ok Examples.w_many "demo_token"
              Examples.demo_client eq_refl)
    as [d [sorted [Hrun [_ [_ [_ [_ [_ [_ [Htotal _]]]]]]]]]].
  exists d. split; [exact Hrun |]. split; [exact Htotal |].
  apply (f_equal (fun r => match fst r with
                           | inr (mkResponse _ (DashboardJson d')) =>
                               map RecentLead.id (recentLeads d')
                           | _ => []
                           end)) in Hrun.
  cbn [fst] in Hrun. rewrite <- Hrun. vm_compute. reflexivity.
Defined.

Lemma select_client_by_token_none (token : string) (d : DB) :
  has_token token (clients d) = false -> select_client_by_token token d = None.
Proof.
  unfold has_token, select_client_by_token. intros H.
  destruct (find _ (clients d)) as [c |] eqn:Hf; [| reflexivity].
  apply find_some in Hf. destruct Hf as [Hin Ht].
  assert (Hex : existsb (fun c => match Client.dashboard_token c with
                                  | Some t => (t =? token)%string
                                  | None => false
                                  end) (clients d) = true)
    by (apply existsb_exists; eauto).
  congruence.
Qed.

(** X4. The dashboard route is read-only: whatever the token, the state
    after the request is the state before it; a token that no client has
    is answered 404. *)
Theorem dashboard_is_read_only (rt : Runtime) (w : World) (token : string) :
  snd (get_dashboard rt token w) = w /\
  (has_token token (clients (db w)) = false ->
   fst (get_dashboard rt token w) = inr (mkResponse 404 (Error "Dashboard not found"))).
Proof.
  unfold get_dashboard, try_catch, bind, query, ret. split.
  - destruct (select_client_by_token token (db w)); reflexivity.
  - intros H. rewrite (select_client_by_token_none token (db w) H). reflexivity.
Qed.

Lemma dashboard_is_read_only_witness :
  snd (get_dashboard Examples.rt_ok "guess" Examples.w_demo) = Examples.w_demo /\
  fst (get_dashboard Examples.rt_ok "guess" Examples.w_demo)
    = inr (mkResponse 404 (Error "Dashboard not found")).
Proof.
  destruct (dashboard_is_read_only Examples.rt_ok Examples.w_demo "guess") as [Hs Hf].
  split; [exact Hs | apply Hf; reflexivity].
Defined.


(** X5. On a server whose days all last 24 hours, the histogram of a
    dashboard has the four buckets W1 to W4; the bucket of week [i] counts
    the client's leads whose [created_at], read by [new Date], lies in the
    seven days that start [7 * i] days before the request, for
    [i = 3, 2, 1, 0]; and the four counts add up to the number of the
    client's leads created from 21 days before the request up to 7 days
    after it: each such lead is counted once, every other lead (a lead
    with an unreadable date too) not at all. *)
Theorem weekly_histogram_counts_the_covered_window
    (rt : Runtime) (w : World) (token : string) (c : Client.t) :
  plain_days rt ->
  select_client_by_token token (db w) = Some c ->
  let own := filter (of_client (Client.id c)) (leads (db w)) in
  exists d : Dashboard,
    get_dashboard rt token w = (inr (mkResponse 200 (DashboardJson d)), w) /\
    map week (weeklyLeads d) = ["W1"; "W2"; "W3"; "W4"] /\
    map count (weeklyLeads d)
    = map (fun i => List.length (filter (in_window rt i) own)) [3; 2; 1; 0] /\
    bucket_total (weeklyLeads d) = List.length (filter (in_histogram rt) own).
Proof.
  intros Hplain Hc own. eexists. split; [apply (get_dashboard_run rt w token c Hc) |].
  unfold dashboard, select_leads_of_client. cbn [weeklyLeads]. fold own.
  split; [reflexivity |]. split.
  - unfold weekly_leads. cbn [weekly_loop week_bucket map count].
    rewrite !order_by_filter_length.
    rewrite !(filter_ext _ _ (fun l => in_week_window rt _ l Hplain)).
    reflexivity.
  - rewrite (weekly_leads_sum rt _ Hplain). apply order_by_filter_length.
Qed.

Lemma weekly_histogram_counts_the_covered_window_witness :
  plain_days Examples.rt_ok /\
  exists d : Dashboard,
    get_dashboard Examples.rt_ok "demo_token" Examples.w_many
      = (inr (mkResponse 200 (DashboardJson d)), Examples.w_many) /\
    map count (weeklyLeads d) = [7; 7; 7; 1]%nat /\
    bucket_total (weeklyLeads d) = 22%nat.
Proof.
  assert (Hplain : plain_days Examples.rt_ok) by (intros t n; reflexivity).
  split; [exact Hplain |].
  destruct (weekly_histogram_counts_the_covered_window Examples.rt_ok Examples.w_many
              "demo_token" Examples.demo_client Hplain eq_refl)
    as [d [Hrun [_ [Hcounts Htotal]]]].
  exists d. split; [exact Hrun |].
  split; [rewrite Hcounts | rewrite Htotal]; vm_compute; reflexivity.
Defined.

(** *** Relating the database before and after a computation *)

Section Relates.

Variable R : DB -> DB -> Prop.
Hypothesis R_refl : forall d, R d d.
Hypothesis R_trans : forall a b c, R a b -> R b c -> R a c.

Lemma relates_ret {A} (a : A) : relates R (ret a).
Proof. intros w. apply R_refl. Qed.

Lemma relates_throw {A} (e : exn) : relates R (@throw A e).
Proof. intros w. apply R_refl. Qed.

Lemma relates_lift {A} (r : exn + A) : relates R (lift r).
Proof. intros w. apply R_refl. Qed.

Lemma relates_query {A} (q : DB -> A) : relates R (query q).
Proof. intros w. apply R_refl. Qed.

Lemma relates_uuidv4 (rt : Runtime) : relates R (uuidv4 rt).
Proof. intros w. apply R_refl. Qed.

Lemma relates_console_write (line : string) : relates R (console_write line).
Proof. intros w. apply R_refl. Qed.

Lemma relates_sendMail (rt : Runtime) : relates R (transporter_sendMail rt).
Proof.
  intros w. unfold transporter_sendMail.
  destruct (sendMail_at rt (mail_calls w)); apply R_refl.
Qed.

Lemma relates_bind {A B} (m : M A) (k : A -> M B) :
  relates R m -> (forall a, relates R (k a)) -> relates R (bind m k).
Proof.
  intros Hm Hk w. unfold bind. specialize (Hm w).
  destruct (m w) as [[e | a] w1]; [exact Hm |].
  eapply R_trans; [exact Hm | apply Hk].
Qed.

Lemma relates_try_catch {A} (m : M A) (handler : exn -> M A) :
  relates R m -> (forall e, relates R (handler e)) -> relates R (try_catch m handler).
Proof.
  intros Hm Hh w. unfold try_catch. specialize (Hm w).
  destruct (m w) as [[e | a] w1]; [| exact Hm].
  eapply R_trans; [exact Hm | apply Hh].
Qed.

Lemma relates_exec (stmt : DB -> DB) :
  (forall d, R d (stmt d)) -> relates R (exec stmt).
Proof. intros H w. apply H. Qed.

Lemma relates_run_stmt (stmt : DB -> exn + DB) :
  (forall d d', stmt d = inr d' -> R d d') -> relates R (run_stmt stmt).
Proof.
  intros H w. unfold run_stmt.
  destruct (stmt (db w)) as [e | d'] eqn:E; [apply R_refl | exact (H _ _ E)].
Qed.

Lemma relates_when (c : bool) (m : M unit) : relates R m -> relates R (when c m).
Proof. intros H. destruct c; [exact H | apply relates_ret]. Qed.

Lemma relates_for_each {A} (body : A -> M unit) (xs : list A) :
  (forall x, relates R (body x)) -> relates R (for_each body xs).
Proof.
  intros H. induction xs as [| x xs IH]; simpl; [apply relates_ret |].
  apply relates_bind; [apply H | intros _; exact IH].
Qed.

Lemma relates_sendEmail (rt : Runtime) (to subject : string) :
  (forall id st d d',
     insert_email_log (CURRENT_TIMESTAMP rt) id to subject "custom" st d = inr d' -> R d d') ->
  relates R (sendEmail rt to subject).
Proof.
  intros H. unfold sendEmail.
  apply relates_try_catch.
  - apply relates_bind; [apply relates_sendMail | intros info].
    apply relates_bind; [apply relates_uuidv4 | intros id].
    apply relates_bind; [apply relates_run_stmt, H | intros _; apply relates_ret].
  - intros e.
    apply relates_bind; [apply relates_console_write | intros _].
    apply relates_bind; [apply relates_uuidv4 | intros id].
    apply relates_bind; [apply relates_run_stmt, H | intros _; apply relates_ret].
Qed.

End Relates.

(** Takes a handler apart along its binds, branches and catch blocks, and
    leaves one goal per statement it runs. *)
Ltac walk Hrefl Htrans :=
  repeat first
    [ apply (relates_sendEmail _ Hrefl Htrans); intros ? ? ? ?
    | apply (relates_bind _ Htrans); [| intro]
    | apply (relates_try_catch _ Htrans); [| intro]
    | apply (relates_ret _ Hrefl)
    | apply (relates_throw _ Hrefl)
    | apply (relates_lift _ Hrefl)
    | apply (relates_query _ Hrefl)
    | apply (relates_uuidv4 _ Hrefl)
    | apply (relates_console_write _ Hrefl)
    | apply (relates_when _ Hrefl)
    | apply (relates_for_each _ Hrefl Htrans); intro
    | apply (relates_sendMail _ Hrefl)
    | apply (relates_exec _); intro
    | apply (relates_run_stmt _ Hrefl); intros ? ?
    | progress unfold internal_notification_html, property, data_object, object
    | match goal with
      | |- relates _ (if ?c then _ else _) => destruct c
      | |- relates _ (match ?x with _ => _ end) => destruct x
      end ].

(** *** The email service without the freshness assumption *)

(** X6. Whatever the transport does and whatever identifiers are drawn,
    [sendEmail] changes no table but [email_log], keeps every row that
    [email_log] had, and appends at most one row, addressed to the
    recipient and with the subject it was called with. *)
Theorem sendEmail_only_appends_to_the_log
    (rt : Runtime) (to subject : string) (w : World) :
  exists rows : list EmailLog.t,
    db (snd (sendEmail rt to subject w))
      = with_email_log (email_log (db w) ++ rows) (db w) /\
    (List.length rows <= 1)%nat /\
    Forall (fun r => EmailLog.recipient r = to /\ EmailLog.subject r = subject) rows.
Proof.
  unfold sendEmail, try_catch, bind, transporter_sendMail, uuidv4, run_stmt,
    console_write, ret, insert_email_log.
  cbn [db console uuid_calls mail_calls].
  destruct (sendMail_at rt (mail_calls w)) as [msg | info];
    cbn [db console uuid_calls mail_calls fst snd];
    repeat match goal with
           | |- context [if ?c then _ else _] =>
               destruct c; cbn [db console uuid_calls mail_calls fst snd]
           end;
    first
      [ exists []; split; [rewrite app_nil_r; destruct (db w); reflexivity |];
        split; [simpl; lia | constructor]
      | eexists [_]; split; [reflexivity |]; split; [simpl; lia |];
        repeat constructor ].
Qed.

(** *** Billing webhook: the other branches *)







Lemma billing_frame_refl (d : DB) : billing_frame d d.
Proof. unfold billing_frame. repeat split. exists []. now rewrite app_nil_r. Qed.

Lemma billing_frame_trans (a b c : DB) :
  billing_frame a b -> billing_frame b c -> billing_frame a c.
Proof.
  unfold billing_frame.
  intros [A1 [A2 [A3 [A4 [A5 [A6 [A7 [r1 A8]]]]]]]] [B1 [B2 [B3 [B4 [B5 [B6 [B7 [r2 B8]]]]]]]].
  repeat split; try congruence.
  exists (r1 ++ r2)%list. rewrite B8, A8. now rewrite app_assoc.
Qed.

Lemma billing_frame_update {f : Client.t -> Client.t} (test : Client.t -> bool) (d : DB) :
  (forall c, Client.id (f c) = Client.id c /\ Client.email (f c) = Client.email c) ->
  billing_frame d (with_clients (map (fun c => if test c then f c else c) (clients d)) d).
Proof.
  intros Hf. unfold billing_frame. destruct d as [s t c l a p e]. cbn.
  repeat split.
  - rewrite map_map. apply map_ext. intros x. destruct (test x); [apply Hf | reflexivity].
  - rewrite map_map. apply map_ext. intros x. destruct (test x); [apply Hf | reflexivity].
  - exists []. now rewrite app_nil_r.
Qed.

Lemma billing_frame_log (ts : string) (id to subject template st : string) (d d' : DB) :
  insert_email_log ts id to subject template st d = inr d' -> billing_frame d d'.
Proof.
  unfold insert_email_log. destruct (has EmailLog.id id (email_log d)); [discriminate |].
  intros H. injection H as <-. unfold billing_frame. destruct d; cbn.
  repeat split. eexists. reflexivity.
Qed.

Lemma billing_frame_active (ts : string) (m u : option string) (email : string) (d : DB) :
  billing_frame d (update_client_active ts m u email d).
Proof.
  unfold update_client_active.
  apply (billing_frame_update (f := Client.set_membership "active" m u ts)
           (fun c => (Client.email c =? email)%string)).
  intros c. destruct c. split; reflexivity.
Qed.

Lemma billing_frame_churned (ts : string) (email : string) (d : DB) :
  billing_frame d (update_client_churned ts email d).
Proof.
  unfold update_client_churned.
  apply (billing_frame_update (f := Client.set_status "churned" ts)
           (fun c => (Client.email c =? email)%string)).
  intros c. destruct c. split; reflexivity.
Qed.

(** X10. Whatever is delivered to the billing webhook, signed or not, it
    never adds or removes a client and never changes a client's id or
    email; it leaves subscribers, trial signups, leads, lead activity and
    capture pages exactly as they were, and in [email_log] it only appends. *)
Theorem billing_webhook_frame
    (rt : Runtime) (signature : option string) (b : WhopBody.t) (w : World) :
  billing_frame (db w) (db (snd (post_webhooks_whop rt signature b w))).
Proof.
  revert w. change (relates billing_frame (post_webhooks_whop rt signature b)).
  unfold post_webhooks_whop. cbv zeta.
  walk billing_frame_refl billing_frame_trans;
    first [ eapply billing_frame_log; eassumption
          | apply billing_frame_active
          | apply billing_frame_churned ].
Qed.

(** *** Lead-Ads delivery *)

Lemma quiet_ret {A} (a : A) : quiet (ret a).
Proof. intros w. repeat split. Qed.

Lemma quiet_throw {A} (e : exn) : quiet (@throw A e).
Proof. intros w. repeat split. Qed.

Lemma quiet_console_write (line : string) : quiet (console_write line).
Proof. intros w. repeat split. Qed.

Lemma quiet_bind {A B} (m : M A) (k : A -> M B) :
  quiet m -> (forall a, quiet (k a)) -> quiet (bind m k).
Proof.
  intros Hm Hk w. unfold bind. specialize (Hm w).
  destruct (m w) as [[e | a] w1]; [exact Hm |].
  specialize (Hk a w1). cbn [snd] in Hm.
  destruct Hm as [M1 [M2 M3]], Hk as [K1 [K2 K3]]. repeat split; congruence.
Qed.

Lemma quiet_try_catch {A} (m : M A) (handler : exn -> M A) :
  quiet m -> (forall e, quiet (handler e)) -> quiet (try_catch m handler).
Proof.
  intros Hm Hh w. unfold try_catch. specialize (Hm w).
  destruct (m w) as [[e | a] w1]; [| exact Hm].
  specialize (Hh e w1). cbn [snd] in Hm.
  destruct Hm as [M1 [M2 M3]], Hh as [K1 [K2 K3]]. repeat split; congruence.
Qed.

Lemma quiet_for_each {A} (body : A -> M unit) (xs : list A) :
  (forall x, quiet (body x)) -> quiet (for_each body xs).
Proof.
  intros H. induction xs as [| x xs IH]; simpl; [apply quiet_ret |].
  apply quiet_bind; [apply H | intros _; exact IH].
Qed.

Lemma quiet_object {A} (name : string) (o : Js.value A) : quiet (object name o).
Proof. destruct o; [apply quiet_throw | apply quiet_throw | apply quiet_ret]. Qed.

Lemma post_webhooks_facebook_quiet (inspect : Js.value json_object -> string)
    (entry : Js.value (list (Js.value FbEntry.t))) :
  quiet (post_webhooks_facebook inspect entry).
Proof.
  unfold post_webhooks_facebook. apply quiet_try_catch.
  - destruct entry as [| | entries]; try apply quiet_ret.
    apply quiet_bind; [| intros _; apply quiet_ret].
    apply quiet_for_each. intros e.
    apply quiet_bind; [apply quiet_object | intros e'].
    apply quiet_for_each. intros c.
    apply quiet_bind; [apply quiet_object | intros c'].
    unfold when. destruct (equals _ _); [apply quiet_console_write | apply quiet_ret].
  - intros e. apply quiet_bind; [apply quiet_console_write | intros _; apply quiet_ret].
Qed.

(** The inner loop on a list of objects. *)
Lemma changes_loop_run (inspect : Js.value json_object -> string)
    (cs : list (Js.value FbChange.t)) (w : World) :
  Forall (fun c => exists c', c = Js.val c') cs ->
  for_each
    (fun change =>
       change <- object "field" change ;;
       when (equals (FbChange.field change) "leadgen")
            (console_write ("Facebook lead webhook: " ++ inspect (FbChange.value change))))
    cs w
  = (inr tt,
     mkWorld (db w)
       (console w ++
        flat_map (fun c => match c with
                           | Js.val c' =>
                               if equals (FbChange.field c') "leadgen"
                               then [("Facebook lead webhook: "
                                      ++ inspect (FbChange.value c'))%string]
                               else []
                           | _ => []
                           end) cs)
       (uuid_calls w) (mail_calls w)).
Proof.
  intros H. revert w. induction H as [| c cs [c' ->] _ IH]; intros w.
  - simpl. rewrite app_nil_r. now destruct w.
  - cbn [for_each flat_map]. unfold object at 1. rewrite bind_ret.
    unfold when at 1.
    destruct (equals (FbChange.field c') "leadgen").
    + rewrite (bind_run _ _ _ _ _ (console_write_run _ _)). rewrite IH.
      cbn [db console uuid_calls mail_calls]. now rewrite <- app_assoc.
    + rewrite (bind_run _ _ _ _ _ (ret_run tt _)). rewrite IH. reflexivity.
Qed.

Lemma entries_loop_run (inspect : Js.value json_object -> string)
    (entries : list (Js.value FbEntry.t)) (w : World) :
  objects_only entries ->
  for_each
    (fun e =>
       e <- object "changes" e ;;
       for_each
         (fun change =>
            change <- object "field" change ;;
            when (equals (FbChange.field change) "leadgen")
                 (console_write ("Facebook lead webhook: "
                                 ++ inspect (FbChange.value change))))
         (match FbEntry.changes e with
          | Js.val cs => cs
          | _ => []
          end))
    entries w
  = (inr tt,
     mkWorld (db w) (console w ++ leadgen_lines inspect entries)
       (uuid_calls w) (mail_calls w)).
Proof.
  intros H. revert w. induction H as [| e entries [e' [-> Hcs]] _ IH]; intros w.
  - simpl. rewrite app_nil_r. now destruct w.
  - cbn [for_each]. unfold object at 1. rewrite bind_ret.
    rewrite (bind_run _ _ _ _ _ (changes_loop_run inspect _ w Hcs)). rewrite IH.
    cbn [db console uuid_calls mail_calls leadgen_lines flat_map].
    now rewrite <- app_assoc.
Qed.

(** X11. A Lead-Ads delivery never reaches the store: whatever the body,
    the handler changes no table, draws no identifier and sends no email.
    Without an [entry] it answers 400; with entries and changes that are
    all objects it answers 200 and writes one console line per "leadgen"
    change, in order. *)
Theorem lead_ads_delivery_is_only_logged
    (inspect : Js.value json_object -> string)
    (entry : Js.value (list (Js.value FbEntry.t))) (w : World) :
  quiet (post_webhooks_facebook inspect entry) /\
  (Js.bind entry = None ->
   post_webhooks_facebook inspect entry w
     = (inr (mkResponse 400 (Error "Invalid webhook data")), w)) /\
  (forall entries, entry = Js.val entries -> objects_only entries ->
   post_webhooks_facebook inspect entry w
     = (inr (mkResponse 200 Success),
        mkWorld (db w) (console w ++ leadgen_lines inspect entries)
          (uuid_calls w) (mail_calls w))).
Proof.
  split; [apply post_webhooks_facebook_quiet |]. split.
  - destruct entry; try discriminate; reflexivity.
  - intros entries -> Hobj. unfold post_webhooks_facebook, try_catch.
    rewrite (bind_run _ _ _ _ _ (entries_loop_run inspect entries w Hobj)).
    reflexivity.
Qed.

Lemma lead_ads_delivery_is_only_logged_witness :
  post_webhooks_facebook Scenarios.show_size Js.undefined Examples.w_demo
    = (inr (mkResponse 400 (Error "Invalid webhook data")), Examples.w_demo) /\
  post_webhooks_facebook Scenarios.show_size Scenarios.fb_delivery Examples.w_demo
    = (inr (mkResponse 200 Success),
       mkWorld (db Examples.w_demo) ["Facebook lead webhook: 2"] 0 0).
Proof.
  split.
  - apply (proj1 (proj2 (lead_ads_delivery_is_only_logged Scenarios.show_size
                           Js.undefined Examples.w_demo))).
    reflexivity.
  - apply (proj2 (proj2 (lead_ads_delivery_is_only_logged Scenarios.show_size
                           Scenarios.fb_delivery Examples.w_demo))
             _ eq_refl).
    repeat first [ constructor | eexists; split; [reflexivity |] | eexists; reflexivity ].
Defined.

(** *** Serving a capture page *)

Lemma find_map_stable {R} (test : R -> bool) (g : R -> R) (rows : list R) :
  (forall r, test (g r) = test r) ->
  find test (map g rows) = option_map g (find test rows).
Proof.
  intros H. induction rows as [| x rows IH]; simpl; [reflexivity |].
  rewrite H. destruct (test x); [reflexivity | exact IH].
Qed.

(** X12. [GET /quote/:slug] counts a view only for an active page: when no
    page with the slug is active (none exists, or it is paused) the answer
    is 404 and nothing changes; when one is, the page file is sent, [views]
    goes up by one on the rows with that slug, and looking the page up
    again finds it with the incremented counter. *)
Theorem quote_counts_views_of_active_pages (slug : string) (w : World) :
  (select_active_page slug (db w) = None ->
   get_quote slug w = (inr (Text 404 "Page not found"), w)) /\
  (forall p, select_active_page slug (db w) = Some p ->
   exists w' : World,
     get_quote slug w = (inr (File "capture-page.html"), w') /\
     db w' = update_views slug (db w) /\
     select_active_page slug (db w') = Some (CapturePage.incr_views p) /\
     CapturePage.views (CapturePage.incr_views p) = CapturePage.views p + 1).
Proof.
  unfold get_quote, bind, query, ret, exec. split.
  - intros ->. reflexivity.
  - intros p Hp. rewrite Hp. eexists. split; [reflexivity |].
    cbn [db]. split; [reflexivity |]. split; [| destruct p; reflexivity].
    unfold select_active_page in *. unfold update_views.
    unfold with_capture_pages. cbn [capture_pages].
    rewrite find_map_stable.
    + rewrite Hp. cbn [option_map].
      apply find_some in Hp. destruct Hp as [_ Ht].
      apply andb_true_iff in Ht. destruct Ht as [Hs _]. now rewrite Hs.
    + intros r. destruct (CapturePage.slug r =? slug)%string eqn:Hr.
      * destruct r. cbn in *. now rewrite Hr.
      * now rewrite Hr.
Qed.

Lemma quote_counts_views_of_active_pages_witness :
  get_quote "hvac-edmonton-demo" Scenarios.w_paused
    = (inr (Text 404 "Page not found"), Scenarios.w_paused) /\
  exists w' : World,
    get_quote "hvac-edmonton-demo" Examples.w_demo = (inr (File "capture-page.html"), w') /\
    option_map CapturePage.views (select_active_page "hvac-edmonton-demo" (db w'))
      = Some 848.
Proof.
  split.
  - apply (proj1 (quote_counts_views_of_active_pages "hvac-edmonton-demo"
                    Scenarios.w_paused)).
    reflexivity.
  - destruct (proj2 (quote_counts_views_of_active_pages "hvac-edmonton-demo"
                       Examples.w_demo) Examples.demo_page eq_refl)
      as [w' [Hrun [_ [Hfind _]]]].
    exists w'. split; [exact Hrun |]. rewrite Hfind. reflexivity.
Defined.

(** *** What the template renderer does to signups and assigned leads *)

Lemma bound_string (v : Js.value string) :
  Js.bind v <> None -> exists s, v = Js.val s.
Proof. destruct v as [| | s]; simpl; try congruence. eauto. Qed.




Lemma select_client_some (id : string) (d : DB) (c : Client.t) :
  select_client id d = Some c -> has Client.id id (clients d) = true.
Proof.
  intros H. apply find_some in H. destruct H as [Hin Hid].
  apply has_true_iff. exists c. split; [exact Hin | now apply String.eqb_eq].
Qed.

(** The second part of [/api/leads] for a client that exists: rendering the
    notification throws before anything is sent. *)
Lemma notify_client_throws (rt : Runtime) (b : LeadBody.t) (cid : string) (c : Client.t)
    (w : World) :
  LeadBody.scalars b = true ->
  (cid =? "")%string = false ->
  select_client cid (db w) = Some c ->
  notify_client rt b (Some cid) w
  = (inl (TypeError "Cannot read properties of undefined (reading 'toUpperCase')"), w).
Proof.
  intros Hs Hcid Hc. unfold notify_client. rewrite Hcid.
  rewrite (bind_run _ _ _ _ _ (query_run _ _)). rewrite Hc.
  destruct (lead_fields_scalar b Hs) as (Hn & Hp & Hsv & Hci & Hm & _).
  destruct (show_scalar rt _ Hn) as [name ->].
  destruct (show_scalar rt _ (scalar_or_literal _ "Service request" Hsv)) as [service ->].
  destruct (show_scalar rt _ Hp) as [phone ->].
  destruct (show_scalar rt _ (scalar_or_literal _ "Local area" Hci)) as [city ->].
  rewrite !bind_lift.
  destruct (Js.truthy (LeadBody.message b));
    [destruct (show_scalar rt _ Hm) as [message ->] |]; reflexivity.
Qed.

(** What the handler does for a lead that comes through a client's page. *)
Lemma post_leads_assigned_run
    (rt : Runtime) (w : World) (b : LeadBody.t) (slug cid : string)
    (p : CapturePage.t) (c : Client.t) :
  LeadBody.scalars b = true ->
  Js.truthy (LeadBody.name b) = true ->
  Js.truthy (LeadBody.phone b) = true ->
  Js.truthy (LeadBody.capture_page b) = true ->
  text_of rt (LeadBody.capture_page b) = Some slug ->
  select_capture_page slug (db w) = Some p ->
  CapturePage.client_id p = Some cid ->
  (cid =? "")%string = false ->
  select_client cid (db w) = Some c ->
  has Lead.id (next_uuid rt w 0) (leads (db w)) = false ->
  has LeadActivity.id (next_uuid rt w 1) (lead_activity (db w)) = false ->
  exists w' : World,
    post_leads rt b w = (inr (mkResponse 500 (Error "Lead capture failed")), w') /\
    leads (db w') = (leads (db w) ++ [lead_row rt w b (Some cid)])%list /\
    capture_pages (db w') =
      map (fun q => if (CapturePage.slug q =? slug)%string
                    then CapturePage.incr_submissions q else q) (capture_pages (db w)) /\
    lead_activity (db w') = (lead_activity (db w) ++ [created_activity rt w b])%list /\
    email_log (db w') = email_log (db w) /\
    mail_calls w' = mail_calls w /\
    clients (db w') = clients (db w).
Proof.
  intros Hs Hn Hp Ht Hslug Hpage Hown Hcid Hclient F0 F1.
  assert (Howner : owner_of rt b (db w) = Some cid).
  { unfold owner_of. rewrite Ht, Hslug. cbn [select_capture_page_where].
    now rewrite Hpage. }
  assert (Hrun := store_lead_run rt w b Hs Hn Hp).
  rewrite Howner in Hrun.
  specialize (Hrun (select_client_some _ _ _ Hclient) F0 F1).
  destruct (with_lead_stored_tables rt w b (Some cid))
    as [_ [_ [Hclients [Hleads [Hact [Hpages Hlog]]]]]].
  rewrite Ht, Hslug in Hpages. cbn [update_submissions_where] in Hpages.
  unfold post_leads, try_catch. rewrite Hn, Hp. cbn [negb orb].
  rewrite (bind_run _ _ _ _ _ Hrun). cbn [fst snd].
  erewrite (bind_throw (notify_client _ _ _)).
  2:{ apply (notify_client_throws rt b cid c); [exact Hs | exact Hcid |].
      cbn [db]. unfold select_client. rewrite Hclients. exact Hclient. }
  eexists. split; [reflexivity |]. cbn [db console uuid_calls mail_calls].
  split; [exact Hleads |].
  split; [rewrite Hpages; destruct (db w); reflexivity |].
  repeat split; assumption.
Qed.

(** X14. A lead whose fields are each absent, [null], a string or a
    number, with a truthy name and phone, submitted through a page that is
    bound to an existing client, is stored with that client as owner; the
    page's [submissions] goes up by one and one "created" activity row is
    appended. But rendering the client's notification throws in the same
    way, so neither the client nor the operator is emailed and the answer
    is 500. *)
Theorem assigned_lead_is_stored_but_answers_500
    (rt : Runtime) (w : World) (b : LeadBody.t) (slug cid : string)
    (p : CapturePage.t) (c : Client.t) :
  LeadBody.scalars b = true ->
  Js.truthy (LeadBody.name b) = true ->
  Js.truthy (LeadBody.phone b) = true ->
  Js.truthy (LeadBody.capture_page b) = true ->
  text_of rt (LeadBody.capture_page b) = Some slug ->
  select_capture_page slug (db w) = Some p ->
  CapturePage.client_id p = Some cid ->
  (cid =? "")%string = false ->
  select_client cid (db w) = Some c ->
  has Lead.id (next_uuid rt w 0) (leads (db w)) = false ->
  has LeadActivity.id (next_uuid rt w 1) (lead_activity (db w)) = false ->
  exists w' : World,
    post_leads rt b w = (inr (mkResponse 500 (Error "Lead capture failed")), w') /\
    leads (db w') = (leads (db w) ++ [lead_row rt w b (Some cid)])%list /\
    capture_pages (db w') =
      map (fun q => if (CapturePage.slug q =? slug)%string
                    then CapturePage.incr_submissions q else q) (capture_pages (db w)) /\
    lead_activity (db w') = (lead_activity (db w) ++ [created_activity rt w b])%list /\
    email_log (db w') = email_log (db w) /\
    mail_calls w' = mail_calls w /\
    clients (db w') = clients (db w).
Proof. exact (post_leads_assigned_run rt w b slug cid p c). Qed.

Lemma assigned_lead_is_stored_but_answers_500_witness :
  exists w' : World,
    post_leads Examples.rt_ok Examples.lead_demo_page Examples.w_demo
      = (inr (mkResponse 500 (Error "Lead capture failed")), w') /\
    map Lead.client_id (leads (db w')) = [Some "client-1"; Some "client-1"] /\
    map CapturePage.submissions (capture_pages (db w')) = [24] /\
    email_log (db w') = [].
Proof.
  destruct (assigned_lead_is_stored_but_answers_500 Examples.rt_ok Examples.w_demo
              Examples.lead_demo_page "hvac-edmonton-demo" "client-1"
              Examples.demo_page Examples.demo_client
              eq_refl eq_refl eq_refl eq_refl eq_refl eq_refl eq_refl eq_refl eq_refl
              eq_refl eq_refl)
    as [w' [Hrun [Hleads [Hpages [_ [Hlog _]]]]]].
  exists w'. split; [exact Hrun |].
  rewrite Hleads, Hpages, Hlog. repeat split; reflexivity.
Defined.

(** *** Creating clients and capture pages *)





Lemma has_token_false_find (token : string) (rows : list Client.t) (c : Client.t) :
  has_token token rows = false ->
  Client.dashboard_token c = Some token ->
  find (fun c => match Client.dashboard_token c with
                 | Some t => (t =? token)%string
                 | None => false
                 end) (rows ++ [c]) = Some c.
Proof.
  unfold has_token. intros Hno Hc.
  induction rows as [| x rows IH]; simpl in *.
  - now rewrite Hc, String.eqb_refl.
  - apply orb_false_iff in Hno. destruct Hno as [Hx Hr]. rewrite Hx. auto.
Qed.

(** What the handler does when the insert goes through. *)
Lemma post_admin_clients_run (rt : Runtime) (base : option string) (w : World)
    (b : ClientBody.t) :
  Js.bind (ClientBody.business_name b) <> None ->
  Js.bind (ClientBody.contact_name b) <> None ->
  Js.bind (ClientBody.email b) <> None ->
  Js.bind (ClientBody.phone b) <> None ->
  Js.bind (ClientBody.industry b) <> None ->
  Js.bind (ClientBody.city b) <> None ->
  has Client.id (next_uuid rt w 0) (clients (db w)) = false ->
  has Client.email (Js.tpl (ClientBody.email b)) (clients (db w)) = false ->
  has_token (substring 0 24 (remove_hyphens (next_uuid rt w 1))) (clients (db w)) = false ->
  references TrialSignup.id (trial_signups (db w)) (Js.bind (ClientBody.trial_id b)) = true ->
  post_admin_clients rt base b w
  = (inr (ClientCreated (next_uuid rt w 0)
            (substring 0 24 (remove_hyphens (next_uuid rt w 1)))
            (env_or base "https://leadflow24.com" ++ "/dashboard?token="
             ++ substring 0 24 (remove_hyphens (next_uuid rt w 1)))),
     mkWorld
       ((if Js.truthy_string (ClientBody.trial_id b)
         then update_trial_converted (Js.tpl (ClientBody.trial_id b))
         else fun d => d)
          (with_clients (clients (db w) ++ [client_row rt w b]) (db w)))
       (console w) (S (S (uuid_calls w))) (mail_calls w)).
Proof.
  intros Hbn Hcn Hem Hph Hin Hci Fid Femail Ftoken Hfk.
  destruct (bound_string _ Hbn) as [bn Ebn].
  destruct (bound_string _ Hcn) as [cn Ecn].
  destruct (bound_string _ Hem) as [em Eem].
  destruct (bound_string _ Hph) as [ph Eph].
  destruct (bound_string _ Hin) as [ind Ein].
  destruct (bound_string _ Hci) as [ci Eci].
  unfold client_row, next_uuid in *. rewrite Nat.add_0_r in *.
  replace (uuid_calls w + 1)%nat with (S (uuid_calls w)) in * by lia.
  unfold post_admin_clients, try_catch.
  rewrite Ebn, Ecn, Eem, Eph, Ein, Eci in *. cbn [Js.bind Js.tpl] in *.
  rewrite (bind_run _ _ _ _ _ (uuidv4_run rt _)).
  rewrite (bind_run _ _ _ _ _ (uuidv4_run rt _)).
  cbn [db console uuid_calls mail_calls].
  erewrite (bind_run (run_stmt _)).
  2:{ apply run_stmt_ok. cbn [db]. unfold insert_client. cbn [and_then required].
      rewrite Fid, Femail, Ftoken, Hfk. reflexivity. }
  unfold when.
  destruct (Js.truthy_string (ClientBody.trial_id b));
    unfold bind, exec, ret; reflexivity.
Qed.





Lemma filter_none {R} (test : R -> bool) (rows : list R) :
  (forall r, In r rows -> test r = false) -> filter test rows = [].
Proof.
  induction rows as [| x rows IH]; simpl; intros H; [reflexivity |].
  rewrite (H x (or_introl eq_refl)). apply IH. intros r Hr. apply H. now right.
Qed.







(** X19. A client that has just been created can open its dashboard with
    the token of the answer: the dashboard is found, carries the business
    name and plan that were stored, and is empty - no lead, close rate and
    cost per lead 0, nothing in the histogram. Existing leads are taken to
    reference existing clients, as the schema requires. *)
Theorem new_client_opens_an_empty_dashboard
    (rt rt2 : Runtime) (base : option string) (w : World) (b : ClientBody.t) :
  Js.bind (ClientBody.business_name b) <> None ->
  Js.bind (ClientBody.contact_name b) <> None ->
  Js.bind (ClientBody.email b) <> None ->
  Js.bind (ClientBody.phone b) <> None ->
  Js.bind (ClientBody.industry b) <> None ->
  Js.bind (ClientBody.city b) <> None ->
  has Client.id (next_uuid rt w 0) (clients (db w)) = false ->
  has Client.email (Js.tpl (ClientBody.email b)) (clients (db w)) = false ->
  has_token (substring 0 24 (remove_hyphens (next_uuid rt w 1))) (clients (db w)) = false ->
  references TrialSignup.id (trial_signups (db w)) (Js.bind (ClientBody.trial_id b)) = true ->
  (forall l, In l (leads (db w)) ->
             references Client.id (clients (db w)) (Lead.client_id l) = true) ->
  let token := substring 0 24 (remove_hyphens (next_uuid rt w 1)) in
  let w1 := snd (post_admin_clients rt base b w) in
  exists d : Dashboard,
    get_dashboard rt2 token w1 = (inr (mkResponse 200 (DashboardJson d)), w1) /\
    businessName (client d) = Js.tpl (ClientBody.business_name b) /\
    plan (client d) = Some (Js.or_string (ClientBody.plan b) "starter") /\
    totalLeads (stats d) = 0%nat /\
    closeRate (stats d) = Num (Js.of_Z 0) /\
    costPerLead (stats d) = Num (Js.of_Z 0) /\
    recentLeads d = [] /\
    bucket_total (weeklyLeads d) = 0%nat.
Proof.
  intros Hbn Hcn Hem Hph Hin Hci Fid Femail Ftoken Hfk Hleads token w1.
  subst w1. rewrite (post_admin_clients_run rt base w b Hbn Hcn Hem Hph Hin Hci Fid
                       Femail Ftoken Hfk). cbn [snd].
  set (w1 := mkWorld _ _ _ _).
  assert (Hclients : clients (db w1) = (clients (db w) ++ [client_row rt w b])%list)
    by (unfold w1; cbn [db];
        destruct (Js.truthy_string (ClientBody.trial_id b)), (db w); reflexivity).
  assert (Hl1 : leads (db w1) = leads (db w))
    by (unfold w1; cbn [db];
        destruct (Js.truthy_string (ClientBody.trial_id b)), (db w); reflexivity).
  assert (Hsel : select_client_by_token token (db w1) = Some (client_row rt w b)).
  { unfold select_client_by_token. rewrite Hclients.
    apply has_token_false_find; [exact Ftoken | reflexivity]. }
  assert (Hnone : select_leads_of_client (Client.id (client_row rt w b)) (db w1) = []).
  { unfold select_leads_of_client. rewrite Hl1.
    rewrite filter_none; [reflexivity |]. intros l Hl.
    specialize (Hleads l Hl). unfold of_client, references in *.
    destruct (Lead.client_id l) as [x |]; [| reflexivity].
    apply String.eqb_neq. intros ->. unfold client_row in Hleads.
    cbn [Client.id] in Hleads. congruence. }
  eexists. split; [apply (get_dashboard_run rt2 w1 token _ Hsel) |].
  rewrite Hnone. repeat split.
Qed.

Lemma new_client_opens_an_empty_dashboard_witness :
  let w1 := snd (post_admin_clients Scenarios.rt_uuid None Scenarios.new_client
                   Examples.w_demo) in
  exists d : Dashboard,
    get_dashboard Examples.rt_ok "3f2b8c1e9a4d4e7b8c2f0000" w1
      = (inr (mkResponse 200 (DashboardJson d)), w1) /\
    businessName (client d) = "Park Plumbing" /\
    totalLeads (stats d) = 0%nat.
Proof.
  destruct (new_client_opens_an_empty_dashboard Scenarios.rt_uuid Examples.rt_ok None
              Examples.w_demo Scenarios.new_client)
    as [d [Hrun [Hname [_ [Htotal _]]]]].
  1-6: discriminate.
  1-4: reflexivity.
  - intros l [<- | []]. reflexivity.
  - cbv zeta. exists d. repeat split; assumption.
Defined.

(** *** The constraints of the schema are kept *)
Lemma filter_appended {R} (test : R -> bool) (rows : list R) (r : R) :
  List.length (filter test (rows ++ [r]))
  = (List.length (filter test rows) + Nat.b2n (test r))%nat.
Proof.
  rewrite filter_app, length_app. simpl. destruct (test r); reflexivity.
Qed.

(** X21. A lead (its fields each absent, [null], a string or a number)
    that came through a client's page and was answered 500 is on that
    client's dashboard all the same: after the request the dashboard
    counts one lead more in total and one more "new" lead. *)
Theorem lead_answered_500_is_on_the_dashboard
    (rt rt2 : Runtime) (w : World) (b : LeadBody.t) (slug token : string)
    (p : CapturePage.t) (c c0 : Client.t) :
  LeadBody.scalars b = true ->
  Js.truthy (LeadBody.name b) = true ->
  Js.truthy (LeadBody.phone b) = true ->
  Js.truthy (LeadBody.capture_page b) = true ->
  text_of rt (LeadBody.capture_page b) = Some slug ->
  select_capture_page slug (db w) = Some p ->
  CapturePage.client_id p = Some (Client.id c) ->
  (Client.id c =? "")%string = false ->
  select_client (Client.id c) (db w) = Some c0 ->
  select_client_by_token token (db w) = Some c ->
  has Lead.id (next_uuid rt w 0) (leads (db w)) = false ->
  has LeadActivity.id (next_uuid rt w 1) (lead_activity (db w)) = false ->
  let w' := snd (post_leads rt b w) in
  exists d d' : Dashboard,
    fst (post_leads rt b w) = inr (mkResponse 500 (Error "Lead capture failed")) /\
    get_dashboard rt2 token w = (inr (mkResponse 200 (DashboardJson d)), w) /\
    get_dashboard rt2 token w' = (inr (mkResponse 200 (DashboardJson d')), w') /\
    totalLeads (stats d') = S (totalLeads (stats d)) /\
    newLeads (stats d') = S (newLeads (stats d)).
Proof.
  intros Hsc Hn Hp Hcp Hs Hpage Hown Hcid Hclient Htoken F0 F1 w'.
  destruct (post_leads_assigned_run rt w b slug (Client.id c) p c0
              Hsc Hn Hp Hcp Hs Hpage Hown Hcid Hclient F0 F1)
    as [w1 [Hrun [Hleads [_ [_ [_ [_ Hclients]]]]]]].
  subst w'. rewrite Hrun. cbn [fst snd].
  assert (Htoken1 : select_client_by_token token (db w1) = Some c)
    by (unfold select_client_by_token in *; now rewrite Hclients).
  eexists _, _. split; [reflexivity |].
  split; [apply (get_dashboard_run rt2 w token c Htoken) |].
  split; [apply (get_dashboard_run rt2 w1 token c Htoken1) |].
  unfold dashboard, select_leads_of_client, count_status.
  cbn [stats totalLeads newLeads].
  rewrite !order_by_filter_length, !order_by_length, Hleads.
  rewrite filter_app, !length_app, filter_app, length_app.
  unfold lead_row. cbn [filter of_client Lead.client_id has_status Lead.status].
  rewrite String.eqb_refl. cbn [filter has_status Lead.status List.length].
  replace ("new" =? "new")%string with true by reflexivity.
  cbn [List.length]. lia.
Qed.

Lemma lead_answered_500_is_on_the_dashboard_witness :
  let w' := snd (post_leads Examples.rt_ok Examples.lead_demo_page Examples.w_demo) in
  exists d d' : Dashboard,
    fst (post_leads Examples.rt_ok Examples.lead_demo_page Examples.w_demo)
      = inr (mkResponse 500 (Error "Lead capture failed")) /\
    get_dashboard Examples.rt_ok "demo_token" Examples.w_demo
      = (inr (mkResponse 200 (DashboardJson d)), Examples.w_demo) /\
    get_dashboard Examples.rt_ok "demo_token" w'
      = (inr (mkResponse 200 (DashboardJson d')), w') /\
    totalLeads (stats d') = S (totalLeads (stats d)) /\
    newLeads (stats d') = S (newLeads (stats d)).
Proof.
  exact (lead_answered_500_is_on_the_dashboard Examples.rt_ok Examples.rt_ok
           Examples.w_demo Examples.lead_demo_page "hvac-edmonton-demo" "demo_token"
           Examples.demo_page Examples.demo_client Examples.demo_client
           eq_refl eq_refl eq_refl eq_refl eq_refl eq_refl eq_refl eq_refl eq_refl
           eq_refl eq_refl eq_refl).
Defined.
